(** * Zendesk MCP gateway: a shallow embedding of [src/index.ts] and [src/server.ts]

    The gateway is TypeScript running on a single cooperative scheduler.  The
    embedding keeps the program's own shape:

    - run-time values are dynamically typed; they are modelled by [Val], the
      JSON values plus [undefined] and [NaN].  Numbers are integers ([Z]);
    - strings are [string]s, sequences of bytes, with
      [String.prototype.replace], [includes] and the [RegExp] replacement of
      [convertToCustomUrl] written out; the patterns the gateway searches for
      are ASCII;
    - every [async] method is a computation in the monad [Js]: it threads a
      [World] (the log of requests issued through axios and the lines written
      with [console.error]/[console.log]) and ends by returning a value, by
      throwing, or, for the two unbounded pagination loops, by running out of
      the fuel that bounds the number of pages;
    - the remote helpdesk is a function from the requests issued so far and
      the current request to a rejection or to [response.data]; all results
      are stated for every such function;
    - the session table of [server.ts] is a JavaScript object used as a map:
      a [gmap] of own properties in front of the properties every object
      literal inherits from [Object.prototype]. *)

From Stdlib Require Import ZArith Lia Ascii String.
From stdpp Require Import base strings list gmap pretty.

Local Open Scope char_scope.
Local Open Scope string_scope.
Local Open Scope Z_scope.
Local Open Scope list_scope.

(** ** Strings *)

Module Str.

(** [s.slice(n)] for [0 <= n]. *)
Fixpoint skip (n : nat) (s : string) : string :=
  match n, s with
  | O, _ => s
  | S _, EmptyString => EmptyString
  | S k, String _ s' => skip k s'
  end.

(** [s.includes(needle)]. *)
Fixpoint includes (needle s : string) : bool :=
  String.prefix needle s
  || match s with
     | EmptyString => false
     | String _ s' => includes needle s'
     end.

(** [s.replace(pat, repl)] for a string pattern and a replacement without
    substitution patterns: only the first occurrence is replaced. *)
Fixpoint replace_first (pat repl s : string) : string :=
  if String.prefix pat s then repl +:+ skip (String.length pat) s
  else match s with
       | EmptyString => EmptyString
       | String c s' => String c (replace_first pat repl s')
       end.

(** ECMAScript [GetSubstitution] for a regular expression without capture
    groups: [$$], [$&], [$`] and [$'] are expanded, every other [$] is
    literal. *)
Fixpoint GetSubstitution (matched before after template : string) : string :=
  match template with
  | EmptyString => EmptyString
  | String c rest =>
      if Ascii.eqb c "$"%char then
        match rest with
        | String d rest' =>
            if Ascii.eqb d "$"%char then
              String "$"%char (GetSubstitution matched before after rest')
            else if Ascii.eqb d "&"%char then
              matched +:+ GetSubstitution matched before after rest'
            else if Ascii.eqb d "`"%char then
              before +:+ GetSubstitution matched before after rest'
            else if Ascii.eqb d "'"%char then
              after +:+ GetSubstitution matched before after rest'
            else String c (GetSubstitution matched before after rest)
        | EmptyString => String c EmptyString
        end
      else String c (GetSubstitution matched before after rest)
  end.

(** [s.replace(new RegExp(pat, 'g'), template)] for a pattern [pat] that
    matches literally.  Matches are found left to right and do not overlap;
    [before] is the part of the subject already scanned and [inside] the
    number of characters of the current match still to be dropped. *)
Fixpoint replace_global (pat template before : string) (inside : nat)
    (s : string) : string :=
  match s with
  | EmptyString =>
      match inside with
      | O => if String.prefix pat EmptyString
             then GetSubstitution pat before EmptyString template
             else EmptyString
      | S _ => EmptyString
      end
  | String c s' =>
      let before' := before +:+ String c EmptyString in
      match inside with
      | S k => replace_global pat template before' k s'
      | O =>
          if String.prefix pat s then
            GetSubstitution pat before (skip (String.length pat) s) template
            +:+ match String.length pat with
                | O => String c (replace_global pat template before' O s')
                | S k => replace_global pat template before' k s'
                end
          else String c (replace_global pat template before' O s')
      end
  end.

Definition replace_all (pat template s : string) : string :=
  replace_global pat template EmptyString O s.

Definition is_empty (s : string) : bool :=
  match s with EmptyString => true | _ => false end.

End Str.

(** ** Values *)

#[warnings="-register-all"]
Inductive Val : Type :=
| VUndefined
| VNull
| VBool (b : bool)
| VNum (n : Z)
| VNaN
| VStr (s : string)
| VArr (xs : list Val)
| VObj (fields : list (string * Val)).

(** Own property [k] of an object literal. *)
Fixpoint assoc (k : string) (fields : list (string * Val)) : Val :=
  match fields with
  | [] => VUndefined
  | (k', v) :: fields' => if String.eqb k k' then v else assoc k fields'
  end.

(** [v.k] for a [v] that is neither [undefined] nor [null]; the keys read by
    the gateway are data keys, never methods. *)
Definition prop (v : Val) (k : string) : Val :=
  match v with
  | VObj fields => assoc k fields
  | VArr xs => if String.eqb k "length" then VNum (Z.of_nat (length xs)) else VUndefined
  | VStr s => if String.eqb k "length" then VNum (Z.of_nat (String.length s)) else VUndefined
  | _ => VUndefined
  end.

Definition nullish (v : Val) : bool :=
  match v with VUndefined | VNull => true | _ => false end.

(** [v?.k] *)
Definition opt_prop (v : Val) (k : string) : Val :=
  if nullish v then VUndefined else prop v k.

(** [ToBoolean] *)
Definition truthy (v : Val) : bool :=
  match v with
  | VUndefined | VNull | VNaN => false
  | VBool b => b
  | VNum n => negb (n =? 0)
  | VStr s => negb (Str.is_empty s)
  | VArr _ | VObj _ => true
  end.

(** [a || b] and [a ?? b], for operands without effects. *)
Definition or_else (a b : Val) : Val := if truthy a then a else b.
Definition coalesce (a b : Val) : Val := if nullish a then b else a.

(** [ToString], as used by template literals. *)
Fixpoint ToString (v : Val) : string :=
  match v with
  | VUndefined => "undefined"
  | VNull => "null"
  | VBool true => "true"
  | VBool false => "false"
  | VNum n => pretty n
  | VNaN => "NaN"
  | VStr s => s
  | VArr xs =>
      (fix join (l : list Val) : string :=
         match l with
         | [] => ""
         | x :: l' =>
             (if nullish x then "" else ToString x)
             +:+ match l' with [] => "" | _ => "," +:+ join l' end
         end) xs
  | VObj _ => "[object Object]"
  end.

Definition is_undefined (v : Val) : bool :=
  match v with VUndefined => true | _ => false end.

(** [v === true] *)
Definition is_true (v : Val) : bool :=
  match v with VBool true => true | _ => false end.

(** [v === "s"] *)
Definition is_string (v : Val) (s : string) : bool :=
  match v with VStr s' => String.eqb s' s | _ => false end.

(** ** Errors, the world, and the monad of asynchronous methods *)

(** The fields of a thrown [Error] that the gateway reads: [message], the
    axios [code] and the axios [response]. *)
Record JsError : Type := {
  e_message : string;
  e_code : Val;
  e_response : Val;
}.

Definition TypeError (message : string) : JsError :=
  {| e_message := message; e_code := VUndefined; e_response := VUndefined |}.

(** [new Error(message)] *)
Definition Error (message : string) : JsError :=
  {| e_message := message; e_code := VUndefined; e_response := VUndefined |}.

Inductive HttpMethod : Type := GET | POST | PUT | DELETE.

(** One call [axiosInstance.get(url, config)], [.post(url, data)] or
    [.put(url, data)]. *)
Record AxiosRequest : Type := {
  rq_method : HttpMethod;
  rq_url : string;
  rq_data : Val;
  rq_config : Val;
}.

Record World : Type := {
  requests : list AxiosRequest;
  console : list (list Val);
}.

Definition World0 : World := {| requests := []; console := [] |}.

(** The world after the further requests [rqs]. *)
Definition sent (w : World) (rqs : list AxiosRequest) : World :=
  {| requests := requests w ++ rqs; console := console w |}.

Inductive Outcome (A : Type) : Type :=
| Returned (a : A)
| Thrown (e : JsError)
| Diverged.
Arguments Returned {A} a.
Arguments Thrown {A} e.
Arguments Diverged {A}.

Definition Js (A : Type) : Type := World -> World * Outcome A.

Definition ret {A} (a : A) : Js A := fun w => (w, Returned a).
Definition throw {A} (e : JsError) : Js A := fun w => (w, Thrown e).
Definition diverge {A} : Js A := fun w => (w, Diverged).

Definition bind {A B} (m : Js A) (k : A -> Js B) : Js B :=
  fun w =>
    match m w with
    | (w', Returned a) => k a w'
    | (w', Thrown e) => (w', Thrown e)
    | (w', Diverged) => (w', Diverged)
    end.

(** [try { m } catch (e) { handler e }] *)
Definition try_catch {A} (m : Js A) (handler : JsError -> Js A) : Js A :=
  fun w =>
    match m w with
    | (w', Thrown e) => handler e w'
    | r => r
    end.

Notation "x <- m ;; k" := (bind m (fun x => k))
  (at level 100, m at next level, right associativity).
Notation "m ;;; k" := (bind m (fun _ => k))
  (at level 100, right associativity).

(** [v.k], throwing when [v] is [undefined] or [null]. *)
Definition get (v : Val) (k : string) : Js Val :=
  if nullish v then
    throw (TypeError ("Cannot read properties of " +:+ ToString v
                      +:+ " (reading '" +:+ k +:+ "')"))
  else ret (prop v k).

Definition console_error (args : list Val) : Js unit :=
  fun w => ({| requests := requests w; console := console w ++ [args] |},
            Returned tt).

(** [array.push(...v)]: the elements of an iterable [v]. *)
Definition spread (v : Val) : Js (list Val) :=
  match v with
  | VArr xs => ret xs
  | VStr s => ret (map (fun c => VStr (String c EmptyString)) (list_ascii_of_string s))
  | _ => throw (TypeError (ToString v +:+ " is not iterable"))
  end.

(** [await Promise.all(xs.map(async f))].  Every callback is started, in the
    order of [xs]; the result is the array of their values in that order, or
    the first rejection.  A callback is run to its end before the next one is
    started: the callbacks share nothing but the logs of the world, so the
    values do not depend on the order in which the responses arrive. *)
Fixpoint map_async {A B} (f : A -> Js B) (xs : list A) : Js (list B) :=
  match xs with
  | [] => ret []
  | x :: xs' =>
      fun w =>
        let (w1, first) := f x w in
        let (w2, others) := map_async f xs' w1 in
        (w2,
         match first, others with
         | Returned y, Returned ys => Returned (y :: ys)
         | Returned _, Thrown e => Thrown e
         | Returned _, Diverged => Diverged
         | Thrown e, _ => Thrown e
         | Diverged, _ => Diverged
         end)
  end.

(** ** The remote helpdesk and axios *)

(** The remote collaborator: given the requests issued so far and the current
    request, it rejects with an error or answers with [response.data]. *)
Definition Remote : Type := list AxiosRequest -> AxiosRequest -> JsError + Val.

(** [await this.axiosInstance.request(rq)], returning [response.data]. *)
Definition axios (remote : Remote) (rq : AxiosRequest) : Js Val :=
  fun w =>
    ({| requests := requests w ++ [rq]; console := console w |},
     match remote (requests w) rq with
     | inl e => Thrown e
     | inr data => Returned data
     end).

Definition axios_get (remote : Remote) (url : string) (config : Val) : Js Val :=
  axios remote {| rq_method := GET; rq_url := url; rq_data := VUndefined; rq_config := config |}.
Definition axios_post (remote : Remote) (url : string) (data : Val) : Js Val :=
  axios remote {| rq_method := POST; rq_url := url; rq_data := data; rq_config := VUndefined |}.
Definition axios_put (remote : Remote) (url : string) (data : Val) : Js Val :=
  axios remote {| rq_method := PUT; rq_url := url; rq_data := data; rq_config := VUndefined |}.

(** A parameter declared [p = d]: the default applies to [undefined]. *)
Definition default (p d : Val) : Val := if is_undefined p then d else p.

(** [v.replace(pat, repl)] with a string pattern. *)
Definition String_replace (v : Val) (pat repl : string) : Js Val :=
  match v with
  | VStr s => ret (VStr (Str.replace_first pat repl s))
  | VUndefined | VNull =>
      throw (TypeError ("Cannot read properties of " +:+ ToString v +:+ " (reading 'replace')"))
  | _ => throw (TypeError "replace is not a function")
  end.

(** [v.replace(new RegExp(pat, 'g'), template)] for a literal pattern. *)
Definition String_replace_global (v : Val) (pat template : string) : Js Val :=
  match v with
  | VStr s => ret (VStr (Str.replace_all pat template s))
  | VUndefined | VNull =>
      throw (TypeError ("Cannot read properties of " +:+ ToString v +:+ " (reading 'replace')"))
  | _ => throw (TypeError "replace is not a function")
  end.

(** The tool result [{ content: [{ type: "text", text }] }], with
    [isError: true] for failures. *)
Definition text_content (text : Val) : Val :=
  VArr [VObj [("type", VStr "text"); ("text", text)]].
Definition tool_result (text : Val) : Val :=
  VObj [("content", text_content text)].
Definition tool_error (text : string) : Val :=
  VObj [("content", text_content (VStr text)); ("isError", VBool true)].

(** A tool result is one of these two shapes. *)
Definition is_tool_result (v : Val) : Prop :=
  (exists text, v = tool_result text) \/ (exists text, v = tool_error text).

(** The request [{ params: { name, arguments } }] of a tool call. *)
Definition call_request (name : string) (arguments : Val) : Val :=
  VObj [("params", VObj [("name", VStr name); ("arguments", arguments)])].

(** A computation that ends, by returning or by throwing, from every world. *)
Definition terminates {A} (m : Js A) : Prop :=
  forall w, (m w).2 <> Diverged.

Definition is_null (v : Val) : bool :=
  match v with VNull => true | _ => false end.

(** [v === 0] *)
Definition is_zero (v : Val) : bool :=
  match v with VNum 0 => true | _ => false end.

(** * [src/index.ts]: the pipe-transport gateway *)

Module Index.

Section Gateway.

Variable remote : Remote.
(** [JSON.stringify(v, null, 2)] and ECMAScript's [StringToNumber] (on the
    integers of the model, [None] for [NaN]) are library functions. *)
Variable JSON_stringify : Val -> Val.
Variable StringToNumber : string -> option Z.

(** [ToNumber]; [None] is [NaN]. *)
Definition ToNumber (v : Val) : option Z :=
  match v with
  | VUndefined | VNaN => None
  | VNull => Some 0
  | VBool b => Some (if b then 1 else 0)
  | VNum n => Some n
  | VStr s => StringToNumber s
  | VArr _ | VObj _ => StringToNumber (ToString v)
  end.

(** [Math.min(a, b)] *)
Definition Math_min (a b : Val) : Val :=
  match ToNumber a, ToNumber b with
  | Some x, Some y => VNum (Z.min x y)
  | _, _ => VNaN
  end.

(** [n < v] for a number [n] *)
Definition less_than (n : Z) (v : Val) : Val :=
  match ToNumber v with
  | Some m => VBool (n <? m)
  | None => VBool false
  end.

(** The number of elements kept by [slice(0, stop)] on [len] elements. *)
Definition slice_stop (len : nat) (stop : Val) : nat :=
  if is_undefined stop then len
  else match ToNumber stop with
       | None => O
       | Some e => if e <? 0 then Z.to_nat (Z.max (Z.of_nat len + e) 0)
                   else Z.to_nat (Z.min e (Z.of_nat len))
       end.

(** [v.slice(0, stop)] *)
Definition slice0 (v : Val) (stop : Val) : Js Val :=
  match v with
  | VArr xs => ret (VArr (take (slice_stop (length xs) stop) xs))
  | VStr s => ret (VStr (String.substring 0 (slice_stop (String.length s) stop) s))
  | VUndefined | VNull =>
      throw (TypeError ("Cannot read properties of " +:+ ToString v +:+ " (reading 'slice')"))
  | _ => throw (TypeError "results.slice is not a function")
  end.

(** ** class ZendeskClient *)

Record ZendeskClient : Type := {
  subdomain : string;
  helpCenterUrl : Val;   (* string | null *)
}.

Definition new_ZendeskClient (subdomain email apiToken : string)
    (helpCenterUrl : Val) : ZendeskClient :=
  {| subdomain := subdomain; helpCenterUrl := or_else helpCenterUrl VNull |}.

(** The methods, for the client [this].  A method that reads no field of
    [this] has no such argument once the section is closed. *)
Section Client.

Variable this : ZendeskClient.

(** [this.axiosInstance.defaults.baseURL] *)
Definition baseURL : string :=
  "https://" +:+ subdomain this +:+ ".zendesk.com/api/v2".

(** The source of the regular expression of [convertToCustomUrl],
    [https://${subdomain}\.zendesk\.com/hc/], read as the literal it
    matches: a Zendesk subdomain is a DNS label (letters, digits, hyphens)
    and carries no regular-expression operator. *)
Definition urlPattern : string :=
  "https://" +:+ subdomain this +:+ ".zendesk.com/hc/".

Definition convertToCustomUrl (zendeskUrl : Val) : Js Val :=
  if negb (truthy (helpCenterUrl this)) then ret zendeskUrl
  else String_replace_global zendeskUrl urlPattern
         (ToString (helpCenterUrl this) +:+ "/hc/").

Definition SEARCH_TIMEOUT_MESSAGE : string :=
  "検索がタイムアウトしました。検索条件を絞り込んでください。".

Definition is_timeout (error : JsError) : bool :=
  is_string (e_code error) "ECONNABORTED"
  || Str.includes "timeout" (e_message error).

Definition searchTickets (query maxResults : Val) : Js Val :=
  let maxResults := default maxResults (VNum 100) in
  try_catch
    (data <- axios_get remote "/search.json"
               (VObj [("params",
                       VObj [("query", VStr ("type:ticket " +:+ ToString query));
                             ("per_page", Math_min maxResults (VNum 100))]);
                      ("timeout", VNum 30000)]) ;;
     r <- get data "results" ;;
     let results := or_else r (VArr []) in
     limitedResults <- slice0 results maxResults ;;
     let count := or_else (prop data "count") (VNum 0) in
     ret (VObj [("results", limitedResults);
                ("count", prop limitedResults "length");
                ("total_count", count);
                ("next_page", or_else (prop data "next_page") VNull);
                ("limited",
                 match prop limitedResults "length" with
                 | VNum n => less_than n count
                 | _ => VBool false
                 end)]))
    (fun error =>
       if is_timeout error then
         ret (VObj [("results", VArr []);
                    ("count", VNum 0);
                    ("total_count", VNum 0);
                    ("error", VStr SEARCH_TIMEOUT_MESSAGE)])
       else throw error).

(** The continuation reference of a page, as assigned to [nextPageUrl] at
    the end of one iteration of the pagination loop. *)
Definition next_page_url (data : Val) : Js Val :=
  nextPageUrl <- get data "next_page" ;;
  if truthy nextPageUrl then
    String_replace nextPageUrl (ToString (or_else (VStr baseURL) (VStr ""))) ""
  else ret nextPageUrl.

(** [while (nextPageUrl) { ... }] of [getTicket] and [getTicketComments];
    [fuel] bounds the number of pages requested. *)
Fixpoint comment_pages (fuel : nat) (nextPageUrl : Val)
    (allComments : list Val) : Js (list Val) :=
  if truthy nextPageUrl then
    match fuel with
    | O => diverge
    | S fuel' =>
        data <- axios_get remote (ToString nextPageUrl) VUndefined ;;
        comments <- get data "comments" ;;
        items <- spread comments ;;
        nextPageUrl' <- next_page_url data ;;
        comment_pages fuel' nextPageUrl' (allComments ++ items)
    end
  else ret allComments.

Definition comments_url (ticketId : Val) : string :=
  "/tickets/" +:+ ToString ticketId +:+ "/comments.json?sort_order=asc".

Definition ticket_url (ticketId : Val) : string :=
  "/tickets/" +:+ ToString ticketId +:+ ".json".

Definition getTicket (fuel : nat) (ticketId : Val) : Js Val :=
  ticket_data <- axios_get remote (ticket_url ticketId) VUndefined ;;
  allComments <- comment_pages fuel (VStr (comments_url ticketId)) [] ;;
  ticket <- get ticket_data "ticket" ;;
  ret (VObj [("ticket", ticket);
             ("comments", VArr allComments);
             ("total_comments", VNum (Z.of_nat (length allComments)))]).

Definition createTicket (subject comment priority tags : Val) : Js Val :=
  axios_post remote "/tickets.json"
    (VObj [("ticket",
            VObj [("subject", subject);
                  ("comment", VObj [("body", comment)]);
                  ("priority", or_else priority (VStr "normal"));
                  ("tags", or_else tags (VArr []))])]).

Definition updateTicket (ticketId updates : Val) : Js Val :=
  axios_put remote (ticket_url ticketId) (VObj [("ticket", updates)]).

Definition addComment (ticketId comment isPublic : Val) : Js Val :=
  let isPublic := default isPublic (VBool true) in
  axios_put remote (ticket_url ticketId)
    (VObj [("ticket",
            VObj [("comment", VObj [("body", comment); ("public", isPublic)])])]).

Definition searchUsers (query : Val) : Js Val :=
  axios_get remote "/search.json"
    (VObj [("params", VObj [("query", VStr ("type:user " +:+ ToString query))])]).

Definition getUser (userId : Val) : Js Val :=
  axios_get remote ("/users/" +:+ ToString userId +:+ ".json") VUndefined.

Definition searchOrganizations (query : Val) : Js Val :=
  axios_get remote "/search.json"
    (VObj [("params", VObj [("query", VStr ("type:organization " +:+ ToString query))])]).

Definition getOrganization (orgId : Val) : Js Val :=
  axios_get remote ("/organizations/" +:+ ToString orgId +:+ ".json") VUndefined.

Definition getTicketComments (fuel : nat) (ticketId : Val) : Js Val :=
  allComments <- comment_pages fuel (VStr (comments_url ticketId)) [] ;;
  ret (VObj [("comments", VArr allComments);
             ("count", VNum (Z.of_nat (length allComments)))]).

Definition NO_RESULTS_MESSAGE : string := "検索結果が見つかりませんでした".
Definition NO_PUBLIC_ARTICLES_MESSAGE : string :=
  "公開されている記事が見つかりませんでした".

Definition article_url (locale id : Val) : string :=
  "/help_center/" +:+ ToString locale +:+ "/articles/" +:+ ToString id +:+ ".json".

(** The record built from a search hit [article] and its detail
    [articleData], once the public URL is known. *)
Definition article_record (article articleData publicUrl : Val) : Val :=
  VObj [("id", prop articleData "id");
        ("title", or_else (prop article "title") (prop articleData "title"));
        ("url", publicUrl);
        ("snippet", or_else (prop article "snippet") (VStr ""));
        ("body", prop articleData "body");
        ("section_id", prop articleData "section_id");
        ("created_at", prop articleData "created_at");
        ("updated_at", prop articleData "updated_at");
        ("locale", prop articleData "locale");
        ("draft", prop articleData "draft")].

(** The callback mapped over the search hits by [searchArticles]. *)
Definition article_with_details (locale article : Val) : Js Val :=
  try_catch
    (id <- get article "id" ;;
     data <- axios_get remote (article_url locale id) VUndefined ;;
     articleData <- get data "article" ;;
     draft <- get articleData "draft" ;;
     if is_true draft then ret VNull
     else
       publicUrl <- convertToCustomUrl
                      (or_else (prop article "html_url") (prop articleData "html_url")) ;;
       ret (article_record article articleData publicUrl))
    (fun detailError =>
       id <- get article "id" ;;
       console_error [VStr ("Failed to fetch article " +:+ ToString id +:+ ":");
                      VStr (e_message detailError)] ;;;
       ret VNull).

Definition empty_articles (message : string) : Val :=
  VObj [("results", VArr []);
        ("count", VNum 0);
        ("page", VNum 1);
        ("page_count", VNum 0);
        ("message", VStr message)].

(** [results.slice(0, 10).map(f)] followed by [Promise.all]. *)
Definition slice10_map_all (results : Val) (f : Val -> Js Val) : Js (list Val) :=
  match results with
  | VArr xs => map_async f (take 10 xs)
  | VStr _ => throw (TypeError "results.slice(...).map is not a function")
  | _ => throw (TypeError "results.slice is not a function")
  end.

Definition searchArticles (query locale : Val) : Js Val :=
  let locale := default locale (VStr "ja") in
  try_catch
    (data <- axios_get remote "/help_center/articles/search.json"
               (VObj [("params", VObj [("query", query); ("locale", locale)])]) ;;
     r <- get data "results" ;;
     let results := or_else r (VArr []) in
     if is_zero (prop results "length") then ret (empty_articles NO_RESULTS_MESSAGE)
     else
       articlesWithDetails <- slice10_map_all results (article_with_details locale) ;;
       let publicArticles := filter (fun article => negb (is_null article)) articlesWithDetails in
       if (length publicArticles =? 0)%nat then
         ret (empty_articles NO_PUBLIC_ARTICLES_MESSAGE)
       else
         ret (VObj [("results", VArr (take 5 publicArticles));
                    ("count", VNum (Z.of_nat (length publicArticles)));
                    ("page", or_else (prop data "page") (VNum 1));
                    ("page_count", or_else (prop data "page_count") (VNum 1))]))
    (fun error =>
       let errorMessage :=
         or_else (or_else (opt_prop (opt_prop (e_response error) "data") "error")
                          (VStr (e_message error)))
                 (VStr "不明なエラー") in
       let errorStatus := opt_prop (e_response error) "status" in
       console_error [VStr "Help Center search error:";
                      VObj [("message", errorMessage);
                            ("status", errorStatus);
                            ("query", query);
                            ("locale", locale)]] ;;;
       ret (VObj [("results", VArr []);
                  ("count", VNum 0);
                  ("page", VNum 1);
                  ("page_count", VNum 0);
                  ("error",
                   VStr ("ヘルプセンター検索エラー: " +:+ ToString errorMessage
                         +:+ " (ステータス: " +:+ ToString errorStatus +:+ ")"))])).

Definition getArticle (articleId locale : Val) : Js Val :=
  let locale := default locale (VStr "ja") in
  try_catch
    (data <- axios_get remote (article_url locale articleId) VUndefined ;;
     article <- get data "article" ;;
     ret (VObj [("article", article)]))
    (fun error =>
       console_error [VStr ("Failed to fetch article " +:+ ToString articleId +:+ ":");
                      VStr (e_message error)] ;;;
       throw error).

Definition getArticlesBySection (sectionId locale : Val) : Js Val :=
  let locale := default locale (VStr "ja") in
  try_catch
    (data <- axios_get remote
               ("/help_center/" +:+ ToString locale +:+ "/sections/"
                +:+ ToString sectionId +:+ "/articles.json") VUndefined ;;
     articles <- get data "articles" ;;
     ret (VObj [("articles", articles); ("count", prop data "count")]))
    (fun error =>
       console_error [VStr ("Failed to fetch articles in section "
                            +:+ ToString sectionId +:+ ":");
                      VStr (e_message error)] ;;;
       throw error).

(** ** Runs of the pagination loop

    The vocabulary in which the results about [comment_pages] are
    stated.  A page is the [response.data] of one request together with
    the comments array it carries. *)

Record Page : Type := { pg_data : Val; pg_comments : list Val }.

Definition page_request (nextPageUrl : Val) : AxiosRequest :=
  {| rq_method := GET; rq_url := ToString nextPageUrl;
     rq_data := VUndefined; rq_config := VUndefined |}.

(** A continuation reference is a string, or is absent. *)
Definition reference_or_absent (v : Val) : bool :=
  match v with VStr _ | VNull | VUndefined => true | _ => false end.

(** A well-formed page is an object with a [comments] array and a
    [next_page] that is a string, [null] or missing. *)
Definition well_formed_page (p : Page) : Prop :=
  nullish (pg_data p) = false
  /\ prop (pg_data p) "comments" = VArr (pg_comments p)
  /\ reference_or_absent (prop (pg_data p) "next_page") = true.

(** The value of [nextPageUrl] after a well-formed page. *)
Definition cursor_of (data : Val) : Val :=
  match prop data "next_page" with
  | VStr s => if Str.is_empty s then VStr s
              else VStr (Str.replace_first baseURL "" s)
  | v => v
  end.

(** [served hist url pages]: after the requests [hist], a run that starts
    at [url] is answered page by page with [pages], all well formed, and
    the last page ends the run. *)
Fixpoint served (hist : list AxiosRequest) (nextPageUrl : Val)
    (pages : list Page) : Prop :=
  match pages with
  | [] => truthy nextPageUrl = false
  | p :: pages' =>
      truthy nextPageUrl = true
      /\ remote hist (page_request nextPageUrl) = inr (pg_data p)
      /\ well_formed_page p
      /\ served (hist ++ [page_request nextPageUrl]) (cursor_of (pg_data p)) pages'
  end.

(** [fails_after hist url pages e]: the run is answered with the
    well-formed [pages], each of which continues, and the request after
    them is rejected with [e]. *)
Fixpoint fails_after (hist : list AxiosRequest) (nextPageUrl : Val)
    (pages : list Page) (e : JsError) : Prop :=
  match pages with
  | [] => truthy nextPageUrl = true
          /\ remote hist (page_request nextPageUrl) = inl e
  | p :: pages' =>
      truthy nextPageUrl = true
      /\ remote hist (page_request nextPageUrl) = inr (pg_data p)
      /\ well_formed_page p
      /\ fails_after (hist ++ [page_request nextPageUrl]) (cursor_of (pg_data p)) pages' e
  end.

(** The requests of a run, in the order in which they are issued. *)
Fixpoint run_requests (nextPageUrl : Val) (pages : list Page)
    : list AxiosRequest :=
  match pages with
  | [] => []
  | p :: pages' =>
      page_request nextPageUrl :: run_requests (cursor_of (pg_data p)) pages'
  end.

(** The requests of a run whose last request is rejected. *)
Fixpoint failing_run_requests (nextPageUrl : Val) (pages : list Page)
    : list AxiosRequest :=
  match pages with
  | [] => [page_request nextPageUrl]
  | p :: pages' =>
      page_request nextPageUrl
      :: failing_run_requests (cursor_of (pg_data p)) pages'
  end.

Definition all_comments (pages : list Page) : list Val :=
  concat (map pg_comments pages).

(** The request of [searchTickets], for the [maxResults] in force. *)
Definition tickets_search_request (query maxResults : Val) : AxiosRequest :=
  {| rq_method := GET; rq_url := "/search.json"; rq_data := VUndefined;
     rq_config :=
       VObj [("params",
              VObj [("query", VStr ("type:ticket " +:+ ToString query));
                    ("per_page", Math_min maxResults (VNum 100))]);
             ("timeout", VNum 30000)] |}.

(** The search request of [searchArticles] and the detail request of one
    search hit. *)
Definition articles_search_request (query locale : Val) : AxiosRequest :=
  {| rq_method := GET; rq_url := "/help_center/articles/search.json";
     rq_data := VUndefined;
     rq_config := VObj [("params", VObj [("query", query); ("locale", locale)])] |}.

Definition detail_request (locale article : Val) : AxiosRequest :=
  {| rq_method := GET; rq_url := article_url locale (prop article "id");
     rq_data := VUndefined; rq_config := VUndefined |}.

(** What the callback of [searchArticles] makes of a search hit: the
    absent marker, or the record built from the hit and some detail. *)
Definition enriched (article v : Val) : Prop :=
  v = VNull
  \/ exists articleData publicUrl, v = article_record article articleData publicUrl.

(** The search hits that were not dropped, each with its record, in the
    order of the hits. *)
Definition survivors (articles articlesWithDetails : list Val) : list (Val * Val) :=
  filter (fun ar : Val * Val => negb (is_null ar.2)) (zip articles articlesWithDetails).

(** A DNS label: letters, digits and hyphens. *)
Definition dns_label (s : string) : bool :=
  forallb
    (fun c =>
       let n := nat_of_ascii c in
       ((48 <=? n) && (n <=? 57) || (65 <=? n) && (n <=? 90)
        || (97 <=? n) && (n <=? 122) || (n =? 45))%nat)
    (list_ascii_of_string s).

(** The request for the ticket itself that [getTicket] issues first. *)
Definition ticket_request (ticketId : Val) : AxiosRequest :=
  {| rq_method := GET; rq_url := ticket_url ticketId;
     rq_data := VUndefined; rq_config := VUndefined |}.

End Client.

(** ** The [CallToolRequestSchema] handler *)

Definition CREDENTIALS_MESSAGE : string :=
  "Error: Zendesk credentials not configured. Please set ZENDESK_SUBDOMAIN, ZENDESK_EMAIL, and ZENDESK_API_TOKEN environment variables.".

(** [updates] of the [update_ticket] case: the truthy fields, in the order
    in which they are assigned. *)
Definition ticket_updates (args : Val) : Val :=
  let field k := if truthy (prop args k) then [(k, prop args k)] else [] in
  VObj (field "status" ++ field "priority" ++ field "subject" ++ field "tags").

(** The [switch (name)] of the handler; [args] is truthy. *)
Definition call_tool (zendeskClient : ZendeskClient) (fuel : nat)
    (name args : Val) : Js Val :=
  let stringified (m : Js Val) : Js Val :=
    result <- m ;; ret (tool_result (JSON_stringify result)) in
  if is_string name "search_tickets" then
    let maxResults := or_else (prop args "max_results") (VNum 100) in
    stringified (searchTickets (prop args "query") maxResults)
  else if is_string name "get_ticket" then
    stringified (getTicket zendeskClient fuel (prop args "ticket_id"))
  else if is_string name "create_ticket" then
    stringified (createTicket (prop args "subject") (prop args "comment")
                   (prop args "priority") (prop args "tags"))
  else if is_string name "update_ticket" then
    stringified (updateTicket (prop args "ticket_id") (ticket_updates args))
  else if is_string name "add_comment" then
    stringified (addComment (prop args "ticket_id") (prop args "comment")
                   (if negb (is_undefined (prop args "is_public"))
                    then prop args "is_public" else VBool true))
  else if is_string name "get_ticket_comments" then
    stringified (getTicketComments zendeskClient fuel (prop args "ticket_id"))
  else if is_string name "search_users" then
    stringified (searchUsers (prop args "query"))
  else if is_string name "get_user" then
    stringified (getUser (prop args "user_id"))
  else if is_string name "search_organizations" then
    stringified (searchOrganizations (prop args "query"))
  else if is_string name "get_organization" then
    stringified (getOrganization (prop args "org_id"))
  else if is_string name "search_articles" then
    stringified (searchArticles zendeskClient (prop args "query")
                   (or_else (prop args "locale") (VStr "ja")))
  else if is_string name "get_article" then
    stringified (getArticle (prop args "article_id")
                   (or_else (prop args "locale") (VStr "ja")))
  else if is_string name "get_articles_by_section" then
    stringified (getArticlesBySection (prop args "section_id")
                   (or_else (prop args "locale") (VStr "ja")))
  else ret (tool_error ("Unknown tool: " +:+ ToString name)).

Definition CallToolRequest_handler (zendeskClient : option ZendeskClient)
    (fuel : nat) (request : Val) : Js Val :=
  match zendeskClient with
  | None => ret (tool_result (VStr CREDENTIALS_MESSAGE))
  | Some client =>
      try_catch
        (params <- get request "params" ;;
         name <- get params "name" ;;
         args <- get params "arguments" ;;
         if negb (truthy args) then ret (tool_error "Error: No arguments provided")
         else call_tool client fuel name args)
        (fun error => ret (tool_error ("Error: " +:+ e_message error)))
  end.

(** The names of the descriptors in [TOOLS], in declaration order. *)
Definition TOOLS : list string :=
  ["search_tickets"; "get_ticket"; "create_ticket"; "update_ticket";
   "add_comment"; "get_ticket_comments"; "search_users"; "get_user";
   "search_organizations"; "get_organization"; "search_articles";
   "get_article"; "get_articles_by_section"].

End Gateway.

End Index.

(** * [src/server.ts]: the streaming-transport gateway *)

Module Server.

Section Gateway.

Variable remote : Remote.
Variable JSON_stringify : Val -> Val.

(** ** class ZendeskClient *)

Record ZendeskClient : Type := { subdomain : string }.

Definition searchTickets (query : Val) : Js Val :=
  axios_get remote "/search.json"
    (VObj [("params", VObj [("query", VStr ("type:ticket " +:+ ToString query))])]).

Definition getTicket (ticketId : Val) : Js Val :=
  axios_get remote ("/tickets/" +:+ ToString ticketId +:+ ".json") VUndefined.

Definition createTicket (subject comment priority tags : Val) : Js Val :=
  axios_post remote "/tickets.json"
    (VObj [("ticket",
            VObj [("subject", subject);
                  ("comment", VObj [("body", comment)]);
                  ("priority", or_else priority (VStr "normal"));
                  ("tags", or_else tags (VArr []))])]).

Definition updateTicket (ticketId updates : Val) : Js Val :=
  axios_put remote ("/tickets/" +:+ ToString ticketId +:+ ".json")
    (VObj [("ticket", updates)]).

Definition addComment (ticketId comment isPublic : Val) : Js Val :=
  let isPublic := default isPublic (VBool true) in
  axios_put remote ("/tickets/" +:+ ToString ticketId +:+ ".json")
    (VObj [("ticket",
            VObj [("comment", VObj [("body", comment); ("public", isPublic)])])]).

Definition searchUsers (query : Val) : Js Val :=
  axios_get remote "/search.json"
    (VObj [("params", VObj [("query", VStr ("type:user " +:+ ToString query))])]).

Definition getUser (userId : Val) : Js Val :=
  axios_get remote ("/users/" +:+ ToString userId +:+ ".json") VUndefined.

Definition searchOrganizations (query : Val) : Js Val :=
  axios_get remote "/search.json"
    (VObj [("params", VObj [("query", VStr ("type:organization " +:+ ToString query))])]).

Definition getOrganization (orgId : Val) : Js Val :=
  axios_get remote ("/organizations/" +:+ ToString orgId +:+ ".json") VUndefined.

Definition getTicketComments (ticketId : Val) : Js Val :=
  axios_get remote ("/tickets/" +:+ ToString ticketId +:+ "/comments.json") VUndefined.

(** ** executeTool *)

Definition ticket_updates (args : Val) : Val :=
  let field k := if truthy (prop args k) then [(k, prop args k)] else [] in
  VObj (field "status" ++ field "priority" ++ field "subject" ++ field "tags").

Definition executeTool (zendeskClient : option ZendeskClient)
    (name args : Val) : Js Val :=
  match zendeskClient with
  | None => throw (Error "Zendesk credentials not configured")
  | Some _ =>
      if is_string name "search_tickets" then
        query <- get args "query" ;; searchTickets query
      else if is_string name "get_ticket" then
        ticket_id <- get args "ticket_id" ;; getTicket ticket_id
      else if is_string name "create_ticket" then
        subject <- get args "subject" ;;
        createTicket subject (prop args "comment") (prop args "priority") (prop args "tags")
      else if is_string name "update_ticket" then
        get args "status" ;;;
        updateTicket (prop args "ticket_id") (ticket_updates args)
      else if is_string name "add_comment" then
        ticket_id <- get args "ticket_id" ;;
        addComment ticket_id (prop args "comment")
          (coalesce (prop args "is_public") (VBool true))
      else if is_string name "get_ticket_comments" then
        ticket_id <- get args "ticket_id" ;; getTicketComments ticket_id
      else if is_string name "search_users" then
        query <- get args "query" ;; searchUsers query
      else if is_string name "get_user" then
        user_id <- get args "user_id" ;; getUser user_id
      else if is_string name "search_organizations" then
        query <- get args "query" ;; searchOrganizations query
      else if is_string name "get_organization" then
        org_id <- get args "org_id" ;; getOrganization org_id
      else throw (Error ("Unknown tool: " +:+ ToString name))
  end.

(** The names of the descriptors in [TOOLS], in declaration order. *)
Definition TOOLS : list string :=
  ["search_tickets"; "get_ticket"; "create_ticket"; "update_ticket";
   "add_comment"; "get_ticket_comments"; "search_users"; "get_user";
   "search_organizations"; "get_organization"].

(** ** The [CallToolRequestSchema] handler of [createMCPServer] *)

Definition CREDENTIALS_MESSAGE : string :=
  "Error: Zendesk credentials not configured. Please set ZENDESK_SUBDOMAIN, ZENDESK_EMAIL, and ZENDESK_API_TOKEN environment variables.".

Definition CallToolRequest_handler (zendeskClient : option ZendeskClient)
    (request : Val) : Js Val :=
  match zendeskClient with
  | None => ret (tool_error CREDENTIALS_MESSAGE)
  | Some _ =>
      try_catch
        (params <- get request "params" ;;
         name <- get params "name" ;;
         args <- get params "arguments" ;;
         if negb (truthy args) then ret (tool_error "Error: No arguments provided")
         else
           result <- executeTool zendeskClient name args ;;
           ret (tool_result (JSON_stringify result)))
        (fun error => ret (tool_error ("Error: " +:+ e_message error)))
  end.

End Gateway.

(** ** Sessions and the [/mcp] endpoint *)

(** A [StreamableHTTPServerTransport]: the gateway reads its [sessionId]. *)
Record Transport : Type := { sessionId : option string }.

(** The properties every object literal inherits from [Object.prototype];
    all of them are truthy and none has a [handleRequest] method. *)
Definition Object_prototype : list string :=
  ["constructor"; "__proto__"; "hasOwnProperty"; "isPrototypeOf";
   "propertyIsEnumerable"; "toLocaleString"; "toString"; "valueOf";
   "__defineGetter__"; "__defineSetter__"; "__lookupGetter__"; "__lookupSetter__"].

(** What [transports[sessionId]] evaluates to, for
    [const transports: Record<string, StreamableHTTPServerTransport> = {}]. *)
Inductive Slot : Type :=
| Own (transport : Transport)
| Inherited (key : string)
| Missing.

Definition lookup_transport (transports : gmap string Transport)
    (key : string) : Slot :=
  match transports !! key with
  | Some transport => Own transport
  | None => if bool_decide (key ∈ Object_prototype) then Inherited key else Missing
  end.

Record ServerState : Type := {
  transports : gmap string Transport;
  server_console : list (list Val);
}.

Record HttpRequest : Type := {
  http_method : string;
  mcp_session_id : option string;   (* req.headers["mcp-session-id"] *)
  http_body : Val;
}.

Inductive Reply : Type :=
| JsonReply (status : Z) (body : Val)   (* res.status(status).json(body) *)
| TransportReply.                       (* whatever the SDK transport wrote *)

(** One run of the SDK on a transport ([mcpServer.connect] followed by
    [transport.handleRequest]), as far as the gateway can observe it: the
    callbacks it fired, whether it threw and whether it had started the
    response. *)
Record SdkRun : Type := {
  run_initialized : option string;   (* onsessioninitialized(sid) *)
  run_closed : bool;                 (* onclose() *)
  run_error : option JsError;
  run_headersSent : bool;
}.

Definition isInitializeRequest (body : Val) : Val :=
  if negb (truthy body) then body
  else if negb (is_string (prop body "jsonrpc") "2.0") then VBool false
  else if negb (is_string (prop body "method") "initialize") then VBool false
  else VBool (negb (is_undefined (prop body "params"))).

Definition jsonrpc_error (code : Z) (message : string) : Val :=
  VObj [("jsonrpc", VStr "2.0");
        ("error", VObj [("code", VNum code); ("message", VStr message)]);
        ("id", VNull)].

Section Endpoint.

(** The SDK is opaque: its behaviour on a transport and a request is a
    parameter. *)
Variable sdk : Transport -> HttpRequest -> SdkRun.

(** The callbacks installed on every transport: [onsessioninitialized]
    registers it under the new id, [onclose] removes the entry of its
    [sessionId]. *)
Definition fire_callbacks (transport : Transport) (run : SdkRun)
    (st : ServerState) : ServerState :=
  let '(transport, st) :=
    match run_initialized run with
    | Some sid =>
        let transport := {| sessionId := Some sid |} in
        (transport,
         {| transports := <[sid := transport]> (transports st);
            server_console := server_console st
              ++ [[VStr ("MCP session initialized: " +:+ sid)]] |})
    | None => (transport, st)
    end in
  if run_closed run then
    match sessionId transport with
    | Some sid =>
        if Str.is_empty sid then st
        else {| transports := delete sid (transports st);
                server_console := server_console st
                  ++ [[VStr ("MCP session closed: " +:+ sid)]] |}
    | None => st
    end
  else st.

(** The [catch] block of the endpoint. *)
Definition endpoint_catch (error : JsError) (headersSent : bool)
    (st : ServerState) : ServerState * Reply :=
  ({| transports := transports st;
      server_console := server_console st
        ++ [[VStr "MCP endpoint error:"; VStr (e_message error)]] |},
   if negb headersSent then JsonReply 500 (jsonrpc_error (-32603) (e_message error))
   else TransportReply).

(** [await mcpServer.connect(transport)] (for a new session) and
    [await transport.handleRequest(req, res, req.body)]. *)
Definition handleRequest (transport : Transport) (req : HttpRequest)
    (st : ServerState) : ServerState * Reply :=
  let run := sdk transport req in
  let st := fire_callbacks transport run st in
  match run_error run with
  | Some error => endpoint_catch error (run_headersSent run) st
  | None => (st, TransportReply)
  end.

(** [app.all("/mcp", async (req, res) => ...)] *)
Definition mcp_endpoint (req : HttpRequest) (st : ServerState)
    : ServerState * Reply :=
  let transport :=
    match mcp_session_id req with
    | Some sessionId =>
        if Str.is_empty sessionId then Missing
        else lookup_transport (transports st) sessionId
    | None => Missing
    end in
  match transport with
  | Missing =>
      if String.eqb (http_method req) "POST" && truthy (isInitializeRequest (http_body req))
      then handleRequest {| sessionId := None |} req st
      else
        (st, JsonReply 400
               (jsonrpc_error (-32000) "Bad Request: No valid session or initialize request"))
  | Own transport => handleRequest transport req st
  | Inherited _ =>
      endpoint_catch (TypeError "transport.handleRequest is not a function") false st
  end.

End Endpoint.

(** The session table is consistent when every transport is registered under
    its own session id. *)
Definition table_consistent (st : ServerState) : Prop :=
  forall sid transport,
    transports st !! sid = Some transport -> sessionId transport = Some sid.

(** The SDK initializes a transport once: it fires [onsessioninitialized]
    only on a transport that has no session id yet. *)
Definition initializes_once (sdk : Transport -> HttpRequest -> SdkRun) : Prop :=
  forall transport req,
    sessionId transport <> None -> run_initialized (sdk transport req) = None.

(** ** The back-compatibility HTTP surface *)

Section BackCompat.

Variable remote : Remote.

(** [app.post("/tools/:toolName")]: [toolName] is the route parameter and
    [body] is [req.body]; [res.json] answers with status 200. *)
Definition tools_endpoint (zendeskClient : option ZendeskClient)
    (toolName : string) (body : Val) : Js Reply :=
  try_catch
    (result <- executeTool remote zendeskClient (VStr toolName) body ;;
     ret (JsonReply 200 (VObj [("success", VBool true); ("data", result)])))
    (fun error =>
       ret (JsonReply 500 (VObj [("success", VBool false);
                                 ("error", VStr (e_message error))]))).

End BackCompat.

End Server.

(** * A sample helpdesk

    A small remote collaborator and two client configurations, on which the
    results below are instantiated. *)

Module Examples.

Import Index.

Definition acme : ZendeskClient :=
  new_ZendeskClient "acme" "agent@acme.example" "secret" VUndefined.

Definition acme_help : ZendeskClient :=
  new_ZendeskClient "acme" "agent@acme.example" "secret"
    (VStr "https://help.acme.example").

Definition not_found : JsError :=
  {| e_message := "Request failed with status code 404";
     e_code := VStr "ERR_BAD_REQUEST";
     e_response := VObj [("status", VNum 404);
                         ("data", VObj [("error", VStr "RecordNotFound")])] |}.

Definition server_error : JsError :=
  {| e_message := "Request failed with status code 500";
     e_code := VStr "ERR_BAD_RESPONSE";
     e_response := VObj [("status", VNum 500);
                         ("data", VObj [("error", VStr "InternalError")])] |}.

Definition timed_out : JsError :=
  {| e_message := "timeout of 30000ms exceeded";
     e_code := VStr "ECONNABORTED";
     e_response := VUndefined |}.

Definition comment (id : Z) : Val :=
  VObj [("id", VNum id); ("body", VStr "Thanks for the update.")].

Definition comments_page (ids : list Z) (next_page : Val) : Val :=
  VObj [("comments", VArr (map comment ids));
        ("next_page", next_page);
        ("count", VNum 5)].

Definition hit (id : Z) : Val :=
  VObj [("id", VNum id);
        ("title", VStr "Replacing the toner");
        ("html_url",
         VStr ("https://acme.zendesk.com/hc/ja/articles/" +:+ pretty id));
        ("snippet", VStr "toner")].

Definition detail (id : Z) (draft : bool) : Val :=
  VObj [("article",
         VObj [("id", VNum id);
               ("title", VStr "Replacing the toner");
               ("html_url",
                VStr ("https://acme.zendesk.com/hc/ja/articles/" +:+ pretty id));
               ("body", VStr "<p>Open the front cover.</p>");
               ("section_id", VNum 40);
               ("created_at", VStr "2024-01-10T09:00:00Z");
               ("updated_at", VStr "2024-02-01T09:00:00Z");
               ("locale", VStr "ja");
               ("draft", VBool draft)])].

(** Twelve articles; number 3 is a draft and number 7 cannot be fetched. *)
Definition article_ids : list Z := [1; 2; 3; 4; 5; 6; 7; 8; 9; 10; 11; 12].

Definition article_route (id : Z) : string * (JsError + Val) :=
  (article_url (VStr "ja") (VNum id),
   if id =? 7 then inl not_found else inr (detail id (id =? 3))).

Definition routes : list (string * (JsError + Val)) :=
  [("/tickets/7.json",
    inr (VObj [("ticket", VObj [("id", VNum 7); ("subject", VStr "Printer jam")])]));
   ("/tickets/7/comments.json?sort_order=asc",
    inr (comments_page [1; 2]
           (VStr "https://acme.zendesk.com/api/v2/tickets/7/comments.json?page=2")));
   ("/tickets/7/comments.json?page=2",
    inr (comments_page [3]
           (VStr "https://acme.zendesk.com/api/v2/tickets/7/comments.json?page=3")));
   ("/tickets/7/comments.json?page=3", inr (comments_page [4; 5] VNull));
   ("/tickets/8.json",
    inr (VObj [("ticket", VObj [("id", VNum 8); ("subject", VStr "Login loop")])]));
   ("/tickets/8/comments.json?sort_order=asc",
    inr (comments_page [6; 7]
           (VStr "https://acme.zendesk.com/api/v2/tickets/8/comments.json?page=2")));
   ("/tickets/8/comments.json?page=2", inl server_error);
   ("/tickets/9/comments.json?sort_order=asc",
    inr (comments_page [8] (VStr "https://acme.zendesk.com/api/v2")))]
  ++ map article_route article_ids.

Fixpoint route (url : string) (table : list (string * (JsError + Val)))
    : JsError + Val :=
  match table with
  | [] => inl not_found
  | (u, answer) :: table' => if String.eqb url u then answer else route url table'
  end.

(** The searches answer by query: the article search finds all twelve
    articles for "toner", only the draft for "draft", a [null] and an article
    for "broken", and nothing otherwise; the ticket search times out for
    "slow" and breaks for "boom". *)
Definition helpdesk : Remote :=
  fun _ rq =>
    let query := prop (prop (rq_config rq) "params") "query" in
    if String.eqb (rq_url rq) "/help_center/articles/search.json" then
      if is_string query "toner" then
        inr (VObj [("results", VArr (map hit article_ids));
                   ("count", VNum 12); ("page", VNum 1); ("page_count", VNum 1)])
      else if is_string query "draft" then
        inr (VObj [("results", VArr [hit 3]);
                   ("count", VNum 1); ("page", VNum 1); ("page_count", VNum 1)])
      else if is_string query "broken" then
        inr (VObj [("results", VArr [VNull; hit 1]);
                   ("count", VNum 2); ("page", VNum 1); ("page_count", VNum 1)])
      else inr (VObj [("results", VArr []); ("count", VNum 0)])
    else if String.eqb (rq_url rq) "/search.json" then
      if is_string query "type:ticket slow" then inl timed_out
      else if is_string query "type:ticket boom" then inl server_error
      else inr (VObj [("results", VArr [VObj [("id", VNum 7)]]); ("count", VNum 1)])
    else route (rq_url rq) routes.

(** Stand-ins for the two library functions: a serialization, and the
    reading of a string of decimal digits. *)
Definition stringify (v : Val) : Val := VStr (ToString v).

Fixpoint digits (s : string) (acc : Z) : option Z :=
  match s with
  | EmptyString => Some acc
  | String c s' =>
      let n := nat_of_ascii c in
      if ((48 <=? n) && (n <=? 57))%nat
      then digits s' (10 * acc + Z.of_nat (n - 48))
      else None
  end.

Definition to_number (s : string) : option Z := digits s 0.

(** A ticket with 237 comments, served in pages of 100, 100 and 37. *)
Definition bulk_page (n : nat) (next_page : Val) : Val :=
  VObj [("comments", VArr (replicate n (comment 0))); ("next_page", next_page)].

Definition bulk_helpdesk : Remote :=
  fun _ rq =>
    if String.eqb (rq_url rq) "/tickets/1/comments.json?sort_order=asc" then
      inr (bulk_page 100
             (VStr "https://acme.zendesk.com/api/v2/tickets/1/comments.json?page=2"))
    else if String.eqb (rq_url rq) "/tickets/1/comments.json?page=2" then
      inr (bulk_page 100
             (VStr "https://acme.zendesk.com/api/v2/tickets/1/comments.json?page=3"))
    else if String.eqb (rq_url rq) "/tickets/1/comments.json?page=3" then
      inr (bulk_page 37 VNull)
    else inl not_found.

Definition first_page7 : Page :=
  {| pg_data := comments_page [1; 2]
                  (VStr "https://acme.zendesk.com/api/v2/tickets/7/comments.json?page=2");
     pg_comments := map comment [1; 2] |}.

Definition pages7 : list Page :=
  [first_page7;
   {| pg_data := comments_page [3]
                   (VStr "https://acme.zendesk.com/api/v2/tickets/7/comments.json?page=3");
      pg_comments := map comment [3] |};
   {| pg_data := comments_page [4; 5] VNull;
      pg_comments := map comment [4; 5] |}].

Definition pages8 : list Page :=
  [{| pg_data := comments_page [6; 7]
                   (VStr "https://acme.zendesk.com/api/v2/tickets/8/comments.json?page=2");
      pg_comments := map comment [6; 7] |}].

Definition page9 : Page :=
  {| pg_data := comments_page [8] (VStr "https://acme.zendesk.com/api/v2");
     pg_comments := map comment [8] |}.

End Examples.

(** * Further vocabulary *)

(** The tools of [index.ts] whose method is a single remote call. *)
Definition SINGLE_REQUEST_TOOLS : list string :=
  ["create_ticket"; "update_ticket"; "add_comment"; "search_users"; "get_user";
   "search_organizations"; "get_organization"].

(** The keys that [update_ticket] copies into the update. *)
Definition UPDATE_KEYS : list string := ["status"; "priority"; "subject"; "tags"].

(** [ticket.comment.public] in the body of a request. *)
Definition public_flag (rq : AxiosRequest) : Val :=
  prop (prop (prop (rq_data rq) "ticket") "comment") "public".

(** [params.per_page] in the configuration of a request. *)
Definition per_page (rq : AxiosRequest) : Val :=
  prop (prop (rq_config rq) "params") "per_page".

(** A value that [...v] can spread: an array or a string. *)
Definition iterable (v : Val) : bool :=
  match v with VArr _ | VStr _ => true | _ => false end.

Definition is_a_string (v : Val) : bool :=
  match v with VStr _ => true | _ => false end.

(** The remote's answer [detail] to the detail request of the hit [article]
    makes a public record: it holds an [article] that is not marked as a
    draft, and the URL of the hit can be converted (it is a string, or no
    custom help-centre URL is configured). *)
Definition public_detail (this : Index.ZendeskClient) (article detail : Val) : Prop :=
  nullish detail = false
  /\ nullish (prop detail "article") = false
  /\ is_true (prop (prop detail "article") "draft") = false
  /\ (truthy (Index.helpCenterUrl this) = false
      \/ is_a_string (or_else (prop article "html_url")
                              (prop (prop detail "article") "html_url")) = true).

(** The payload that the [catch] block of [searchArticles] returns. *)
Definition search_error_payload (message : string) : Val :=
  VObj [("results", VArr []);
        ("count", VNum 0);
        ("page", VNum 1);
        ("page_count", VNum 0);
        ("error", VStr message)].

(** The world after the request [rq] and the line [line] on the error
    console. *)
Definition logged (w : World) (rq : AxiosRequest) (line : list Val) : World :=
  {| requests := requests w ++ [rq]; console := console w ++ [line] |}.

(** The requests of [getArticle] and [getArticlesBySection], for the locale
    in force. *)
Definition article_request (articleId locale : Val) : AxiosRequest :=
  {| rq_method := GET; rq_url := Index.article_url locale articleId;
     rq_data := VUndefined; rq_config := VUndefined |}.

Definition section_request (sectionId locale : Val) : AxiosRequest :=
  {| rq_method := GET;
     rq_url := "/help_center/" +:+ ToString locale +:+ "/sections/"
               +:+ ToString sectionId +:+ "/articles.json";
     rq_data := VUndefined; rq_config := VUndefined |}.

(** No transport is found for the session id of a request: it has none, an
    empty one, or one that is neither registered nor inherited. *)
Definition no_transport (st : Server.ServerState) (req : Server.HttpRequest) : Prop :=
  match Server.mcp_session_id req with
  | Some sid =>
      sid = "" \/ (Server.transports st !! sid = None /\ sid ∉ Server.Object_prototype)
  | None => True
  end.

(** The body of a handshake: a truthy value whose [jsonrpc] is ["2.0"],
    whose [method] is ["initialize"] and which has [params]. *)
Definition handshake_body (body : Val) : bool :=
  truthy body
  && is_string (prop body "jsonrpc") "2.0"
  && is_string (prop body "method") "initialize"
  && negb (is_undefined (prop body "params")).

Definition NO_SESSION_REPLY : Server.Reply :=
  Server.JsonReply 400
    (Server.jsonrpc_error (-32000) "Bad Request: No valid session or initialize request").

(** The body of the [/tools/:toolName] reply for a failure. *)
Definition failure_body (message : string) : Val :=
  VObj [("success", VBool false); ("error", VStr message)].

Definition success_body (data : Val) : Val :=
  VObj [("success", VBool true); ("data", data)].

(** [process.env]: a variable holds a string or is not set. *)
Definition Env : Type := string -> option string.

Definition env_value (env : Env) (name : string) : Val :=
  match env name with Some s => VStr s | None => VUndefined end.

Definition CREDENTIALS : list string :=
  ["ZENDESK_SUBDOMAIN"; "ZENDESK_EMAIL"; "ZENDESK_API_TOKEN"].

(** [zendeskClient] as the two programs set it when they start. *)
Definition index_zendeskClient (env : Env) : option Index.ZendeskClient :=
  match env "ZENDESK_SUBDOMAIN", env "ZENDESK_EMAIL", env "ZENDESK_API_TOKEN" with
  | Some subdomain, Some email, Some apiToken =>
      if truthy (VStr subdomain) && truthy (VStr email) && truthy (VStr apiToken)
      then Some (Index.new_ZendeskClient subdomain email apiToken
                   (env_value env "ZENDESK_HELP_CENTER_URL"))
      else None
  | _, _, _ => None
  end.

Definition server_zendeskClient (env : Env) : option Server.ZendeskClient :=
  match env "ZENDESK_SUBDOMAIN", env "ZENDESK_EMAIL", env "ZENDESK_API_TOKEN" with
  | Some subdomain, Some email, Some apiToken =>
      if truthy (VStr subdomain) && truthy (VStr email) && truthy (VStr apiToken)
      then Some {| Server.subdomain := subdomain |}
      else None
  | _, _, _ => None
  end.

(** A page on which one iteration of the pagination loop throws: no
    object at all, a [comments] that cannot be spread, or a [next_page] that
    is truthy and not a string. *)
Definition malformed (data : Val) : bool :=
  nullish data
  || negb (iterable (prop data "comments"))
  || truthy (prop data "next_page") && negb (is_a_string (prop data "next_page")).

(** [malformed_after remote this hist url pages data]: the run is answered
    with the well-formed [pages], each of which continues, and the request
    after them is answered with the malformed [data]. *)
Fixpoint malformed_after (remote : Remote) (this : Index.ZendeskClient)
    (hist : list AxiosRequest) (nextPageUrl : Val) (pages : list Index.Page)
    (data : Val) : Prop :=
  match pages with
  | [] => truthy nextPageUrl = true
          /\ remote hist (Index.page_request nextPageUrl) = inr data
          /\ malformed data = true
  | p :: pages' =>
      truthy nextPageUrl = true
      /\ remote hist (Index.page_request nextPageUrl) = inr (Index.pg_data p)
      /\ Index.well_formed_page p
      /\ malformed_after remote this (hist ++ [Index.page_request nextPageUrl])
           (Index.cursor_of this (Index.pg_data p)) pages' data
  end.

(** * Further sample remotes *)

Module MoreExamples.

Import Index.

(** A remote whose comment pages never end: every request is answered with
    one comment and a reference to a further page. *)
Definition endless_page : Val :=
  VObj [("comments", VArr [Examples.comment 1]);
        ("next_page", VStr "https://acme.zendesk.com/api/v2/tickets/1/comments.json?page=next")].

Definition endless : Remote := fun _ _ => inr endless_page.

(** A remote that answers every request with the same data, and one that
    rejects every request. *)
Definition always (data : Val) : Remote := fun _ _ => inr data.
Definition never : Remote := fun _ _ => inl Examples.server_error.

(** What the helpdesk answers for a ticket that does not exist, when the
    status of the response is not taken for a failure. *)
Definition error_object : Val :=
  VObj [("error", VStr "RecordNotFound"); ("description", VStr "Not found")].

(** The answer of a ticket search that found three tickets. *)
Definition three_tickets : Val :=
  VObj [("results", VArr [VObj [("id", VNum 7)]; VObj [("id", VNum 8)];
                          VObj [("id", VNum 9)]]);
        ("count", VNum 3)].

(** The answer of an article search whose only hit is [null]. *)
Definition only_null : Val := VObj [("results", VArr [VNull]); ("count", VNum 1)].

(** A search hit and a detail without any [html_url]. *)
Definition bare_hit : Val := VObj [("id", VNum 21); ("title", VStr "Untitled")].
Definition bare_detail : Val :=
  VObj [("article", VObj [("id", VNum 21); ("body", VStr "<p>...</p>");
                          ("draft", VBool false)])].

(** An SDK that opens the session [3f6c] on a fresh transport and otherwise
    only answers, and one whose [connect] fails. *)
Definition opening_sdk (transport : Server.Transport) (req : Server.HttpRequest)
    : Server.SdkRun :=
  {| Server.run_initialized :=
       match Server.sessionId transport with None => Some "3f6c" | Some _ => None end;
     Server.run_closed := false;
     Server.run_error := None;
     Server.run_headersSent := true |}.

Definition failing_sdk (transport : Server.Transport) (req : Server.HttpRequest)
    : Server.SdkRun :=
  {| Server.run_initialized := None;
     Server.run_closed := false;
     Server.run_error := Some (Error "connect failed");
     Server.run_headersSent := false |}.

Definition closing_sdk (transport : Server.Transport) (req : Server.HttpRequest)
    : Server.SdkRun :=
  {| Server.run_initialized := None;
     Server.run_closed := true;
     Server.run_error := None;
     Server.run_headersSent := true |}.

Definition initialize_request : Server.HttpRequest :=
  {| Server.http_method := "POST";
     Server.mcp_session_id := None;
     Server.http_body := VObj [("jsonrpc", VStr "2.0");
                               ("method", VStr "initialize");
                               ("params", VObj []);
                               ("id", VNum 0)] |}.

Definition list_request (sid : string) : Server.HttpRequest :=
  {| Server.http_method := "POST";
     Server.mcp_session_id := Some sid;
     Server.http_body := VObj [("jsonrpc", VStr "2.0");
                               ("method", VStr "tools/list");
                               ("id", VNum 1)] |}.

(** An environment in which the token is set to the empty string. *)
Definition empty_token : Env :=
  fun name =>
    if String.eqb name "ZENDESK_SUBDOMAIN" then Some "acme"
    else if String.eqb name "ZENDESK_EMAIL" then Some "agent@acme.example"
    else if String.eqb name "ZENDESK_API_TOKEN" then Some ""
    else None.

Definition full_env : Env :=
  fun name =>
    if String.eqb name "ZENDESK_SUBDOMAIN" then Some "acme"
    else if String.eqb name "ZENDESK_EMAIL" then Some "agent@acme.example"
    else if String.eqb name "ZENDESK_API_TOKEN" then Some "secret"
    else if String.eqb name "ZENDESK_HELP_CENTER_URL" then Some ""
    else None.

(** The answer to a ticket request whose body is the JSON [null]. *)
Definition null_ticket : Remote :=
  fun hist rq =>
    if String.eqb (rq_url rq) "/tickets/7.json" then inr VNull
    else Examples.helpdesk hist rq.

Definition no_sessions : Server.ServerState :=
  {| Server.transports := ∅; Server.server_console := [] |}.

(** The table after that handshake, and the handshake sent with [GET]. *)
Definition one_session : Server.ServerState :=
  {| Server.transports := <["3f6c" := {| Server.sessionId := Some "3f6c" |}]> ∅;
     Server.server_console := [] |}.

Definition handshake_by_get : Server.HttpRequest :=
  {| Server.http_method := "GET";
     Server.mcp_session_id := None;
     Server.http_body := Server.http_body initialize_request |}.

End MoreExamples.

(** * Results *)

(** ** The monad *)

Section MonadFacts.

Context {A B : Type}.

Lemma bind_returned (m : Js A) (k : A -> Js B) w w' a :
  m w = (w', Returned a) -> bind m k w = k a w'.
Proof. intros H. unfold bind. by rewrite H. Qed.

Lemma bind_thrown (m : Js A) (k : A -> Js B) w w' e :
  m w = (w', Thrown e) -> bind m k w = (w', Thrown e).
Proof. intros H. unfold bind. by rewrite H. Qed.

Lemma bind_diverged (m : Js A) (k : A -> Js B) w w' :
  m w = (w', Diverged) -> bind m k w = (w', Diverged).
Proof. intros H. unfold bind. by rewrite H. Qed.

Lemma try_catch_returned (m : Js A) h w w' a :
  m w = (w', Returned a) -> try_catch m h w = (w', Returned a).
Proof. intros H. unfold try_catch. by rewrite H. Qed.

Lemma try_catch_thrown (m : Js A) h w w' e :
  m w = (w', Thrown e) -> try_catch m h w = h e w'.
Proof. intros H. unfold try_catch. by rewrite H. Qed.

Lemma try_catch_diverged (m : Js A) h w w' :
  m w = (w', Diverged) -> try_catch m h w = (w', Diverged).
Proof. intros H. unfold try_catch. by rewrite H. Qed.

(** A [try] whose handler does not throw does not throw. *)
Lemma try_catch_no_throw (m : Js A) h w :
  (forall e w1 e', (h e w1).2 <> Thrown e') ->
  forall e', (try_catch m h w).2 <> Thrown e'.
Proof.
  intros Hh e'. unfold try_catch.
  destruct (m w) as [w' [a|e|]]; simpl; [done|apply Hh|done].
Qed.

End MonadFacts.

Lemma get_defined v k w :
  nullish v = false -> get v k w = (w, Returned (prop v k)).
Proof. intros H. unfold get. by rewrite H. Qed.

Lemma axios_answered remote rq w data :
  remote (requests w) rq = inr data ->
  axios remote rq w = (sent w [rq], Returned data).
Proof. intros H. unfold axios. by rewrite H. Qed.

Lemma axios_rejected remote rq w e :
  remote (requests w) rq = inl e ->
  axios remote rq w = (sent w [rq], Thrown e).
Proof. intros H. unfold axios. by rewrite H. Qed.

Lemma sent_nil w : sent w [] = w.
Proof. destruct w. unfold sent. simpl. by rewrite app_nil_r. Qed.

Lemma sent_sent w l1 l2 : sent (sent w l1) l2 = sent w (l1 ++ l2).
Proof. unfold sent. simpl. by rewrite app_assoc. Qed.

(** ** Strings *)

Module StrFacts.
Import Str.

Lemma append_cons c s t : String c s +:+ t = String c (s +:+ t).
Proof. reflexivity. Qed.

Lemma append_nil_l t : "" +:+ t = t.
Proof. reflexivity. Qed.

Lemma append_nil_r s : s +:+ "" = s.
Proof. induction s as [|c s IH]; [done|]. by rewrite append_cons, IH. Qed.

Lemma prefix_app p s : String.prefix p (p +:+ s) = true.
Proof.
  induction p as [|c p IH].
  - rewrite append_nil_l. by destruct s.
  - rewrite append_cons. simpl. destruct (ascii_dec c c); [done|congruence].
Qed.

Lemma prefix_inv p s : String.prefix p s = true -> exists r, s = p +:+ r.
Proof.
  revert s. induction p as [|c p IH]; intros s H.
  - by exists s.
  - destruct s as [|d s]; simpl in H; [done|].
    destruct (ascii_dec c d) as [->|]; [|done].
    destruct (IH _ H) as [r ->]. by exists r.
Qed.

Lemma skip_app p s : skip (String.length p) (p +:+ s) = s.
Proof.
  induction p as [|c p IH]; [by destruct s|].
  rewrite append_cons. simpl. done.
Qed.

Lemma replace_first_eq p r s :
  replace_first p r s =
  if String.prefix p s then r +:+ skip (String.length p) s
  else match s with
       | EmptyString => EmptyString
       | String c s' => String c (replace_first p r s')
       end.
Proof. by destruct s. Qed.

Lemma includes_eq n s :
  includes n s =
  String.prefix n s
  || match s with EmptyString => false | String _ s' => includes n s' end.
Proof. by destruct s. Qed.

(** Replacing the first occurrence in a string that starts with the
    pattern strips that prefix. *)
Lemma replace_first_prefix p r s : replace_first p r (p +:+ s) = r +:+ s.
Proof. by rewrite replace_first_eq, prefix_app, skip_app. Qed.

(** Erasing the first occurrence of [p] leaves nothing exactly for the
    empty string and for [p] itself. *)
Lemma replace_first_empty p s :
  replace_first p "" s = "" <-> s = "" \/ s = p.
Proof.
  split.
  - destruct s as [|c s]; [by left|]. rewrite replace_first_eq.
    destruct (String.prefix p (String c s)) eqn:E; [|done].
    destruct (prefix_inv _ _ E) as [r Hr]. rewrite Hr, skip_app, append_nil_l.
    intros ->. right. by rewrite append_nil_r.
  - intros [->| ->].
    + rewrite replace_first_eq. destruct (String.prefix p ""); [|done].
      by destruct p.
    + rewrite <- (append_nil_r p) at 2. by rewrite replace_first_prefix.
Qed.

Lemma includes_prefix p s : includes p (p +:+ s) = true.
Proof. by rewrite includes_eq, prefix_app. Qed.

Lemma includes_app n p s : includes n s = true -> includes n (p +:+ s) = true.
Proof.
  intros H. induction p as [|c p IH]; [done|].
  rewrite append_cons, includes_eq, IH. apply orb_true_r.
Qed.

End StrFacts.

(** ** Pagination: [getTicket] and [getTicketComments] *)

Section PaginationFacts.

Variable remote : Remote.
Variable this : Index.ZendeskClient.

Import Index.

Lemma baseURL_truthy :
  ToString (or_else (VStr (baseURL this)) (VStr "")) = baseURL this.
Proof. reflexivity. Qed.

(** After a well-formed page, [nextPageUrl] holds [cursor_of] that page. *)
Lemma next_page_url_well_formed p w :
  well_formed_page p ->
  next_page_url this (pg_data p) w = (w, Returned (cursor_of this (pg_data p))).
Proof.
  intros (Hdata & _ & Href). unfold next_page_url, cursor_of.
  rewrite (bind_returned _ _ _ _ _ (get_defined _ _ _ Hdata)).
  destruct (prop (pg_data p) "next_page") as [| | | | |s| |]; try done.
  destruct s; done.
Qed.

Lemma comment_pages_eq fuel nextPageUrl allComments :
  comment_pages remote this fuel nextPageUrl allComments =
  if truthy nextPageUrl then
    match fuel with
    | O => diverge
    | S fuel' =>
        data <- axios_get remote (ToString nextPageUrl) VUndefined ;;
        comments <- get data "comments" ;;
        items <- spread comments ;;
        nextPageUrl' <- next_page_url this data ;;
        comment_pages remote this fuel' nextPageUrl' (allComments ++ items)
    end
  else ret allComments.
Proof. by destruct fuel. Qed.

(** One iteration of the loop on a well-formed page. *)
Lemma comment_pages_step fuel nextPageUrl allComments p w :
  truthy nextPageUrl = true ->
  remote (requests w) (page_request nextPageUrl) = inr (pg_data p) ->
  well_formed_page p ->
  comment_pages remote this (S fuel) nextPageUrl allComments w =
  comment_pages remote this fuel (cursor_of this (pg_data p))
    (allComments ++ pg_comments p) (sent w [page_request nextPageUrl]).
Proof.
  intros Ht Hr Hp. rewrite comment_pages_eq, Ht.
  unfold axios_get. fold (page_request nextPageUrl).
  rewrite (bind_returned _ _ _ _ _ (axios_answered _ _ _ _ Hr)).
  destruct Hp as (Hdata & Hcomments & Href).
  rewrite (bind_returned _ _ _ _ _ (get_defined _ _ _ Hdata)), Hcomments.
  simpl spread. rewrite (bind_returned _ _ _ _ (pg_comments p) eq_refl).
  rewrite (bind_returned _ _ _ _ _ (next_page_url_well_formed p _ (conj Hdata (conj Hcomments Href)))).
  done.
Qed.

(** The loop over a served run returns the accumulator followed by the
    comments of all pages, after one request per page. *)
Lemma comment_pages_served pages :
  forall fuel nextPageUrl allComments w,
    served remote this (requests w) nextPageUrl pages ->
    (length pages <= fuel)%nat ->
    comment_pages remote this fuel nextPageUrl allComments w =
    (sent w (run_requests this nextPageUrl pages),
     Returned (allComments ++ all_comments pages)).
Proof.
  induction pages as [|p pages IH]; intros fuel url acc w Hserved Hfuel.
  - simpl in Hserved. rewrite comment_pages_eq, Hserved. simpl.
    unfold all_comments. simpl. by rewrite sent_nil, app_nil_r.
  - destruct Hserved as (Ht & Hr & Hp & Hrest).
    destruct fuel as [|fuel]; [simpl in Hfuel; lia|].
    rewrite (comment_pages_step _ _ _ p) by done.
    rewrite IH; [|done|simpl in Hfuel; lia].
    rewrite sent_sent. unfold all_comments. simpl.
    by rewrite app_assoc.
Qed.

(** The loop over a run whose next request is rejected throws that error. *)
Lemma comment_pages_fails pages :
  forall fuel nextPageUrl allComments w e,
    fails_after remote this (requests w) nextPageUrl pages e ->
    (length pages < fuel)%nat ->
    comment_pages remote this fuel nextPageUrl allComments w =
    (sent w (failing_run_requests this nextPageUrl pages), Thrown e).
Proof.
  induction pages as [|p pages IH]; intros fuel url acc w e Hfails Hfuel.
  - destruct Hfails as (Ht & Hr).
    destruct fuel as [|fuel]; [lia|].
    rewrite comment_pages_eq, Ht. unfold axios_get. fold (page_request url).
    by rewrite (bind_thrown _ _ _ _ _ (axios_rejected _ _ _ _ Hr)).
  - destruct Hfails as (Ht & Hr & Hp & Hrest).
    destruct fuel as [|fuel]; [simpl in Hfuel; lia|].
    rewrite (comment_pages_step _ _ _ p) by done.
    rewrite (IH _ _ _ _ e); [|done|simpl in Hfuel; lia].
    by rewrite sent_sent.
Qed.

(** The steps of the loop body other than the request leave the world
    as it is. *)
Lemma get_world v k w : (get v k w).1 = w.
Proof. unfold get. by destruct (nullish v). Qed.

Lemma spread_world v w : (spread v w).1 = w.
Proof. by destruct v. Qed.

Lemma next_page_url_world data w : (next_page_url this data w).1 = w.
Proof.
  unfold next_page_url, bind, get.
  destruct (nullish data); [done|]. simpl.
  destruct (truthy (prop data "next_page")); [|done].
  by destruct (prop data "next_page").
Qed.

(** The loop only adds requests, and when it is entered with fuel left
    its first request is for [nextPageUrl]. *)
Lemma comment_pages_requests fuel :
  forall nextPageUrl allComments w,
  exists l,
    requests (comment_pages remote this fuel nextPageUrl allComments w).1
    = requests w ++ l
    /\ (truthy nextPageUrl = true -> (0 < fuel)%nat ->
        exists l', l = page_request nextPageUrl :: l').
Proof.
  induction fuel as [|fuel IH]; intros url acc w; rewrite comment_pages_eq.
  - exists []. split; [|lia]. rewrite app_nil_r. by destruct (truthy url).
  - destruct (truthy url) eqn:Ht.
    2:{ exists []. by rewrite app_nil_r. }
    unfold axios_get, bind at 1, axios. fold (page_request url).
    destruct (remote (requests w) (page_request url)) as [e|data].
    { exists [page_request url]. split; [done|]. by exists []. }
    unfold bind at 1.
    pose proof (get_world data "comments" (sent w [page_request url])) as Hg.
    destruct (get data "comments" _) as [w1 [comments|e|]]; simpl in Hg; subst w1;
      try (exists [page_request url]; split; [done|]; by exists []).
    unfold bind at 1.
    pose proof (spread_world comments (sent w [page_request url])) as Hs.
    destruct (spread comments _) as [w1 [items|e|]]; simpl in Hs; subst w1;
      try (exists [page_request url]; split; [done|]; by exists []).
    unfold bind at 1.
    pose proof (next_page_url_world data (sent w [page_request url])) as Hn.
    destruct (next_page_url this data _) as [w1 [next|e|]]; simpl in Hn; subst w1;
      try (exists [page_request url]; split; [done|]; by exists []).
    destruct (IH next (acc ++ items) (sent w [page_request url])) as (l & Hl & _).
    exists (page_request url :: l). split; [|by exists l].
    rewrite Hl. simpl. by rewrite <- app_assoc.
Qed.

(** The normalised reference is falsy exactly for an absent reference and
    for the base URL itself. *)
Lemma cursor_falsy p :
  well_formed_page p ->
  truthy (cursor_of this (pg_data p)) = false <->
  prop (pg_data p) "next_page" = VUndefined
  \/ prop (pg_data p) "next_page" = VNull
  \/ prop (pg_data p) "next_page" = VStr ""
  \/ prop (pg_data p) "next_page" = VStr (baseURL this).
Proof.
  intros (_ & _ & Href). unfold cursor_of.
  destruct (prop (pg_data p) "next_page") as [| | | | |s| |]; try done.
  - split; [by left|done].
  - split; [by right; left|done].
  - destruct s as [|c s]; [split; [by right; right; left|done]|].
    cbn [Str.is_empty truthy].
    split.
    + intros H. apply negb_false_iff in H.
      destruct (Str.replace_first (baseURL this) "" (String c s)) eqn:E; [|done].
      apply StrFacts.replace_first_empty in E as [E|E]; [done|].
      right; right; right. by rewrite E.
    + intros [H|[H|[H|H]]]; try done.
      assert (String c s = baseURL this) as -> by congruence.
      assert (Str.replace_first (baseURL this) "" (baseURL this) = "") as ->; [|done].
      apply StrFacts.replace_first_empty. by right.
Qed.

Lemma length_all_comments pages :
  length (all_comments pages) = sum_list (map (fun p => length (pg_comments p)) pages).
Proof.
  unfold all_comments. induction pages as [|p pages IH]; simpl; [done|].
  by rewrite length_app, IH.
Qed.

End PaginationFacts.

Section PaginationResults.

Variable remote : Remote.
Variable JSON_stringify : Val -> Val.
Variable StringToNumber : string -> option Z.
Variable this : Index.ZendeskClient.

Import Index.

(** C1.  Over every run of well-formed pages, [getTicketComments] and
    [getTicket] return the concatenation of the pages' comment arrays in
    the order in which the pages were fetched, the returned count is the
    sum of the page lengths, and one request per page was issued, in
    sequence. *)
Theorem pagination_concatenates_pages fuel ticketId pages :
  (length pages <= fuel)%nat ->
  (forall w,
      served remote this (requests w) (VStr (comments_url ticketId)) pages ->
      getTicketComments remote this fuel ticketId w =
      (sent w (run_requests this (VStr (comments_url ticketId)) pages),
       Returned
         (VObj [("comments", VArr (concat (map pg_comments pages)));
                ("count",
                 VNum (Z.of_nat (sum_list (map (fun p => length (pg_comments p)) pages))))])))
  /\ (forall w ticket_data,
        remote (requests w) (ticket_request ticketId) = inr ticket_data ->
        nullish ticket_data = false ->
        served remote this (requests w ++ [ticket_request ticketId])
          (VStr (comments_url ticketId)) pages ->
        getTicket remote this fuel ticketId w =
        (sent w (ticket_request ticketId
                 :: run_requests this (VStr (comments_url ticketId)) pages),
         Returned
           (VObj [("ticket", prop ticket_data "ticket");
                  ("comments", VArr (concat (map pg_comments pages)));
                  ("total_comments",
                   VNum (Z.of_nat (sum_list (map (fun p => length (pg_comments p)) pages))))]))).
Proof.
  intros Hfuel. split.
  - intros w Hserved. unfold getTicketComments.
    rewrite (bind_returned _ _ _ _ _ (comment_pages_served remote this pages _ _ [] w Hserved Hfuel)).
    simpl. unfold ret. by rewrite length_all_comments.
  - intros w ticket_data Hticket Hdata Hserved. unfold getTicket, axios_get.
    fold (ticket_request ticketId).
    rewrite (bind_returned _ _ _ _ _ (axios_answered _ _ _ _ Hticket)).
    rewrite (bind_returned _ _ _ _ _
               (comment_pages_served remote this pages _ _ [] (sent w [ticket_request ticketId])
                  Hserved Hfuel)).
    rewrite (bind_returned _ _ _ _ _ (get_defined _ _ _ Hdata)).
    simpl. unfold ret. by rewrite length_all_comments, sent_sent.
Qed.

(** The handler on a request that carries arguments. *)
Lemma handler_with_arguments fuel name args w :
  truthy args = true ->
  CallToolRequest_handler remote JSON_stringify StringToNumber (Some this) fuel
    (call_request name args) w =
  try_catch (call_tool remote JSON_stringify StringToNumber this fuel (VStr name) args)
    (fun error => ret (tool_error ("Error: " +:+ e_message error))) w.
Proof.
  intros Hargs. unfold CallToolRequest_handler, call_request, try_catch, bind, get.
  simpl. by rewrite Hargs.
Qed.

(** C6.  When the remote rejects the request that follows any number of
    well-formed pages, [getTicketComments] and [getTicket] throw that error
    and return no comments, and the tool call ends in an error-flagged
    result that carries the error's message only. *)
Theorem pagination_failure_propagates fuel args pages e :
  let ticketId := prop args "ticket_id" in
  truthy args = true ->
  (length pages < fuel)%nat ->
  (forall w,
      fails_after remote this (requests w) (VStr (comments_url ticketId)) pages e ->
      let w' := sent w (failing_run_requests this (VStr (comments_url ticketId)) pages) in
      getTicketComments remote this fuel ticketId w = (w', Thrown e)
      /\ CallToolRequest_handler remote JSON_stringify StringToNumber (Some this) fuel
           (call_request "get_ticket_comments" args) w =
         (w', Returned (tool_error ("Error: " +:+ e_message e))))
  /\ (forall w ticket_data,
        remote (requests w) (ticket_request ticketId) = inr ticket_data ->
        fails_after remote this (requests w ++ [ticket_request ticketId])
          (VStr (comments_url ticketId)) pages e ->
        let w' := sent w (ticket_request ticketId
                          :: failing_run_requests this (VStr (comments_url ticketId)) pages) in
        getTicket remote this fuel ticketId w = (w', Thrown e)
        /\ CallToolRequest_handler remote JSON_stringify StringToNumber (Some this) fuel
             (call_request "get_ticket" args) w =
           (w', Returned (tool_error ("Error: " +:+ e_message e)))).
Proof.
  intros ticketId Hargs Hfuel. split.
  - intros w Hfails w'.
    assert (getTicketComments remote this fuel ticketId w = (w', Thrown e)) as Hthrown.
    { unfold getTicketComments.
      by rewrite (bind_thrown _ _ _ _ _
                    (comment_pages_fails remote this pages _ _ [] w e Hfails Hfuel)). }
    split; [exact Hthrown|].
    rewrite handler_with_arguments by done.
    rewrite (try_catch_thrown _ _ w w' e); [done|].
    unfold call_tool. simpl. by rewrite (bind_thrown _ _ _ _ _ Hthrown).
  - intros w ticket_data Hticket Hfails w'.
    assert (getTicket remote this fuel ticketId w = (w', Thrown e)) as Hthrown.
    { unfold getTicket, axios_get. fold (ticket_request ticketId).
      rewrite (bind_returned _ _ _ _ _ (axios_answered _ _ _ _ Hticket)).
      rewrite (bind_thrown _ _ _ _ _
                 (comment_pages_fails remote this pages _ _ []
                    (sent w [ticket_request ticketId]) e Hfails Hfuel)).
      by rewrite sent_sent. }
    split; [exact Hthrown|].
    rewrite handler_with_arguments by done.
    rewrite (try_catch_thrown _ _ w w' e); [done|].
    unfold call_tool. simpl. by rewrite (bind_thrown _ _ _ _ _ Hthrown).
Qed.

(** C7, as amended.  After a well-formed page, a continuation reference
    under the base URL is stripped of that prefix; when the normalised
    reference is non-empty the loop goes on and its next request is for
    that reference; when it is empty the loop returns; and it is empty
    exactly for a reference that is absent ([undefined], [null] or the
    empty string) or that is the base URL itself. *)
Theorem continuation_reference_normalised fuel nextPageUrl allComments p w :
  truthy nextPageUrl = true ->
  remote (requests w) (page_request nextPageUrl) = inr (pg_data p) ->
  well_formed_page p ->
  let next_page := prop (pg_data p) "next_page" in
  let w1 := sent w [page_request nextPageUrl] in
  (forall rest,
      next_page = VStr (baseURL this +:+ rest) ->
      next_page_url this (pg_data p) w1 = (w1, Returned (VStr rest))
      /\ cursor_of this (pg_data p) = VStr rest)
  /\ (truthy (cursor_of this (pg_data p)) = true ->
      exists l,
        requests (comment_pages remote this (S (S fuel)) nextPageUrl allComments w).1
        = requests w ++ page_request nextPageUrl
                        :: page_request (cursor_of this (pg_data p)) :: l)
  /\ (truthy (cursor_of this (pg_data p)) = false ->
      comment_pages remote this (S fuel) nextPageUrl allComments w =
      (w1, Returned (allComments ++ pg_comments p)))
  /\ (truthy (cursor_of this (pg_data p)) = false <->
      next_page = VUndefined \/ next_page = VNull \/ next_page = VStr ""
      \/ next_page = VStr (baseURL this)).
Proof.
  intros Ht Hr Hp next_page w1.
  assert (forall rest, next_page = VStr (baseURL this +:+ rest) ->
                       cursor_of this (pg_data p) = VStr rest) as Hstrip.
  { intros rest Hnext. unfold cursor_of. fold next_page. rewrite Hnext.
    change (Str.is_empty (baseURL this +:+ rest)) with false. cbv iota.
    by rewrite StrFacts.replace_first_prefix. }
  split; [|split; [|split]].
  - intros rest Hnext. split; [|by apply Hstrip].
    rewrite next_page_url_well_formed by done. by rewrite (Hstrip rest).
  - intros Hgo. rewrite (comment_pages_step remote this _ _ _ p) by done.
    destruct (comment_pages_requests remote this (S fuel) (cursor_of this (pg_data p))
                (allComments ++ pg_comments p) (sent w [page_request nextPageUrl]))
      as (l & Hl & Hfirst).
    destruct (Hfirst Hgo ltac:(lia)) as [l' ->].
    exists l'. rewrite Hl. simpl. by rewrite <- app_assoc.
  - intros Hstop. rewrite (comment_pages_step remote this _ _ _ p) by done.
    by rewrite comment_pages_eq, Hstop.
  - by apply cursor_falsy.
Qed.

End PaginationResults.

(** C1 on the sample helpdesk: the three pages of ticket 7. *)
Lemma pagination_concatenates_pages_witness :
  Index.getTicketComments Examples.helpdesk Examples.acme 3 (VNum 7) World0 =
  (sent World0
     (Index.run_requests Examples.acme (VStr (Index.comments_url (VNum 7))) Examples.pages7),
   Returned (VObj [("comments", VArr (map Examples.comment [1; 2; 3; 4; 5]));
                   ("count", VNum 5)]))
  /\ (Index.getTicket Examples.helpdesk Examples.acme 3 (VNum 7) World0).2 =
     Returned (VObj [("ticket", VObj [("id", VNum 7); ("subject", VStr "Printer jam")]);
                     ("comments", VArr (map Examples.comment [1; 2; 3; 4; 5]));
                     ("total_comments", VNum 5)]).
Proof.
  destruct (pagination_concatenates_pages Examples.helpdesk Examples.acme 3 (VNum 7)
              Examples.pages7 ltac:(simpl; lia)) as [Hcomments Hticket].
  split.
  - apply (Hcomments World0). vm_compute. tauto.
  - rewrite (Hticket World0
               (VObj [("ticket", VObj [("id", VNum 7); ("subject", VStr "Printer jam")])])).
    + reflexivity.
    + reflexivity.
    + reflexivity.
    + vm_compute. tauto.
Defined.

(** Three pages of 100, 100 and 37 comments give 237 comments after three
    requests, one per page and in sequence. *)
Lemma three_pages_of_comments :
  let run := Index.getTicketComments Examples.bulk_helpdesk Examples.acme 3 (VNum 1) World0 in
  run.2 =
  Returned (VObj [("comments", VArr (replicate 237 (Examples.comment 0)));
                  ("count", VNum 237)])
  /\ map rq_url (requests run.1) =
     ["/tickets/1/comments.json?sort_order=asc";
      "/tickets/1/comments.json?page=2";
      "/tickets/1/comments.json?page=3"].
Proof. split; vm_compute; reflexivity. Qed.

(** C6 on the sample helpdesk: the second page of ticket 8 is rejected. *)
Lemma pagination_failure_propagates_witness :
  (Index.getTicketComments Examples.helpdesk Examples.acme 5 (VNum 8) World0).2 =
  Thrown Examples.server_error
  /\ (Index.CallToolRequest_handler Examples.helpdesk Examples.stringify Examples.to_number
        (Some Examples.acme) 5
        (call_request "get_ticket_comments" (VObj [("ticket_id", VNum 8)])) World0).2 =
     Returned (tool_error "Error: Request failed with status code 500")
  /\ (Index.CallToolRequest_handler Examples.helpdesk Examples.stringify Examples.to_number
        (Some Examples.acme) 5
        (call_request "get_ticket" (VObj [("ticket_id", VNum 8)])) World0).2 =
     Returned (tool_error "Error: Request failed with status code 500").
Proof.
  destruct (pagination_failure_propagates Examples.helpdesk Examples.stringify
              Examples.to_number Examples.acme 5 (VObj [("ticket_id", VNum 8)])
              Examples.pages8 Examples.server_error eq_refl ltac:(simpl; lia))
    as [Hcomments Hticket].
  destruct (Hcomments World0) as [H1 H2]; [vm_compute; tauto|].
  destruct (Hticket World0
              (VObj [("ticket", VObj [("id", VNum 8); ("subject", VStr "Login loop")])]))
    as [_ H3]; [reflexivity|vm_compute; tauto|].
  change (prop (VObj [("ticket_id", VNum 8)]) "ticket_id") with (VNum 8) in *.
  split; [by rewrite H1|]. split; [by rewrite H2|by rewrite H3].
Defined.

(** C7 as stated fails on the sample helpdesk: the only page fetched for
    ticket 9 carries a continuation reference (the base URL), and the loop
    terminates after it. *)
Lemma loop_terminates_despite_reference :
  prop (Index.pg_data Examples.page9) "next_page" = VStr "https://acme.zendesk.com/api/v2"
  /\ Index.getTicketComments Examples.helpdesk Examples.acme 5 (VNum 9) World0 =
     (sent World0 [Index.page_request (VStr (Index.comments_url (VNum 9)))],
      Returned (VObj [("comments", VArr [Examples.comment 8]); ("count", VNum 1)])).
Proof. split; reflexivity. Qed.

(** C7, as amended, on the sample helpdesk: the first page of ticket 7. *)
Lemma continuation_reference_normalised_witness :
  Index.cursor_of Examples.acme
    (Examples.comments_page [1; 2]
       (VStr "https://acme.zendesk.com/api/v2/tickets/7/comments.json?page=2"))
  = VStr "/tickets/7/comments.json?page=2".
Proof.
  pose proof (continuation_reference_normalised Examples.helpdesk Examples.acme 0
                (VStr (Index.comments_url (VNum 7))) []
                Examples.first_page7 World0
                eq_refl eq_refl ltac:(repeat split)) as (Hstrip & _).
  exact (proj2 (Hstrip "/tickets/7/comments.json?page=2" eq_refl)).
Defined.

(** ** [searchTickets] *)

Section SearchTicketsResults.

Variable remote : Remote.
Variable JSON_stringify : Val -> Val.
Variable StringToNumber : string -> option Z.

Import Index.

(** C10.  When the remote rejects the search request of [searchTickets] with
    a timeout (axios code [ECONNABORTED], or a message that contains
    "timeout"), the method returns a payload with no results, zero counts and
    an explanatory [error] field; every other rejection is thrown again and
    reaches the caller of the tool as an error-flagged result. *)
Theorem searchTickets_folds_timeouts query maxResults w e :
  let maxResults' := default maxResults (VNum 100) in
  let w1 := sent w [tickets_search_request StringToNumber query maxResults'] in
  remote (requests w) (tickets_search_request StringToNumber query maxResults') = inl e ->
  (is_timeout e = true <->
   e_code e = VStr "ECONNABORTED" \/ Str.includes "timeout" (e_message e) = true)
  /\ (is_timeout e = true ->
      searchTickets remote StringToNumber query maxResults w =
      (w1, Returned (VObj [("results", VArr []);
                           ("count", VNum 0);
                           ("total_count", VNum 0);
                           ("error", VStr SEARCH_TIMEOUT_MESSAGE)])))
  /\ (is_timeout e = false ->
      searchTickets remote StringToNumber query maxResults w = (w1, Thrown e)
      /\ forall this fuel args,
          truthy args = true ->
          prop args "query" = query ->
          or_else (prop args "max_results") (VNum 100) = maxResults ->
          CallToolRequest_handler remote JSON_stringify StringToNumber (Some this) fuel
            (call_request "search_tickets" args) w =
          (w1, Returned (tool_error ("Error: " +:+ e_message e)))).
Proof.
  intros maxResults' w1 Hrejected.
  assert (searchTickets remote StringToNumber query maxResults w =
          (if is_timeout e then
             ret (VObj [("results", VArr []); ("count", VNum 0);
                        ("total_count", VNum 0);
                        ("error", VStr SEARCH_TIMEOUT_MESSAGE)])
           else throw e) w1) as Hrun.
  { unfold searchTickets. fold maxResults'.
    rewrite (try_catch_thrown _ _ w w1 e); [done|].
    unfold axios_get. fold (tickets_search_request StringToNumber query maxResults').
    by rewrite (bind_thrown _ _ _ _ _ (axios_rejected _ _ _ _ Hrejected)). }
  split; [|split].
  - unfold is_timeout, is_string. rewrite orb_true_iff.
    split; intros [H|H]; try (by right).
    + left. destruct (e_code e); try done. f_equal. by apply String.eqb_eq.
    + left. rewrite H. by apply String.eqb_eq.
  - intros Ht. by rewrite Hrun, Ht.
  - intros Ht. rewrite Ht in Hrun. split; [done|].
    intros this fuel args Hargs Hquery Hmax.
    rewrite handler_with_arguments by done.
    rewrite (try_catch_thrown _ _ w w1 e); [done|].
    unfold call_tool. simpl. rewrite Hquery, Hmax.
    by rewrite (bind_thrown _ _ _ _ _ Hrun).
Qed.

End SearchTicketsResults.

(** C10 on the sample helpdesk: the search for "slow" times out. *)
Lemma searchTickets_folds_timeouts_witness :
  Index.searchTickets Examples.helpdesk Examples.to_number (VStr "slow") VUndefined World0 =
  (sent World0 [Index.tickets_search_request Examples.to_number (VStr "slow") (VNum 100)],
   Returned (VObj [("results", VArr []);
                   ("count", VNum 0);
                   ("total_count", VNum 0);
                   ("error", VStr Index.SEARCH_TIMEOUT_MESSAGE)])).
Proof.
  destruct (searchTickets_folds_timeouts Examples.helpdesk Examples.stringify
              Examples.to_number (VStr "slow") VUndefined World0 Examples.timed_out eq_refl)
    as (_ & Htimeout & _).
  apply Htimeout. reflexivity.
Defined.

(** ** The global replacement of [convertToCustomUrl] *)

Module ReplaceFacts.
Import Str StrFacts.

Lemma includes_dollar c t :
  includes "$" (String c t) = false ->
  Ascii.eqb c "$" = false /\ includes "$" t = false.
Proof.
  rewrite includes_eq. intros H. apply orb_false_iff in H as [Hc Ht].
  split; [|done]. simpl in Hc.
  destruct (ascii_dec "$" c) as [<-|Hne].
  - by destruct t.
  - apply Ascii.eqb_neq. congruence.
Qed.

Lemma includes_dollar_cons c t :
  Ascii.eqb c "$" = false -> includes "$" t = false ->
  includes "$" (String c t) = false.
Proof.
  intros Hc Ht. rewrite includes_eq, Ht, orb_false_r. unfold String.prefix.
  destruct (ascii_dec "$" c) as [<-|]; done.
Qed.

(** A template without [$] is substituted as it is. *)
Lemma GetSubstitution_plain matched before after template :
  includes "$" template = false ->
  GetSubstitution matched before after template = template.
Proof.
  induction template as [|c t IH]; [done|]. intros H.
  apply includes_dollar in H as [Hc Ht]. simpl. rewrite Hc. by rewrite IH.
Qed.

Lemma replace_global_eq pat template before inside s :
  replace_global pat template before inside s =
  match s with
  | EmptyString =>
      match inside with
      | O => if String.prefix pat EmptyString
             then GetSubstitution pat before EmptyString template
             else EmptyString
      | S _ => EmptyString
      end
  | String c s' =>
      let before' := before +:+ String c EmptyString in
      match inside with
      | S k => replace_global pat template before' k s'
      | O =>
          if String.prefix pat s then
            GetSubstitution pat before (skip (String.length pat) s) template
            +:+ match String.length pat with
                | O => String c (replace_global pat template before' O s')
                | S k => replace_global pat template before' k s'
                end
          else String c (replace_global pat template before' O s')
      end
  end.
Proof. by destruct s. Qed.

(** With a template without [$], the text before a match is irrelevant. *)
Lemma replace_global_before pat template s :
  includes "$" template = false ->
  forall before before' inside,
    replace_global pat template before inside s =
    replace_global pat template before' inside s.
Proof.
  intros Hplain. induction s as [|c s IH]; intros b b' k.
  - rewrite !replace_global_eq. destruct k; [|done].
    by rewrite !GetSubstitution_plain.
  - rewrite (replace_global_eq _ _ b), (replace_global_eq _ _ b'). cbv zeta.
    destruct k as [|k]; [|apply IH].
    rewrite !GetSubstitution_plain by done.
    rewrite (IH (b +:+ String c "") (b' +:+ String c "") 0%nat).
    destruct (String.length pat) as [|n]; [done|].
    by rewrite (IH (b +:+ String c "") (b' +:+ String c "") n).
Qed.

(** The characters of a match are dropped. *)
Lemma replace_global_inside pat template p s before :
  includes "$" template = false ->
  replace_global pat template before (String.length p) (p +:+ s) =
  replace_global pat template before O s.
Proof.
  intros Hplain. revert before. induction p as [|c p IH]; intros before; [done|].
  rewrite append_cons, replace_global_eq. cbv zeta. simpl String.length. cbv iota.
  rewrite IH. by apply replace_global_before.
Qed.

(** A subject that starts with the pattern starts, after the replacement,
    with the template; the rest is rewritten in the same way. *)
Lemma replace_all_prefix pat template rest :
  pat <> "" ->
  includes "$" template = false ->
  replace_all pat template (pat +:+ rest) =
  template +:+ replace_all pat template rest.
Proof.
  intros Hpat Hplain. unfold replace_all.
  destruct pat as [|c p]; [done|].
  rewrite append_cons, replace_global_eq. cbv zeta.
  rewrite <- append_cons, prefix_app, GetSubstitution_plain by done.
  simpl String.length. cbv iota.
  by rewrite replace_global_inside, (replace_global_before _ _ _ Hplain _ "").
Qed.

(** A subject without the pattern is left as it is. *)
Lemma replace_global_absent pat template s :
  includes pat s = false ->
  forall before, replace_global pat template before O s = s.
Proof.
  induction s as [|c s IH]; intros H before; rewrite includes_eq in H;
    apply orb_false_iff in H as [Hp Hs]; rewrite replace_global_eq.
  - by rewrite Hp.
  - cbv zeta. by rewrite Hp, IH.
Qed.

End ReplaceFacts.

Section ConvertResults.

Variable this : Index.ZendeskClient.

Import Index.

(** C8, as amended.  Without an alternate domain [convertToCustomUrl] returns
    its argument.  With an alternate domain that has no [$] in it, and a
    subdomain that is a DNS label, a URL that starts with the fixed origin
    [https://<subdomain>.zendesk.com/hc/] has that prefix replaced by
    [<alternate>/hc/], and the same replacement is made at every later
    occurrence of the origin in the remainder; a remainder without the origin
    is left untouched, and so is a URL without it. *)
Theorem convertToCustomUrl_rewrites_origin :
  (truthy (helpCenterUrl this) = false ->
   forall zendeskUrl w, convertToCustomUrl this zendeskUrl w = (w, Returned zendeskUrl))
  /\ (forall alternate,
        helpCenterUrl this = VStr alternate ->
        alternate <> "" ->
        Str.includes "$" alternate = false ->
        dns_label (subdomain this) = true ->
        let replacement := alternate +:+ "/hc/" in
        (forall rest w,
            convertToCustomUrl this (VStr (urlPattern this +:+ rest)) w =
            (w, Returned (VStr (replacement
                                +:+ Str.replace_all (urlPattern this) replacement rest))))
        /\ (forall rest w,
              Str.includes (urlPattern this) rest = false ->
              convertToCustomUrl this (VStr (urlPattern this +:+ rest)) w =
              (w, Returned (VStr (replacement +:+ rest))))
        /\ (forall url w,
              Str.includes (urlPattern this) url = false ->
              convertToCustomUrl this (VStr url) w = (w, Returned (VStr url)))).
Proof.
  split.
  - intros Hnone url w. unfold convertToCustomUrl. by rewrite Hnone.
  - intros alternate Halt Hne Hplain _ replacement.
    assert (Str.includes "$" replacement = false) as Hplain'.
    { unfold replacement. clear -Hplain.
      induction alternate as [|c a IH]; [done|].
      apply ReplaceFacts.includes_dollar in Hplain as [Hc Ha].
      rewrite StrFacts.append_cons.
      by apply ReplaceFacts.includes_dollar_cons; [|apply IH]. }
    assert (forall url w,
               convertToCustomUrl this (VStr url) w =
               (w, Returned (VStr (Str.replace_all (urlPattern this) replacement url))))
      as Hrun.
    { intros url w. unfold convertToCustomUrl. rewrite Halt.
      destruct alternate; [done|]. reflexivity. }
    split; [|split].
    + intros rest w. rewrite Hrun.
      by rewrite ReplaceFacts.replace_all_prefix.
    + intros rest w Habsent. rewrite Hrun.
      rewrite ReplaceFacts.replace_all_prefix by done.
      unfold Str.replace_all. by rewrite ReplaceFacts.replace_global_absent.
    + intros url w Habsent. rewrite Hrun.
      unfold Str.replace_all. by rewrite ReplaceFacts.replace_global_absent.
Qed.

End ConvertResults.

(** C8, as amended, on the sample configuration. *)
Lemma convertToCustomUrl_rewrites_origin_witness :
  Index.convertToCustomUrl Examples.acme_help
    (VStr "https://acme.zendesk.com/hc/ja/articles/1") World0 =
  (World0, Returned (VStr "https://help.acme.example/hc/ja/articles/1")).
Proof.
  destruct (convertToCustomUrl_rewrites_origin Examples.acme_help) as [_ H].
  destruct (H "https://help.acme.example" eq_refl ltac:(done) eq_refl eq_refl)
    as (_ & Hprefix & _).
  apply (Hprefix "ja/articles/1" World0). reflexivity.
Defined.

(** C8 as stated fails: the remainder of the URL is not left untouched when
    the origin occurs in it again. *)
Lemma remainder_is_rewritten_too :
  Index.convertToCustomUrl Examples.acme_help
    (VStr "https://acme.zendesk.com/hc/ja/signin?return_to=https://acme.zendesk.com/hc/ja")
    World0 =
  (World0,
   Returned
     (VStr "https://help.acme.example/hc/ja/signin?return_to=https://help.acme.example/hc/ja"))
  /\ "https://help.acme.example/hc/ja/signin?return_to=https://help.acme.example/hc/ja"
     <> "https://help.acme.example/hc/" +:+ "ja/signin?return_to=https://acme.zendesk.com/hc/ja".
Proof. split; [reflexivity|discriminate]. Qed.

(** ** Sessions: the [/mcp] endpoint *)

Section EndpointResults.

Variable sdk : Server.Transport -> Server.HttpRequest -> Server.SdkRun.

Import Server.

(** A request that is not a handshake and whose session id is neither a
    registered session nor a property inherited from [Object.prototype] is
    answered with the client error -32000 and a [null] id, and the session
    table is left as it is. *)
Lemma unknown_session_is_rejected req st :
  (String.eqb (http_method req) "POST" && truthy (isInitializeRequest (http_body req)))
  = false ->
  (forall sid, mcp_session_id req = Some sid ->
               transports st !! sid = None /\ sid ∉ Object_prototype) ->
  mcp_endpoint sdk req st =
  (st, JsonReply 400
         (jsonrpc_error (-32000) "Bad Request: No valid session or initialize request")).
Proof.
  intros Hhandshake Hsid. unfold mcp_endpoint.
  destruct (mcp_session_id req) as [sid|]; [|by rewrite Hhandshake].
  destruct (Hsid sid eq_refl) as [Hown Hinherited].
  unfold lookup_transport. rewrite Hown.
  rewrite bool_decide_eq_false_2 by done.
  destruct (Str.is_empty sid); by rewrite Hhandshake.
Qed.

(** Once [onclose] has removed a session, a request that bears its id is
    rejected in that way and no session is created. *)
Lemma stale_session_is_rejected req st sid transport run :
  sessionId transport = Some sid ->
  sid <> "" ->
  sid ∉ Object_prototype ->
  run_initialized run = None ->
  run_closed run = true ->
  mcp_session_id req = Some sid ->
  (String.eqb (http_method req) "POST" && truthy (isInitializeRequest (http_body req)))
  = false ->
  let st' := fire_callbacks transport run st in
  transports st' !! sid = None
  /\ mcp_endpoint sdk req st' =
     (st', JsonReply 400
             (jsonrpc_error (-32000) "Bad Request: No valid session or initialize request")).
Proof.
  intros Hsid Hne Hproto Hinit Hclosed Hreq Hhandshake st'.
  assert (transports st' !! sid = None) as Hgone.
  { unfold st', fire_callbacks. rewrite Hinit, Hclosed, Hsid.
    destruct sid; [done|]. simpl. apply lookup_delete_eq. }
  split; [done|]. apply unknown_session_is_rejected; [done|].
  intros sid' Hsid'. rewrite Hreq in Hsid'. by injection Hsid' as <-.
Qed.

(** A session id that names a property of [Object.prototype] is taken for a
    transport: the call of its [handleRequest] throws and the request is
    answered with the server error -32603. *)
Lemma inherited_key_is_a_server_error req st key :
  mcp_session_id req = Some key ->
  key ∈ Object_prototype ->
  transports st !! key = None ->
  (mcp_endpoint sdk req st).2 =
  JsonReply 500 (jsonrpc_error (-32603) "transport.handleRequest is not a function").
Proof.
  intros Hreq Hkey Hown. unfold mcp_endpoint, lookup_transport.
  rewrite Hreq, Hown, bool_decide_eq_true_2 by done.
  assert (Str.is_empty key = false) as ->; [|done].
  destruct key; [|done]. exfalso. revert Hkey.
  apply (bool_decide_eq_false_1 ("" ∈ Object_prototype)). reflexivity.
Qed.

(** C4 fails on this request: it bears the session id [constructor], which
    identifies no session, and is not a handshake; the answer is the server
    error -32603 instead of the client error -32000. *)
Theorem constructor_session_id_is_a_server_error :
  let req := {| http_method := "POST";
                mcp_session_id := Some "constructor";
                http_body := VObj [("jsonrpc", VStr "2.0");
                                   ("method", VStr "tools/list");
                                   ("id", VNum 1)] |} in
  let st := {| transports := ∅; server_console := [] |} in
  truthy (isInitializeRequest (http_body req)) = false
  /\ transports st !! "constructor" = None
  /\ mcp_endpoint sdk req st =
     ({| transports := ∅;
         server_console := [[VStr "MCP endpoint error:";
                             VStr "transport.handleRequest is not a function"]] |},
      JsonReply 500 (jsonrpc_error (-32603) "transport.handleRequest is not a function")).
Proof. intros req st. split; [done|]. split; [done|]. reflexivity. Qed.

End EndpointResults.

(** ** The tool dispatchers *)

Section TerminationFacts.

Context {A B : Type}.

Lemma terminates_ret (a : A) : terminates (ret a).
Proof. by intros w. Qed.

Lemma terminates_throw e : terminates (@throw A e).
Proof. by intros w. Qed.

Lemma terminates_bind (m : Js A) (k : A -> Js B) :
  terminates m -> (forall a, terminates (k a)) -> terminates (bind m k).
Proof.
  intros Hm Hk w. unfold bind. specialize (Hm w).
  destruct (m w) as [w' [a|e|]]; simpl in *; [apply Hk|done|done].
Qed.

Lemma terminates_try_catch (m : Js A) h :
  terminates m -> (forall e, terminates (h e)) -> terminates (try_catch m h).
Proof.
  intros Hm Hh w. unfold try_catch. specialize (Hm w).
  destruct (m w) as [w' [a|e|]]; simpl in *; [done|apply Hh|done].
Qed.

Lemma terminates_if (b : bool) (m1 m2 : Js A) :
  terminates m1 -> terminates m2 -> terminates (if b then m1 else m2).
Proof. by destruct b. Qed.

End TerminationFacts.

Lemma terminates_axios remote rq : terminates (axios remote rq).
Proof. intros w. unfold axios. simpl. by destruct (remote (requests w) rq). Qed.

Lemma terminates_get v k : terminates (get v k).
Proof. intros w. unfold get. by destruct (nullish v). Qed.

Lemma terminates_console_error args : terminates (console_error args).
Proof. by intros w. Qed.

Lemma terminates_String_replace_global v pat template :
  terminates (String_replace_global v pat template).
Proof. intros w. by destruct v. Qed.

Lemma terminates_map_async {A B} (f : A -> Js B) xs :
  (forall x, terminates (f x)) -> terminates (map_async f xs).
Proof.
  intros Hf. induction xs as [|x xs IH]; intros w; simpl; [done|].
  specialize (Hf x w). destruct (f x w) as [w1 first]. specialize (IH w1).
  destruct (map_async f xs w1) as [w2 others]. simpl in *.
  by destruct first, others.
Qed.

Create HintDb js_terminates.
#[local] Hint Resolve terminates_ret terminates_throw terminates_axios terminates_get
  terminates_console_error terminates_String_replace_global : js_terminates.
#[local] Hint Extern 2 (terminates (bind _ _)) =>
  apply terminates_bind; [|intros ?] : js_terminates.
#[local] Hint Extern 2 (terminates (try_catch _ _)) =>
  apply terminates_try_catch; [|intros ?] : js_terminates.
#[local] Hint Extern 2 (terminates (if _ then _ else _)) =>
  apply terminates_if : js_terminates.
#[local] Hint Extern 2 (terminates (map_async _ _)) =>
  apply terminates_map_async; intros ? : js_terminates.
#[local] Hint Extern 1 (terminates (axios_get _ _ _)) =>
  apply terminates_axios : js_terminates.
#[local] Hint Extern 1 (terminates (axios_post _ _ _)) =>
  apply terminates_axios : js_terminates.
#[local] Hint Extern 1 (terminates (axios_put _ _ _)) =>
  apply terminates_axios : js_terminates.

Ltac js_terminates := auto 30 with js_terminates.

Section IndexDispatcher.

Variable remote : Remote.
Variable JSON_stringify : Val -> Val.
Variable StringToNumber : string -> option Z.

Import Index.

Lemma terminates_slice0 v stop : terminates (slice0 StringToNumber v stop).
Proof. intros w. by destruct v. Qed.

#[local] Hint Resolve terminates_slice0 : js_terminates.

Lemma terminates_searchTickets query maxResults :
  terminates (searchTickets remote StringToNumber query maxResults).
Proof. unfold searchTickets. js_terminates. Qed.

Lemma terminates_convertToCustomUrl this url : terminates (convertToCustomUrl this url).
Proof. unfold convertToCustomUrl. js_terminates. Qed.

#[local] Hint Resolve terminates_convertToCustomUrl : js_terminates.

Lemma terminates_article_with_details this locale article :
  terminates (article_with_details remote this locale article).
Proof. unfold article_with_details. js_terminates. Qed.

#[local] Hint Resolve terminates_article_with_details : js_terminates.

Lemma terminates_slice10_map_all this locale results :
  terminates (slice10_map_all results (article_with_details remote this locale)).
Proof. unfold slice10_map_all. destruct results; js_terminates. Qed.

#[local] Hint Resolve terminates_slice10_map_all : js_terminates.

Lemma terminates_searchArticles this query locale :
  terminates (searchArticles remote this query locale).
Proof. unfold searchArticles. js_terminates. Qed.

Lemma bind_ret_shape {A B} (m : Js A) (f : A -> B) w r :
  (bind m (fun x => ret (f x)) w).2 = Returned r -> exists x, r = f x.
Proof.
  unfold bind, ret. destruct (m w) as [w' [a|e|]]; simpl; [|done|done].
  intros [= <-]. by exists a.
Qed.

(** Whatever [call_tool] returns is a tool result. *)
Lemma call_tool_shape this fuel name args w r :
  (call_tool remote JSON_stringify StringToNumber this fuel name args w).2 = Returned r ->
  is_tool_result r.
Proof.
  unfold call_tool. cbv zeta.
  do 13 (destruct (is_string name _);
         [intros H; apply bind_ret_shape in H as [x ->]; left; by eexists|]).
  intros [= <-]. right. by eexists.
Qed.

(** Only the two paginating tools can run out of fuel. *)
Lemma call_tool_terminates this fuel (name : string) args :
  name <> "get_ticket" -> name <> "get_ticket_comments" ->
  terminates (call_tool remote JSON_stringify StringToNumber this fuel (VStr name) args).
Proof.
  intros H1 H2. unfold call_tool, is_string. cbv zeta.
  rewrite (proj2 (String.eqb_neq name "get_ticket")) by done.
  rewrite (proj2 (String.eqb_neq name "get_ticket_comments")) by done.
  pose proof terminates_searchTickets. pose proof terminates_searchArticles.
  unfold createTicket, updateTicket, addComment, searchUsers, getUser,
    searchOrganizations, getOrganization, getArticle, getArticlesBySection.
  js_terminates.
Qed.

(** The handler of [index.ts] never throws, and what it returns is a tool
    result. *)
Lemma index_handler_answers zendeskClient fuel request w :
  (forall e,
      (CallToolRequest_handler remote JSON_stringify StringToNumber zendeskClient fuel
         request w).2 <> Thrown e)
  /\ (forall r,
        (CallToolRequest_handler remote JSON_stringify StringToNumber zendeskClient fuel
           request w).2 = Returned r ->
        is_tool_result r).
Proof.
  unfold CallToolRequest_handler. destruct zendeskClient as [client|].
  2:{ split; [done|]. intros r [= <-]. left. by eexists. }
  split.
  - by apply try_catch_no_throw.
  - unfold try_catch, bind, get.
    destruct (nullish request); simpl; [intros r [= <-]; right; by eexists|].
    destruct (nullish (prop request "params")); simpl;
      [intros r [= <-]; right; by eexists|].
    destruct (truthy _); simpl; [|intros r [= <-]; right; by eexists].
    intros r.
    pose proof (call_tool_shape client fuel
                  (prop (prop request "params") "name")
                  (prop (prop request "params") "arguments") w) as Hshape.
    destruct (call_tool _ _ _ _ _ _ _ w) as [w' [a|e|]]; simpl in *.
    + intros [= <-]. by apply Hshape.
    + intros [= <-]. right. by eexists.
    + done.
Qed.

(** The guards of the handler of [index.ts], in the order in which they are
    tested, and its [catch]. *)
Lemma index_handler_cases this fuel name args w :
  (forall request,
      CallToolRequest_handler remote JSON_stringify StringToNumber None fuel request w =
      (w, Returned (tool_result (VStr CREDENTIALS_MESSAGE))))
  /\ (truthy args = false ->
      CallToolRequest_handler remote JSON_stringify StringToNumber (Some this) fuel
        (call_request name args) w =
      (w, Returned (tool_error "Error: No arguments provided")))
  /\ (truthy args = true -> name ∉ TOOLS ->
      CallToolRequest_handler remote JSON_stringify StringToNumber (Some this) fuel
        (call_request name args) w =
      (w, Returned (tool_error ("Unknown tool: " +:+ name)))
      /\ Str.includes name ("Unknown tool: " +:+ name) = true)
  /\ (truthy args = true ->
      forall w' e,
        call_tool remote JSON_stringify StringToNumber this fuel (VStr name) args w
        = (w', Thrown e) ->
        CallToolRequest_handler remote JSON_stringify StringToNumber (Some this) fuel
          (call_request name args) w =
        (w', Returned (tool_error ("Error: " +:+ e_message e))))
  /\ (name <> "get_ticket" -> name <> "get_ticket_comments" ->
      (CallToolRequest_handler remote JSON_stringify StringToNumber (Some this) fuel
         (call_request name args) w).2 <> Diverged).
Proof.
  split; [done|]. split; [|split; [|split]].
  - intros Hargs. unfold CallToolRequest_handler, call_request, try_catch, bind, get.
    simpl. by rewrite Hargs.
  - intros Hargs Hname. split.
    2:{ apply StrFacts.includes_app. rewrite <- (StrFacts.append_nil_r name) at 2.
        apply StrFacts.includes_prefix. }
    rewrite handler_with_arguments by done.
    assert (forall tool, tool ∈ TOOLS -> String.eqb name tool = false) as Hne.
    { intros tool Htool. apply String.eqb_neq. by intros ->. }
    unfold call_tool, is_string. cbv zeta.
    rewrite !Hne by (apply (bool_decide_unpack _); reflexivity).
    done.
  - intros Hargs w' e Hthrown. rewrite handler_with_arguments by done.
    by rewrite (try_catch_thrown _ _ w w' e).
  - intros H1 H2.
    destruct (truthy args) eqn:Hargs.
    + rewrite handler_with_arguments by done.
      apply terminates_try_catch; [by apply call_tool_terminates|].
      intros e. apply terminates_ret.
    + unfold CallToolRequest_handler, call_request, try_catch, bind, get.
      simpl. by rewrite Hargs.
Qed.

End IndexDispatcher.

Section ServerDispatcher.

Variable remote : Remote.
Variable JSON_stringify : Val -> Val.

Import Server.

Lemma server_handler_with_arguments this name args w :
  truthy args = true ->
  CallToolRequest_handler remote JSON_stringify (Some this) (call_request name args) w =
  try_catch
    (result <- executeTool remote (Some this) (VStr name) args ;;
     ret (tool_result (JSON_stringify result)))
    (fun error => ret (tool_error ("Error: " +:+ e_message error))) w.
Proof.
  intros Hargs. unfold CallToolRequest_handler, call_request, try_catch, bind, get.
  simpl. by rewrite Hargs.
Qed.

Lemma executeTool_terminates zendeskClient name args :
  terminates (executeTool remote zendeskClient name args).
Proof.
  unfold executeTool. destruct zendeskClient; [|js_terminates].
  unfold searchTickets, getTicket, createTicket, updateTicket, addComment,
    getTicketComments, searchUsers, getUser, searchOrganizations, getOrganization.
  js_terminates.
Qed.

(** The handler of [server.ts] always returns, and returns a tool result. *)
Lemma server_handler_answers zendeskClient request w :
  exists r,
    (CallToolRequest_handler remote JSON_stringify zendeskClient request w).2 = Returned r
    /\ is_tool_result r.
Proof.
  unfold CallToolRequest_handler. destruct zendeskClient as [client|].
  2:{ eexists. split; [done|]. right. by eexists. }
  unfold try_catch, bind, get.
  destruct (nullish request); cbn -[executeTool];
    [eexists; split; [done|]; right; by eexists|].
  destruct (nullish (prop request "params")); cbn -[executeTool];
    [eexists; split; [done|]; right; by eexists|].
  destruct (truthy _); cbn -[executeTool];
    [|eexists; split; [done|]; right; by eexists].
  pose proof (executeTool_terminates (Some client)
                (prop (prop request "params") "name")
                (prop (prop request "params") "arguments") w) as Hends.
  destruct (executeTool _ _ _ _ w) as [w' [a|e|]]; cbn -[executeTool] in *.
  - eexists. split; [done|]. left. by eexists.
  - eexists. split; [done|]. right. by eexists.
  - done.
Qed.

Lemma server_handler_cases this name args w :
  (forall request,
      CallToolRequest_handler remote JSON_stringify None request w =
      (w, Returned (tool_error CREDENTIALS_MESSAGE)))
  /\ (truthy args = false ->
      CallToolRequest_handler remote JSON_stringify (Some this) (call_request name args) w =
      (w, Returned (tool_error "Error: No arguments provided")))
  /\ (truthy args = true -> name ∉ TOOLS ->
      CallToolRequest_handler remote JSON_stringify (Some this) (call_request name args) w =
      (w, Returned (tool_error ("Error: Unknown tool: " +:+ name)))
      /\ Str.includes name ("Error: Unknown tool: " +:+ name) = true)
  /\ (truthy args = true ->
      forall w' e,
        executeTool remote (Some this) (VStr name) args w = (w', Thrown e) ->
        CallToolRequest_handler remote JSON_stringify (Some this) (call_request name args) w =
        (w', Returned (tool_error ("Error: " +:+ e_message e)))).
Proof.
  split; [done|]. split; [|split].
  - intros Hargs. unfold CallToolRequest_handler, call_request, try_catch, bind, get.
    simpl. by rewrite Hargs.
  - intros Hargs Hname. split.
    2:{ apply StrFacts.includes_app. rewrite <- (StrFacts.append_nil_r name) at 2.
        apply StrFacts.includes_prefix. }
    rewrite server_handler_with_arguments by done.
    assert (forall tool, tool ∈ TOOLS -> String.eqb name tool = false) as Hne.
    { intros tool Htool. apply String.eqb_neq. by intros ->. }
    unfold executeTool, is_string.
    rewrite !Hne by (apply (bool_decide_unpack _); reflexivity).
    done.
  - intros Hargs w' e Hthrown. rewrite server_handler_with_arguments by done.
    rewrite (try_catch_thrown _ _ w w' e); [done|].
    by rewrite (bind_thrown _ _ _ _ _ Hthrown).
Qed.

End ServerDispatcher.

(** C5, as amended.  Both dispatchers never let an exception out and return
    nothing but tool results; the dispatcher of [server.ts] returns on every
    request and that of [index.ts] on every request for a tool other than the
    two paginating ones.  Without credentials every request gets the fixed
    credentials message, error-flagged in [server.ts] only.  With
    credentials: a request without arguments gets the error-flagged
    "No arguments provided"; a request with arguments for a tool that is not
    registered gets an error-flagged message that contains the name; and an
    exception thrown by the tool is caught and returned as an error-flagged
    result that carries its message. *)
Theorem dispatchers_answer_every_request remote JSON_stringify StringToNumber :
  (forall zendeskClient fuel request w,
      (forall e,
          (Index.CallToolRequest_handler remote JSON_stringify StringToNumber
             zendeskClient fuel request w).2 <> Thrown e)
      /\ (forall r,
            (Index.CallToolRequest_handler remote JSON_stringify StringToNumber
               zendeskClient fuel request w).2 = Returned r ->
            is_tool_result r))
  /\ (forall this fuel name args w,
        let run := Index.CallToolRequest_handler remote JSON_stringify StringToNumber in
        (forall request,
            exists r,
              run None fuel request w = (w, Returned r)
              /\ prop r "content" = text_content (VStr Index.CREDENTIALS_MESSAGE))
        /\ (truthy args = false ->
            run (Some this) fuel (call_request name args) w =
            (w, Returned (tool_error "Error: No arguments provided")))
        /\ (truthy args = true -> name ∉ Index.TOOLS ->
            run (Some this) fuel (call_request name args) w =
            (w, Returned (tool_error ("Unknown tool: " +:+ name)))
            /\ Str.includes name ("Unknown tool: " +:+ name) = true)
        /\ (truthy args = true ->
            forall w' e,
              Index.call_tool remote JSON_stringify StringToNumber this fuel
                (VStr name) args w = (w', Thrown e) ->
              run (Some this) fuel (call_request name args) w =
              (w', Returned (tool_error ("Error: " +:+ e_message e))))
        /\ (name <> "get_ticket" -> name <> "get_ticket_comments" ->
            (run (Some this) fuel (call_request name args) w).2 <> Diverged))
  /\ (forall zendeskClient request w,
        exists r,
          (Server.CallToolRequest_handler remote JSON_stringify zendeskClient request w).2
          = Returned r
          /\ is_tool_result r)
  /\ (forall this name args w,
        let run := Server.CallToolRequest_handler remote JSON_stringify in
        (forall request,
            run None request w = (w, Returned (tool_error Server.CREDENTIALS_MESSAGE)))
        /\ (truthy args = false ->
            run (Some this) (call_request name args) w =
            (w, Returned (tool_error "Error: No arguments provided")))
        /\ (truthy args = true -> name ∉ Server.TOOLS ->
            run (Some this) (call_request name args) w =
            (w, Returned (tool_error ("Error: Unknown tool: " +:+ name)))
            /\ Str.includes name ("Error: Unknown tool: " +:+ name) = true)
        /\ (truthy args = true ->
            forall w' e,
              Server.executeTool remote (Some this) (VStr name) args w = (w', Thrown e) ->
              run (Some this) (call_request name args) w =
              (w', Returned (tool_error ("Error: " +:+ e_message e))))).
Proof.
  split; [|split; [|split]].
  - intros. apply index_handler_answers.
  - intros this fuel name args w run.
    destruct (index_handler_cases remote JSON_stringify StringToNumber this fuel name args w)
      as (Hnone & Hrest).
    split; [|exact Hrest]. intros request. eexists. split; [apply Hnone|done].
  - intros. apply server_handler_answers.
  - intros. apply server_handler_cases.
Qed.

(** C5, as amended, on the sample helpdesk: an unregistered tool, and a
    failure of the remote inside a registered one. *)
Lemma dispatchers_answer_every_request_witness :
  Index.CallToolRequest_handler Examples.helpdesk Examples.stringify Examples.to_number
    (Some Examples.acme) 0 (call_request "delete_ticket" (VObj [("ticket_id", VNum 7)])) World0
  = (World0, Returned (tool_error "Unknown tool: delete_ticket"))
  /\ (Server.CallToolRequest_handler Examples.helpdesk Examples.stringify
        (Some {| Server.subdomain := "acme" |})
        (call_request "get_user" (VObj [("user_id", VNum 3)])) World0).2
     = Returned (tool_error "Error: Request failed with status code 404").
Proof.
  destruct (dispatchers_answer_every_request Examples.helpdesk Examples.stringify
              Examples.to_number) as (_ & Hindex & _ & Hserver).
  split.
  - destruct (Hindex Examples.acme 0%nat "delete_ticket" (VObj [("ticket_id", VNum 7)]) World0)
      as (_ & _ & Hunknown & _).
    apply Hunknown; [reflexivity|].
    apply (bool_decide_unpack _). reflexivity.
  - destruct (Hserver {| Server.subdomain := "acme" |} "get_user"
                (VObj [("user_id", VNum 3)]) World0) as (_ & _ & _ & Hcaught).
    rewrite (Hcaught eq_refl
               (sent World0
                  [{| rq_method := GET; rq_url := "/users/3.json";
                      rq_data := VUndefined; rq_config := VUndefined |}])
               Examples.not_found); reflexivity.
Defined.

(** C5 as stated fails: for an unregistered tool called without arguments
    the message does not contain the name, and without credentials the
    dispatcher of [index.ts] answers with a result that is not
    error-flagged. *)
Lemma unknown_tool_without_arguments :
  Index.CallToolRequest_handler Examples.helpdesk Examples.stringify Examples.to_number
    (Some Examples.acme) 0 (call_request "delete_ticket" VUndefined) World0
  = (World0, Returned (tool_error "Error: No arguments provided"))
  /\ Str.includes "delete_ticket" "Error: No arguments provided" = false
  /\ Index.CallToolRequest_handler Examples.helpdesk Examples.stringify Examples.to_number
       None 0 (call_request "delete_ticket" (VObj [])) World0
     = (World0, Returned (tool_result (VStr Index.CREDENTIALS_MESSAGE)))
  /\ prop (tool_result (VStr Index.CREDENTIALS_MESSAGE)) "isError" = VUndefined
  /\ Str.includes "delete_ticket" Index.CREDENTIALS_MESSAGE = false.
Proof. repeat split; reflexivity. Qed.

(** ** Enrichment: [searchArticles] *)

Section EnrichmentFacts.

Variable remote : Remote.
Variable this : Index.ZendeskClient.

Import Index.

Lemma convertToCustomUrl_world url w :
  (exists v, convertToCustomUrl this url w = (w, Returned v))
  \/ (exists e, convertToCustomUrl this url w = (w, Thrown e)).
Proof.
  unfold convertToCustomUrl. destruct (negb _); [left; by eexists|].
  destruct url; (left; by eexists) || (right; by eexists).
Qed.

(** The [catch] block of the callback, on a hit that is not [null]. *)
Lemma details_catch article e w :
  nullish article = false ->
  (id <- get article "id" ;;
   console_error [VStr ("Failed to fetch article " +:+ ToString id +:+ ":");
                  VStr (e_message e)] ;;;
   ret VNull) w =
  ({| requests := requests w;
      console := console w
        ++ [[VStr ("Failed to fetch article " +:+ ToString (prop article "id") +:+ ":");
             VStr (e_message e)]] |},
   Returned VNull).
Proof.
  intros Harticle. by rewrite (bind_returned _ _ _ _ _ (get_defined _ _ _ Harticle)).
Qed.

(** The callback on a hit that is not [null]: it issues the detail request,
    does not throw, and returns the absent marker or a record of the hit. *)
Lemma details_of_hit locale article w :
  nullish article = false ->
  exists w' v,
    article_with_details remote this locale article w = (w', Returned v)
    /\ requests w' = requests w ++ [detail_request locale article]
    /\ enriched article v.
Proof.
  intros Harticle. unfold article_with_details, try_catch.
  rewrite (bind_returned _ _ _ _ _ (get_defined _ _ _ Harticle)).
  unfold axios_get, bind at 1, axios. fold (detail_request locale article).
  destruct (remote (requests w) (detail_request locale article)) as [e|data].
  { rewrite details_catch by done. eexists _, _. split; [done|]. split; [done|by left]. }
  unfold bind at 1, get at 1.
  destruct (nullish data).
  { cbn [throw]. rewrite details_catch by done.
    eexists _, _. split; [done|]. split; [done|by left]. }
  cbn [ret]. unfold bind at 1, get at 1.
  destruct (nullish (prop data "article")).
  { cbn [throw]. rewrite details_catch by done.
    eexists _, _. split; [done|]. split; [done|by left]. }
  cbn [ret].
  destruct (is_true (prop (prop data "article") "draft")).
  { eexists _, _. split; [done|]. split; [done|by left]. }
  unfold bind at 1. fold (sent w [detail_request locale article]).
  destruct (convertToCustomUrl_world
              (or_else (prop article "html_url") (prop (prop data "article") "html_url"))
              (sent w [detail_request locale article])) as [[v ->]|[e ->]].
  - eexists _, _. split; [done|]. split; [done|]. right. by eexists _, _.
  - rewrite details_catch by done.
    eexists _, _. split; [done|]. split; [done|by left].
Qed.

(** A failed detail request and a draft both give the absent marker. *)
Lemma details_dropped locale article w :
  nullish article = false ->
  (forall e,
      remote (requests w) (detail_request locale article) = inl e ->
      (article_with_details remote this locale article w).2 = Returned VNull)
  /\ (forall data,
        remote (requests w) (detail_request locale article) = inr data ->
        nullish data = false ->
        nullish (prop data "article") = false ->
        prop (prop data "article") "draft" = VBool true ->
        (article_with_details remote this locale article w).2 = Returned VNull).
Proof.
  intros Harticle. split.
  - intros e Hr. unfold article_with_details, try_catch.
    rewrite (bind_returned _ _ _ _ _ (get_defined _ _ _ Harticle)).
    unfold axios_get. fold (detail_request locale article).
    rewrite (bind_thrown _ _ _ _ _ (axios_rejected _ _ _ _ Hr)).
    by rewrite details_catch.
  - intros data Hr Hdata Harticle' Hdraft. unfold article_with_details, try_catch.
    rewrite (bind_returned _ _ _ _ _ (get_defined _ _ _ Harticle)).
    unfold axios_get. fold (detail_request locale article).
    rewrite (bind_returned _ _ _ _ _ (axios_answered _ _ _ _ Hr)).
    rewrite (bind_returned _ _ _ _ _ (get_defined _ _ _ Hdata)).
    rewrite (bind_returned _ _ _ _ _ (get_defined _ _ _ Harticle')).
    by rewrite Hdraft.
Qed.

(** The callback on a hit whose detail the remote answers with a public
    article: it returns the record of the hit. *)
Lemma details_published locale article detail w :
  nullish article = false ->
  remote (requests w) (detail_request locale article) = inr detail ->
  public_detail this article detail ->
  exists publicUrl,
    article_with_details remote this locale article w =
    (sent w [detail_request locale article],
     Returned (article_record article (prop detail "article") publicUrl)).
Proof.
  intros Harticle Hr (Hdetail & Hdata & Hdraft & Hurl).
  unfold article_with_details, try_catch.
  rewrite (bind_returned _ _ _ _ _ (get_defined _ _ _ Harticle)).
  unfold axios_get. fold (detail_request locale article).
  rewrite (bind_returned _ _ _ _ _ (axios_answered _ _ _ _ Hr)).
  rewrite (bind_returned _ _ _ _ _ (get_defined _ _ _ Hdetail)).
  rewrite (bind_returned _ _ _ _ _ (get_defined _ _ _ Hdata)).
  rewrite Hdraft. unfold convertToCustomUrl.
  destruct Hurl as [Hnone|Hstring].
  - rewrite Hnone. by eexists.
  - destruct (negb (truthy (helpCenterUrl this))); [by eexists|].
    destruct (or_else _ _); try done. by eexists.
Qed.

(** The callback on [null] or [undefined]: its [catch] block throws. *)
Lemma details_of_nothing locale article w :
  nullish article = true ->
  exists e, article_with_details remote this locale article w = (w, Thrown e).
Proof.
  intros Harticle. unfold article_with_details, try_catch, bind, get.
  rewrite Harticle. by eexists.
Qed.

(** The batch: one detail request for every hit that is not [null], in the
    order of the hits; the batch throws only on a hit that is [null] or
    [undefined]. *)
Lemma batch_runs locale articles :
  forall w,
  exists w' o,
    map_async (article_with_details remote this locale) articles w = (w', o)
    /\ requests w' =
       requests w ++ map (detail_request locale)
                       (filter (fun article => negb (nullish article)) articles)
    /\ ((exists articlesWithDetails,
           o = Returned articlesWithDetails
           /\ Forall2
                (fun article v =>
                   enriched article v
                   /\ exists wi wi',
                       article_with_details remote this locale article wi
                       = (wi', Returned v))
                articles articlesWithDetails)
        \/ (exists e, o = Thrown e /\ Exists (fun article => nullish article = true) articles)).
Proof.
  induction articles as [|article articles IH]; intros w.
  - exists w, (Returned []). split; [done|]. split; [by rewrite app_nil_r|].
    left. exists []. by split.
  - simpl map_async. rewrite filter_cons. destruct (nullish article) eqn:Harticle.
    + destruct (details_of_nothing locale article w Harticle) as [e ->].
      destruct (IH w) as (w' & o & -> & Hrqs & _). simpl.
      exists w', (Thrown e). split; [done|]. split; [exact Hrqs|].
      right. exists e. split; [done|]. by apply Exists_cons_hd.
    + destruct (details_of_hit locale article w Harticle) as (w1 & v & Hv & Hrq & Hen).
      rewrite Hv.
      destruct (IH w1) as (w' & o & -> & Hrqs & Hcases). simpl.
      exists w'. destruct Hcases as [(outs & -> & Hall)|(e & -> & Hex)].
      * exists (Returned (v :: outs)).
        split; [done|]. split; [by rewrite Hrqs, Hrq, <- app_assoc|].
        left. exists (v :: outs). split; [done|].
        constructor; [|done]. split; [done|]. by exists w, w1.
      * exists (Thrown e).
        split; [done|]. split; [by rewrite Hrqs, Hrq, <- app_assoc|].
        right. exists e. split; [done|]. by apply Exists_cons_tl.
Qed.

Lemma survivors_cons article v articles outs :
  survivors (article :: articles) (v :: outs) =
  if is_null v then survivors articles outs
  else (article, v) :: survivors articles outs.
Proof.
  unfold survivors. simpl zip. rewrite filter_cons. simpl.
  by destruct (is_null v).
Qed.

Lemma survivors_records articles outs :
  Forall2 enriched articles outs ->
  (survivors articles outs).*1 `sublist_of` articles
  /\ (survivors articles outs).*2 = filter (fun v => negb (is_null v)) outs
  /\ Forall (fun ar : Val * Val =>
               exists articleData publicUrl,
                 ar.2 = article_record ar.1 articleData publicUrl)
            (survivors articles outs).
Proof.
  induction 1 as [|article v articles outs Hv _ (IH1 & IH2 & IH3)]; [done|].
  rewrite survivors_cons, filter_cons.
  destruct Hv as [->|(articleData & publicUrl & ->)]; simpl.
  - split; [by apply sublist_cons|done].
  - split; [by apply sublist_skip|].
    split; [by f_equal|]. constructor; [by eexists _, _|done].
Qed.

Lemma is_zero_length (xs : list Val) :
  is_zero (prop (VArr xs) "length") = match xs with [] => true | _ => false end.
Proof. by destruct xs. Qed.

Section Search.

Variables (query locale : Val) (w : World) (data : Val) (candidates : list Val).

Let locale' := default locale (VStr "ja").
Let w1 := sent w [articles_search_request query locale'].

Hypothesis Hsearch :
  remote (requests w) (articles_search_request query locale') = inr data.
Hypothesis Hdata : nullish data = false.
Hypothesis Hresults : or_else (prop data "results") (VArr []) = VArr candidates.

(** [searchArticles] up to the test for an empty result. *)
Lemma searchArticles_start :
  searchArticles remote this query locale w =
  try_catch
    (if is_zero (prop (VArr candidates) "length") then ret (empty_articles NO_RESULTS_MESSAGE)
     else
       articlesWithDetails <- slice10_map_all (VArr candidates)
                                (article_with_details remote this locale') ;;
       let publicArticles := filter (fun article => negb (is_null article)) articlesWithDetails in
       if (length publicArticles =? 0)%nat then
         ret (empty_articles NO_PUBLIC_ARTICLES_MESSAGE)
       else
         ret (VObj [("results", VArr (take 5 publicArticles));
                    ("count", VNum (Z.of_nat (length publicArticles)));
                    ("page", or_else (prop data "page") (VNum 1));
                    ("page_count", or_else (prop data "page_count") (VNum 1))]))
    (fun error =>
       let errorMessage :=
         or_else (or_else (opt_prop (opt_prop (e_response error) "data") "error")
                          (VStr (e_message error)))
                 (VStr "不明なエラー") in
       let errorStatus := opt_prop (e_response error) "status" in
       console_error [VStr "Help Center search error:";
                      VObj [("message", errorMessage);
                            ("status", errorStatus);
                            ("query", query);
                            ("locale", locale')]] ;;;
       ret (VObj [("results", VArr []);
                  ("count", VNum 0);
                  ("page", VNum 1);
                  ("page_count", VNum 0);
                  ("error",
                   VStr ("ヘルプセンター検索エラー: " +:+ ToString errorMessage
                         +:+ " (ステータス: " +:+ ToString errorStatus +:+ ")"))])) w1.
Proof.
  unfold searchArticles. fold locale'. unfold try_catch, axios_get.
  fold (articles_search_request query locale').
  rewrite (bind_returned _ _ _ _ _ (axios_answered _ _ _ _ Hsearch)).
  rewrite (bind_returned _ _ _ _ _ (get_defined _ _ _ Hdata)).
  by rewrite Hresults.
Qed.

(** No hits. *)
Lemma searchArticles_no_hits :
  candidates = [] ->
  searchArticles remote this query locale w =
  (w1, Returned (empty_articles NO_RESULTS_MESSAGE)).
Proof. intros Hnone. by rewrite searchArticles_start, Hnone. Qed.

Lemma hits_not_zero :
  candidates <> [] -> is_zero (prop (VArr candidates) "length") = false.
Proof. rewrite is_zero_length. clear. by destruct candidates. Qed.

(** Hits, and a batch that returns. *)
Lemma searchArticles_batch w' articlesWithDetails :
  candidates <> [] ->
  map_async (article_with_details remote this locale') (take 10 candidates) w1
  = (w', Returned articlesWithDetails) ->
  searchArticles remote this query locale w =
  (w',
   Returned
     (let publicArticles := filter (fun article => negb (is_null article)) articlesWithDetails in
      if (length publicArticles =? 0)%nat then empty_articles NO_PUBLIC_ARTICLES_MESSAGE
      else VObj [("results", VArr (take 5 publicArticles));
                 ("count", VNum (Z.of_nat (length publicArticles)));
                 ("page", or_else (prop data "page") (VNum 1));
                 ("page_count", or_else (prop data "page_count") (VNum 1))])).
Proof.
  intros Hne Hbatch. rewrite searchArticles_start, hits_not_zero by done.
  unfold try_catch, slice10_map_all.
  rewrite (bind_returned _ _ _ _ _ Hbatch). cbv zeta.
  by destruct (length _ =? 0)%nat.
Qed.

(** Hits, and a batch that throws: the [catch] block returns the error
    payload, which has no results. *)
Lemma searchArticles_aborted w' e :
  candidates <> [] ->
  map_async (article_with_details remote this locale') (take 10 candidates) w1
  = (w', Thrown e) ->
  exists w'' payload,
    searchArticles remote this query locale w = (w'', Returned payload)
    /\ requests w'' = requests w'
    /\ prop payload "results" = VArr []
    /\ prop payload "count" = VNum 0.
Proof.
  intros Hne Hbatch. rewrite searchArticles_start, hits_not_zero by done.
  unfold try_catch at 1, slice10_map_all.
  rewrite (bind_thrown _ _ _ _ _ Hbatch).
  eexists _, _. by split.
Qed.

(** C2.  In every enrichment batch at most 10 detail requests are issued,
    one for each hit among the first ten that is not [null] and none for a
    later hit, in the order of the hits; the returned [results] are the
    first five records of the surviving hits, so at most min(5, survivors)
    and at most min(5, hits); and the survivors keep the relative order of
    the hits. *)
Theorem enrichment_is_bounded_and_ordered :
  let fetched := filter (fun article => negb (nullish article)) (take 10 candidates) in
  exists w' payload (kept : list (Val * Val)),
    searchArticles remote this query locale w = (w', Returned payload)
    /\ requests w' =
       requests w ++ articles_search_request query locale'
                     :: map (detail_request locale') fetched
    /\ fetched `sublist_of` take 10 candidates
    /\ (length fetched <= 10)%nat
    /\ kept.*1 `sublist_of` take 10 candidates
    /\ Forall (fun ar : Val * Val =>
                 exists articleData publicUrl,
                   ar.2 = article_record ar.1 articleData publicUrl) kept
    /\ prop payload "results" = VArr (take 5 kept.*2)
    /\ prop payload "count" = VNum (Z.of_nat (length kept))
    /\ (length (take 5 kept.*2) <= Nat.min 5 (length kept))%nat
    /\ (length (take 5 kept.*2) <= Nat.min 5 (length candidates))%nat
    /\ (Forall (fun article => nullish article = false) (take 10 candidates) ->
        fetched = take 10 candidates
        /\ exists articlesWithDetails,
            map_async (article_with_details remote this locale') (take 10 candidates) w1
            = (w', Returned articlesWithDetails)
            /\ kept = survivors (take 10 candidates) articlesWithDetails).
Proof.
  intros fetched.
  assert (fetched `sublist_of` take 10 candidates) as Hsublist by apply sublist_filter.
  assert (length fetched <= 10)%nat as Hten.
  { apply sublist_length in Hsublist. rewrite length_take in Hsublist. lia. }
  destruct (decide (candidates = [])) as [Hnone|Hsome].
  { exists w1, (empty_articles NO_RESULTS_MESSAGE), [].
    rewrite searchArticles_no_hits by done.
    split; [done|]. split; [unfold fetched; by rewrite Hnone|].
    split; [done|]. split; [done|]. split; [apply sublist_nil_l|].
    split; [done|]. split; [done|]. split; [done|].
    split; [simpl; lia|]. split; [simpl; lia|].
    intros _. unfold fetched. rewrite Hnone. split; [done|]. by exists []. }
  destruct (batch_runs locale' (take 10 candidates) w1)
    as (w' & o & Hrun & Hrqs & Hcases).
  assert (requests w' =
          requests w ++ articles_search_request query locale'
                        :: map (detail_request locale') fetched) as Hlog.
  { rewrite Hrqs. unfold w1, sent. simpl. by rewrite <- app_assoc. }
  destruct Hcases as [(outs & -> & Hall)|(e & -> & Hex)].
  - assert (Forall2 enriched (take 10 candidates) outs) as Hen.
    { eapply Forall2_impl; [exact Hall|]. by intros a v [? _]. }
    destruct (survivors_records _ _ Hen) as (Hsub & Hsnd & Hrec).
    eexists w', _, (survivors (take 10 candidates) outs).
    rewrite (searchArticles_batch w' outs Hsome Hrun).
    split; [done|]. split; [done|]. split; [done|]. split; [done|].
    split; [done|]. split; [done|].
    assert (length (survivors (take 10 candidates) outs)
            = length (filter (fun v => negb (is_null v)) outs)) as Hlen.
    { by rewrite <- Hsnd, length_fmap. }
    rewrite Hsnd, Hlen. cbv zeta.
    split; [|split].
    { destruct (length _ =? 0)%nat eqn:Hz; [|done].
      apply Nat.eqb_eq, length_zero_iff_nil in Hz. by rewrite Hz. }
    { destruct (length _ =? 0)%nat eqn:Hz; [|done].
      apply Nat.eqb_eq in Hz. by rewrite Hz. }
    split; [rewrite length_take; lia|].
    split.
    { apply sublist_length in Hsub. rewrite length_fmap, Hlen, length_take in Hsub.
      rewrite length_take. lia. }
    intros Hobjects. split; [|by exists outs].
    unfold fetched. clear -Hobjects.
    induction (take 10 candidates) as [|a l IH]; [done|].
    apply Forall_cons in Hobjects as [Ha Hl].
    rewrite filter_cons, Ha. simpl. by rewrite IH.
  - destruct (searchArticles_aborted w' e Hsome Hrun)
      as (w'' & payload & -> & Hrq' & Hres & Hcount).
    exists w'', payload, [].
    split; [done|]. split; [by rewrite Hrq'|]. split; [done|]. split; [done|].
    split; [apply sublist_nil_l|]. split; [done|]. split; [done|]. split; [done|].
    split; [simpl; lia|]. split; [simpl; lia|].
    intros Hall. exfalso. apply Exists_exists in Hex as (article & Hin & Hnull).
    rewrite Forall_forall in Hall. specialize (Hall article Hin). congruence.
Qed.

(** A hit that is [null] or [undefined] among the first ten: the batch is
    rejected after the detail requests of the other hits, and the [catch]
    block of [searchArticles] returns the error payload. *)
Lemma searchArticles_null_hit :
  Exists (fun article => nullish article = true) (take 10 candidates) ->
  exists w' message,
    searchArticles remote this query locale w
    = (w', Returned (search_error_payload message))
    /\ requests w' =
       requests w ++ articles_search_request query locale'
         :: map (detail_request locale')
              (filter (fun article => negb (nullish article)) (take 10 candidates)).
Proof.
  intros Hnull.
  assert (candidates <> []) as Hsome.
  { intros Hnone. rewrite Hnone in Hnull. by apply Exists_nil in Hnull. }
  destruct (batch_runs locale' (take 10 candidates) w1)
    as (w' & o & Hrun & Hrqs & Hcases).
  destruct Hcases as [(outs & -> & Hall)|(e & -> & _)].
  { exfalso. apply Exists_exists in Hnull as (article & Hin & Harticle).
    apply list_elem_of_lookup in Hin as [i Hi].
    destruct (Forall2_lookup_l _ _ _ _ _ Hall Hi) as (v & _ & _ & wi & wi' & Hv).
    destruct (details_of_nothing locale' article wi Harticle) as [e He]. congruence. }
  rewrite searchArticles_start, hits_not_zero by done.
  unfold try_catch at 1, slice10_map_all.
  rewrite (bind_thrown _ _ _ _ _ Hrun).
  eexists _, _. split; [reflexivity|].
  simpl. rewrite Hrqs. unfold w1. simpl. by rewrite <- app_assoc.
Qed.

(** Without such a hit the batch tolerates every failure: when the first
    ten hits are objects and the remote answers the detail request of one of
    them with a public article, the operation returns the success payload,
    with results and without an [error], whatever becomes of the other
    hits. *)
Lemma batch_of_objects_succeeds article detail :
  Forall (fun article => nullish article = false) (take 10 candidates) ->
  article ∈ take 10 candidates ->
  (forall hist, remote hist (detail_request locale' article) = inr detail) ->
  public_detail this article detail ->
  exists w' payload results count,
    searchArticles remote this query locale w = (w', Returned payload)
    /\ prop payload "error" = VUndefined
    /\ prop payload "results" = VArr results
    /\ results <> []
    /\ (VNull ∉ results)
    /\ prop payload "count" = VNum count
    /\ 0 < count.
Proof.
  intros Hobjects Hin Hremote Hpublic.
  assert (candidates <> []) as Hsome.
  { intros Hnone. rewrite Hnone in Hin. by apply elem_of_nil in Hin. }
  destruct (batch_runs locale' (take 10 candidates) w1)
    as (w' & o & Hrun & Hrqs & Hcases).
  destruct Hcases as [(outs & -> & Hall)|(e & -> & Hex)].
  2:{ exfalso. apply Exists_exists in Hex as (hit & Hhit & Hnull).
      rewrite Forall_forall in Hobjects. specialize (Hobjects hit Hhit). congruence. }
  pose proof Hin as Hin'. apply list_elem_of_lookup in Hin' as [i Hi].
  destruct (Forall2_lookup_l _ _ _ _ _ Hall Hi) as (v & Hv & _ & wi & wi' & Hcallback).
  rewrite Forall_forall in Hobjects.
  destruct (details_published locale' article detail wi (Hobjects article Hin)
              (Hremote (requests wi)) Hpublic) as [publicUrl Hrecord].
  assert (v = article_record article (prop detail "article") publicUrl) as Hrec
    by congruence.
  set (publicArticles := filter (fun v => negb (is_null v)) outs).
  assert (v ∈ publicArticles) as Hkept.
  { apply list_elem_of_filter. split; [by rewrite Hrec|].
    by apply (list_elem_of_lookup_2 _ i). }
  assert (VNull ∉ take 5 publicArticles) as Hnonull.
  { intros Hnull. apply (sublist_subseteq _ _ (sublist_take _ _)) in Hnull.
    by apply list_elem_of_filter in Hnull as [Hnull _]. }
  rewrite (searchArticles_batch w' outs Hsome Hrun). cbv zeta. fold publicArticles.
  destruct publicArticles as [|v0 vs] eqn:Hf; [by apply elem_of_nil in Hkept|].
  eexists _, _, _, _. split; [reflexivity|].
  split; [done|]. split; [done|]. split; [done|]. split; [exact Hnonull|].
  split; [done|]. simpl length. lia.
Qed.

(** C3.  The code misses the claim on a hit that is [null] or [undefined].
    A hit whose detail the remote answers with a public article gives its
    record.  But when one of the first ten hits is [null] or [undefined],
    the [catch] block of its callback throws in its turn, the batch is
    rejected, and [searchArticles] returns the error payload, without any
    result, after the detail requests of all the other hits among the first
    ten: the hits that gave a record are lost with the rest. *)
Theorem null_hit_aborts_the_batch :
  (forall article detail wi,
      nullish article = false ->
      remote (requests wi) (detail_request locale' article) = inr detail ->
      public_detail this article detail ->
      exists publicUrl,
        article_with_details remote this locale' article wi =
        (sent wi [detail_request locale' article],
         Returned (article_record article (prop detail "article") publicUrl)))
  /\ (Exists (fun article => nullish article = true) (take 10 candidates) ->
      exists w' message,
        searchArticles remote this query locale w
        = (w', Returned (search_error_payload message))
        /\ prop (search_error_payload message) "results" = VArr []
        /\ prop (search_error_payload message) "count" = VNum 0
        /\ prop (search_error_payload message) "error" = VStr message
        /\ requests w' =
           requests w ++ articles_search_request query locale'
             :: map (detail_request locale')
                  (filter (fun article => negb (nullish article)) (take 10 candidates))).
Proof.
  split.
  - intros article detail wi. apply details_published.
  - intros Hnull.
    destruct (searchArticles_null_hit Hnull) as (w' & message & Hrun & Hrqs).
    by exists w', message.
Qed.

(** C9.  The code misses the claim on a hit that is [null] or [undefined].
    With no hits the operation returns the empty payload with the message
    for no results; with hits that are objects and are all dropped it
    returns the empty payload with the message for no public articles; the
    two messages differ, and the empty payload has [results: []],
    [count: 0], a [message] and no [error].  But when one of the first ten
    hits is [null] or [undefined], so that candidates existed, the
    operation returns the payload of a failed search: [results: []] and
    [count: 0] with an [error] and without a [message]. *)
Theorem empty_enrichment_outcomes :
  (candidates = [] ->
   searchArticles remote this query locale w =
   (w1, Returned (empty_articles NO_RESULTS_MESSAGE)))
  /\ (candidates <> [] ->
      Forall (fun article => nullish article = false) (take 10 candidates) ->
      exists w' articlesWithDetails,
        map_async (article_with_details remote this locale') (take 10 candidates) w1
        = (w', Returned articlesWithDetails)
        /\ (filter (fun v => negb (is_null v)) articlesWithDetails = [] ->
            searchArticles remote this query locale w =
            (w', Returned (empty_articles NO_PUBLIC_ARTICLES_MESSAGE))))
  /\ (Exists (fun article => nullish article = true) (take 10 candidates) ->
      exists w' payload message,
        searchArticles remote this query locale w = (w', Returned payload)
        /\ prop payload "results" = VArr []
        /\ prop payload "count" = VNum 0
        /\ prop payload "error" = VStr message
        /\ prop payload "message" = VUndefined)
  /\ NO_RESULTS_MESSAGE <> NO_PUBLIC_ARTICLES_MESSAGE
  /\ (forall message,
        prop (empty_articles message) "results" = VArr []
        /\ prop (empty_articles message) "count" = VNum 0
        /\ prop (empty_articles message) "message" = VStr message
        /\ prop (empty_articles message) "error" = VUndefined).
Proof.
  split; [apply searchArticles_no_hits|]. split; [|split; [|split; [done|done]]].
  - intros Hsome Hobjects.
    destruct (batch_runs locale' (take 10 candidates) w1)
      as (w' & o & Hrun & Hrqs & Hcases).
    destruct Hcases as [(outs & -> & Hall)|(e & -> & Hex)].
    2:{ exfalso. apply Exists_exists in Hex as (article & Hin & Hnull).
        rewrite Forall_forall in Hobjects. specialize (Hobjects article Hin). congruence. }
    exists w', outs. split; [done|]. intros Hempty.
    rewrite (searchArticles_batch w' outs Hsome Hrun). cbv zeta. by rewrite Hempty.
  - intros Hnull.
    destruct (searchArticles_null_hit Hnull) as (w' & message & Hrun & _).
    by exists w', (search_error_payload message), message.
Qed.

End Search.

End EnrichmentFacts.

(** C2 on the sample helpdesk: twelve hits for "toner", ten detail requests,
    and the first five of the eight surviving hits, in their order. *)
Lemma enrichment_is_bounded_and_ordered_witness :
  exists w' payload results,
    Index.searchArticles Examples.helpdesk Examples.acme_help (VStr "toner") VUndefined World0
    = (w', Returned payload)
    /\ length (requests w') = 11%nat
    /\ prop payload "results" = VArr results
    /\ map (fun record => prop record "id") results
       = [VNum 1; VNum 2; VNum 4; VNum 5; VNum 6].
Proof.
  destruct (enrichment_is_bounded_and_ordered Examples.helpdesk Examples.acme_help
              (VStr "toner") VUndefined World0
              (VObj [("results", VArr (map Examples.hit Examples.article_ids));
                     ("count", VNum 12); ("page", VNum 1); ("page_count", VNum 1)])
              (map Examples.hit Examples.article_ids) eq_refl eq_refl eq_refl)
    as (w' & payload & kept & Hrun & _).
  exists w', payload. pose proof Hrun as Heval.
  vm_compute in Heval. injection Heval as <- <-.
  eexists. split; [exact Hrun|]. by repeat split.
Defined.

(** C3 on the sample helpdesk: the search for "broken" finds [null] and
    article 1.  The detail of article 1 is requested and is public, and the
    callback gives its record; the operation returns the error payload all
    the same. *)
Lemma null_hit_aborts_the_batch_witness :
  let search := Index.articles_search_request (VStr "broken") (VStr "ja") in
  let run :=
    Index.searchArticles Examples.helpdesk Examples.acme (VStr "broken") VUndefined World0 in
  (exists publicUrl,
      Index.article_with_details Examples.helpdesk Examples.acme (VStr "ja")
        (Examples.hit 1) (sent World0 [search])
      = (sent World0 [search; Index.detail_request (VStr "ja") (Examples.hit 1)],
         Returned (Index.article_record (Examples.hit 1)
                     (prop (Examples.detail 1 false) "article") publicUrl)))
  /\ exists message,
      run.2 = Returned (search_error_payload message)
      /\ requests run.1 = [search; Index.detail_request (VStr "ja") (Examples.hit 1)].
Proof.
  intros search run.
  destruct (null_hit_aborts_the_batch Examples.helpdesk Examples.acme
              (VStr "broken") VUndefined World0
              (VObj [("results", VArr [VNull; Examples.hit 1]);
                     ("count", VNum 2); ("page", VNum 1); ("page_count", VNum 1)])
              [VNull; Examples.hit 1] eq_refl eq_refl eq_refl)
    as [Hpublic Habort].
  split.
  - destruct (Hpublic (Examples.hit 1) (Examples.detail 1 false) (sent World0 [search])
                eq_refl eq_refl) as [publicUrl Hrecord].
    { repeat split; try reflexivity. by left. }
    by exists publicUrl.
  - destruct Habort as (w' & message & Hrun & _ & _ & _ & Hrqs).
    { by apply Exists_cons_hd. }
    exists message. unfold run. rewrite Hrun. split; [done|]. exact Hrqs.
Defined.

(** C9 on the sample helpdesk: the only hit for "draft" is a draft, and the
    empty payload carries the message; a search whose only hit is [null]
    gives an [error] instead of a [message]. *)
Lemma empty_enrichment_outcomes_witness :
  (Index.searchArticles Examples.helpdesk Examples.acme (VStr "draft") VUndefined World0).2
  = Returned (Index.empty_articles Index.NO_PUBLIC_ARTICLES_MESSAGE)
  /\ exists payload message,
      (Index.searchArticles (MoreExamples.always MoreExamples.only_null) Examples.acme
         (VStr "toner") VUndefined World0).2 = Returned payload
      /\ prop payload "results" = VArr []
      /\ prop payload "count" = VNum 0
      /\ prop payload "error" = VStr message
      /\ prop payload "message" = VUndefined.
Proof.
  split.
  - destruct (empty_enrichment_outcomes Examples.helpdesk Examples.acme
                (VStr "draft") VUndefined World0
                (VObj [("results", VArr [Examples.hit 3]);
                       ("count", VNum 1); ("page", VNum 1); ("page_count", VNum 1)])
                [Examples.hit 3] eq_refl eq_refl eq_refl)
      as (_ & Hdropped & _).
    destruct (Hdropped ltac:(done) ltac:(by repeat constructor))
      as (w' & outs & Hrun & Hempty).
    assert (outs = [VNull]) as -> by (vm_compute in Hrun; congruence).
    by rewrite Hempty.
  - destruct (empty_enrichment_outcomes (MoreExamples.always MoreExamples.only_null)
                Examples.acme (VStr "toner") VUndefined World0
                MoreExamples.only_null [VNull] eq_refl eq_refl eq_refl)
      as (_ & _ & Hnull & _).
    destruct Hnull as (w' & payload & message & Hrun & Hfacts).
    { by apply Exists_cons_hd. }
    exists payload, message. by rewrite Hrun.
Defined.

(** * Further results *)

(** ** Pagination without an end, and malformed pages *)

Section PaginationEdges.

Variable remote : Remote.
Variable JSON_stringify : Val -> Val.
Variable StringToNumber : string -> option Z.
Variable this : Index.ZendeskClient.

Import Index.

(** On a remote that answers every request with a well-formed page that
    carries a further reference, the loop uses up any fuel: it issues as
    many requests as it has fuel and does not return. *)
Lemma comment_pages_endless :
  (forall hist rq,
      exists p, remote hist rq = inr (pg_data p)
                /\ well_formed_page p
                /\ truthy (cursor_of this (pg_data p)) = true) ->
  forall fuel nextPageUrl allComments w,
    truthy nextPageUrl = true ->
    exists w',
      comment_pages remote this fuel nextPageUrl allComments w = (w', Diverged)
      /\ length (requests w') = (length (requests w) + fuel)%nat.
Proof.
  intros Hendless. induction fuel as [|fuel IH]; intros url acc w Hurl.
  - exists w. rewrite comment_pages_eq, Hurl. split; [done|lia].
  - destruct (Hendless (requests w) (page_request url)) as (p & Hr & Hp & Hnext).
    rewrite (comment_pages_step remote this _ _ _ p) by done.
    destruct (IH (cursor_of this (pg_data p)) (acc ++ pg_comments p)
                (sent w [page_request url]) Hnext) as (w' & -> & Hlen).
    exists w'. split; [done|]. rewrite Hlen. simpl. rewrite length_app. simpl. lia.
Qed.

(** X1.  The pagination loop has no cap on the number of pages.  On a
    remote that answers every request with a well-formed page that carries
    a further reference, [getTicketComments] issues as many requests as it
    has fuel, for every fuel, and does not return. *)
Theorem pagination_has_no_page_cap fuel ticketId w :
  (forall hist rq,
      exists p, remote hist rq = inr (pg_data p)
                /\ well_formed_page p
                /\ truthy (cursor_of this (pg_data p)) = true) ->
  exists w',
    getTicketComments remote this fuel ticketId w = (w', Diverged)
    /\ length (requests w') = (length (requests w) + fuel)%nat.
Proof.
  intros Hendless.
  destruct (comment_pages_endless Hendless fuel (VStr (comments_url ticketId)) [] w eq_refl)
    as (w' & Hrun & Hlen).
  exists w'. split; [|done]. unfold getTicketComments.
  by rewrite (bind_diverged _ _ _ _ Hrun).
Qed.

(** One iteration on a malformed page throws, after its request. *)
Lemma comment_pages_malformed fuel nextPageUrl allComments data w :
  truthy nextPageUrl = true ->
  remote (requests w) (page_request nextPageUrl) = inr data ->
  malformed data = true ->
  exists e,
    comment_pages remote this (S fuel) nextPageUrl allComments w =
    (sent w [page_request nextPageUrl], Thrown e).
Proof.
  intros Ht Hr Hbad. rewrite comment_pages_eq, Ht.
  unfold axios_get. fold (page_request nextPageUrl).
  rewrite (bind_returned _ _ _ _ _ (axios_answered _ _ _ _ Hr)).
  unfold malformed in Hbad.
  destruct (nullish data) eqn:Hdata.
  { eexists. unfold bind, get. by rewrite Hdata. }
  rewrite (bind_returned _ _ _ _ _ (get_defined _ _ _ Hdata)).
  destruct (iterable (prop data "comments")) eqn:Hit.
  2:{ unfold bind. destruct (prop data "comments"); try done; by eexists. }
  simpl in Hbad. apply andb_true_iff in Hbad as [Hnext Hstr].
  assert (exists items, spread (prop data "comments") (sent w [page_request nextPageUrl])
                        = (sent w [page_request nextPageUrl], Returned items)) as [items Hitems].
  { destruct (prop data "comments"); try done; by eexists. }
  rewrite (bind_returned _ _ _ _ _ Hitems).
  unfold bind at 1, next_page_url, bind, get. rewrite Hdata. unfold ret.
  rewrite Hnext.
  destruct (prop data "next_page"); try done; by eexists.
Qed.

Lemma comment_pages_malformed_after pages :
  forall fuel nextPageUrl allComments data w,
    malformed_after remote this (requests w) nextPageUrl pages data ->
    (length pages < fuel)%nat ->
    exists e,
      comment_pages remote this fuel nextPageUrl allComments w =
      (sent w (failing_run_requests this nextPageUrl pages), Thrown e).
Proof.
  induction pages as [|p pages IH]; intros fuel url acc data w Hrun Hfuel.
  - destruct Hrun as (Ht & Hr & Hbad).
    destruct fuel as [|fuel]; [lia|].
    by apply (comment_pages_malformed _ _ _ data).
  - destruct Hrun as (Ht & Hr & Hp & Hrest).
    destruct fuel as [|fuel]; [simpl in Hfuel; lia|].
    rewrite (comment_pages_step remote this _ _ _ p) by done.
    destruct (IH fuel _ (acc ++ pg_comments p) data (sent w [page_request url]) Hrest)
      as [e He]; [simpl in Hfuel; lia|].
    exists e. rewrite He. by rewrite sent_sent.
Qed.

(** X2.  A page that is no object, whose [comments] cannot be spread, or whose
    [next_page] is truthy and not a string, aborts the run: after any number
    of well-formed pages [getTicketComments] throws, the comments gathered so
    far are not returned, and the tool call ends in an error-flagged result
    that carries the message of what was thrown. *)
Theorem malformed_page_aborts_pagination fuel args pages data w :
  let ticketId := prop args "ticket_id" in
  truthy args = true ->
  (length pages < fuel)%nat ->
  malformed_after remote this (requests w) (VStr (comments_url ticketId)) pages data ->
  let w' := sent w (failing_run_requests this (VStr (comments_url ticketId)) pages) in
  exists e,
    getTicketComments remote this fuel ticketId w = (w', Thrown e)
    /\ CallToolRequest_handler remote JSON_stringify StringToNumber (Some this) fuel
         (call_request "get_ticket_comments" args) w =
       (w', Returned (tool_error ("Error: " +:+ e_message e))).
Proof.
  intros ticketId Hargs Hfuel Hrun w'.
  destruct (comment_pages_malformed_after pages fuel _ [] data w Hrun Hfuel) as [e He].
  exists e.
  assert (getTicketComments remote this fuel ticketId w = (w', Thrown e)) as Hthrown.
  { unfold getTicketComments. by rewrite (bind_thrown _ _ _ _ _ He). }
  split; [exact Hthrown|].
  rewrite handler_with_arguments by done.
  rewrite (try_catch_thrown _ _ w w' e); [done|].
  unfold call_tool. simpl. by rewrite (bind_thrown _ _ _ _ _ Hthrown).
Qed.

End PaginationEdges.

(** A remote that always continues never lets [getTicketComments] return. *)
Lemma pagination_has_no_page_cap_witness :
  exists w',
    Index.getTicketComments MoreExamples.endless Examples.acme 5 (VNum 1) World0
    = (w', Diverged)
    /\ length (requests w') = 5%nat.
Proof.
  apply (pagination_has_no_page_cap MoreExamples.endless Examples.acme 5 (VNum 1) World0).
  intros hist rq.
  exists {| Index.pg_data := MoreExamples.endless_page;
            Index.pg_comments := [Examples.comment 1] |}.
  repeat split; reflexivity.
Defined.

(** An error object in the place of a page of comments. *)
Lemma malformed_page_aborts_pagination_witness :
  exists e,
    Index.getTicketComments (MoreExamples.always MoreExamples.error_object)
      Examples.acme 3 (VNum 1) World0
    = (sent World0 [Index.page_request (VStr (Index.comments_url (VNum 1)))], Thrown e)
    /\ Index.CallToolRequest_handler (MoreExamples.always MoreExamples.error_object)
         Examples.stringify Examples.to_number (Some Examples.acme) 3
         (call_request "get_ticket_comments" (VObj [("ticket_id", VNum 1)])) World0
       = (sent World0 [Index.page_request (VStr (Index.comments_url (VNum 1)))],
          Returned (tool_error ("Error: " +:+ e_message e))).
Proof.
  apply (malformed_page_aborts_pagination
           (MoreExamples.always MoreExamples.error_object)
           Examples.stringify Examples.to_number Examples.acme
           3 (VObj [("ticket_id", VNum 1)]) [] MoreExamples.error_object World0).
  - reflexivity.
  - simpl. lia.
  - repeat split; reflexivity.
Defined.

(** ** The single-call tools of [index.ts] *)

(** Steps that add nothing but a value leave the world of a computation as
    it is. *)
Lemma bind_ret_world {A B} (m : Js A) (f : A -> B) w :
  (bind m (fun x => ret (f x)) w).1 = (m w).1.
Proof. unfold bind, ret. by destruct (m w) as [w' [a|e|]]. Qed.

Lemma try_catch_ret_world {A} (m : Js A) (f : JsError -> A) w :
  (try_catch m (fun e => ret (f e)) w).1 = (m w).1.
Proof. unfold try_catch, ret. by destruct (m w) as [w' [a|e|]]. Qed.

Section TicketSearch.

Variable remote : Remote.
Variable JSON_stringify : Val -> Val.
Variable StringToNumber : string -> option Z.
Variable this : Index.ZendeskClient.

Import Index.

Lemma slice0_world v stop w : (slice0 StringToNumber v stop w).1 = w.
Proof. by destruct v. Qed.

(** [searchTickets] issues one request, whatever becomes of it. *)
Lemma searchTickets_one_request query maxResults w :
  (searchTickets remote StringToNumber query maxResults w).1 =
  sent w [tickets_search_request StringToNumber query (default maxResults (VNum 100))].
Proof.
  unfold searchTickets, try_catch, axios_get.
  fold (tickets_search_request StringToNumber query (default maxResults (VNum 100))).
  unfold bind at 1, axios.
  destruct (remote _ _) as [e|data]; simpl.
  { by destruct (is_timeout e). }
  unfold bind at 1, get. destruct (nullish data); simpl.
  { by destruct (is_timeout _). }
  unfold bind.
  match goal with |- context [slice0 _ ?v ?s ?w0] =>
    pose proof (slice0_world v s w0) as Hs; destruct (slice0 _ v s w0) as [w1 [r|e|]]
  end; simpl in *; subst w1; [done| |done].
  by destruct (is_timeout e).
Qed.

Lemma take_slice_stop {A} (xs : list A) n :
  0 <= n ->
  take (slice_stop StringToNumber (length xs) (VNum n)) xs = take (Z.to_nat n) xs.
Proof.
  intros Hn. unfold slice_stop. simpl.
  destruct (n <? 0) eqn:E; [lia|].
  destruct (Z.le_gt_cases n (Z.of_nat (length xs))).
  - by rewrite Z.min_l.
  - rewrite Z.min_r by lia. rewrite Nat2Z.id.
    by rewrite !take_ge by lia.
Qed.

(** X3.  The ticket search keeps the first [maxResults] results of the answer, in
    their order, reports their number as [count] and the total of the answer
    as [total_count], and sets [limited] exactly when fewer results are
    returned than the total; an answer without [results] counts as empty. *)
Theorem searchTickets_truncates query n data xs total w :
  0 <= n ->
  remote (requests w) (tickets_search_request StringToNumber query (VNum n)) = inr data ->
  nullish data = false ->
  or_else (prop data "results") (VArr []) = VArr xs ->
  prop data "count" = VNum total ->
  let kept := take (Z.to_nat n) xs in
  searchTickets remote StringToNumber query (VNum n) w =
  (sent w [tickets_search_request StringToNumber query (VNum n)],
   Returned (VObj [("results", VArr kept);
                   ("count", VNum (Z.of_nat (length kept)));
                   ("total_count", VNum total);
                   ("next_page", or_else (prop data "next_page") VNull);
                   ("limited", VBool (Z.of_nat (length kept) <? total))])).
Proof.
  intros Hn Hr Hdata Hxs Htotal kept.
  unfold searchTickets. cbn [default is_undefined].
  apply try_catch_returned.
  unfold axios_get. fold (tickets_search_request StringToNumber query (VNum n)).
  rewrite (bind_returned _ _ _ _ _ (axios_answered _ _ _ _ Hr)).
  rewrite (bind_returned _ _ _ _ _ (get_defined _ _ _ Hdata)).
  rewrite Hxs. cbn [slice0]. rewrite take_slice_stop by done. fold kept.
  rewrite (bind_returned _ _ _ _ (VArr kept) eq_refl).
  rewrite Htotal. cbn [prop String.eqb Ascii.eqb Bool.eqb].
  assert (or_else (VNum total) (VNum 0) = VNum total) as ->; [|done].
  unfold or_else. cbn [truthy].
  destruct (total =? 0) eqn:E; [|done].
  apply Z.eqb_eq in E. by subst total.
Qed.

(** X4.  The [search_tickets] tool issues exactly one request, whatever the
    remote does; its page size is the requested maximum, at most 100, is 100
    when no maximum or the maximum 0 is given, and has no lower bound. *)
Theorem search_tickets_page_size fuel args w :
  truthy args = true ->
  let rq := tickets_search_request StringToNumber (prop args "query")
              (or_else (prop args "max_results") (VNum 100)) in
  (CallToolRequest_handler remote JSON_stringify StringToNumber (Some this) fuel
     (call_request "search_tickets" args) w).1 = sent w [rq]
  /\ (prop args "max_results" = VUndefined -> per_page rq = VNum 100)
  /\ (forall n, prop args "max_results" = VNum n ->
                per_page rq = VNum (if n =? 0 then 100 else Z.min n 100)).
Proof.
  intros Hargs rq. split; [|split].
  - rewrite handler_with_arguments by done.
    rewrite try_catch_ret_world. unfold call_tool. cbn [is_string String.eqb Ascii.eqb Bool.eqb].
    rewrite bind_ret_world, searchTickets_one_request.
    unfold rq, or_else, default.
    destruct (truthy (prop args "max_results")) eqn:E; [|done].
    by destruct (prop args "max_results").
  - intros H. unfold rq. by rewrite H.
  - intros n H. unfold rq. rewrite H. unfold or_else. cbn [truthy].
    by destruct (n =? 0).
Qed.

End TicketSearch.

(** Three tickets of which one is asked for. *)
Lemma searchTickets_truncates_witness :
  Index.searchTickets (MoreExamples.always MoreExamples.three_tickets)
    Examples.to_number (VStr "printer") (VNum 1) World0 =
  (sent World0 [Index.tickets_search_request Examples.to_number (VStr "printer") (VNum 1)],
   Returned (VObj [("results", VArr [VObj [("id", VNum 7)]]);
                   ("count", VNum 1);
                   ("total_count", VNum 3);
                   ("next_page", VNull);
                   ("limited", VBool true)])).
Proof.
  apply (searchTickets_truncates (MoreExamples.always MoreExamples.three_tickets)
           Examples.to_number (VStr "printer") 1 MoreExamples.three_tickets
           [VObj [("id", VNum 7)]; VObj [("id", VNum 8)]; VObj [("id", VNum 9)]]
           3 World0); [lia|reflexivity..].
Defined.

(** A maximum of 250 is asked of the remote as a page of 100. *)
Lemma search_tickets_page_size_witness :
  let args := VObj [("query", VStr "printer"); ("max_results", VNum 250)] in
  let rq := Index.tickets_search_request Examples.to_number (VStr "printer") (VNum 250) in
  (Index.CallToolRequest_handler Examples.helpdesk Examples.stringify Examples.to_number
     (Some Examples.acme) 0 (call_request "search_tickets" args) World0).1
  = sent World0 [rq]
  /\ per_page rq = VNum 100.
Proof.
  intros args rq.
  destruct (search_tickets_page_size Examples.helpdesk Examples.stringify
              Examples.to_number Examples.acme 0 args World0 eq_refl)
    as (Hone & _ & Hsize).
  split; [exact Hone|]. exact (Hsize 250 eq_refl).
Defined.

(** ** Ticket updates and comments *)

Section TicketWrites.

Variable remote : Remote.
Variable JSON_stringify : Val -> Val.
Variable StringToNumber : string -> option Z.
Variable this : Index.ZendeskClient.

(** Both gateways build the update of [update_ticket] in the same way. *)
Lemma ticket_updates_same args : Server.ticket_updates args = Index.ticket_updates args.
Proof. reflexivity. Qed.

Lemma not_an_update_key k :
  k <> "status" -> k <> "priority" -> k <> "subject" -> k <> "tags" ->
  bool_decide (k ∈ UPDATE_KEYS) = false.
Proof.
  intros H1 H2 H3 H4. apply bool_decide_eq_false_2. unfold UPDATE_KEYS.
  rewrite !elem_of_cons, elem_of_nil. tauto.
Qed.

(** The update holds the truthy ones of the four listed fields of the
    arguments, and nothing else. *)
Lemma ticket_updates_fields args k :
  prop (Index.ticket_updates args) k =
  if bool_decide (k ∈ UPDATE_KEYS) && truthy (prop args k)
  then prop args k else VUndefined.
Proof.
  unfold Index.ticket_updates. cbn [prop].
  destruct (String.eqb_spec k "status") as [->|H1].
  { cbn [bool_decide]. destruct (truthy (prop args "status")) eqn:E; [done|].
    simpl. destruct (truthy (prop args "priority")), (truthy (prop args "subject")),
      (truthy (prop args "tags")); done. }
  destruct (String.eqb_spec k "priority") as [->|H2].
  { destruct (truthy (prop args "status")), (truthy (prop args "priority")) eqn:E,
      (truthy (prop args "subject")), (truthy (prop args "tags")); done. }
  destruct (String.eqb_spec k "subject") as [->|H3].
  { destruct (truthy (prop args "status")), (truthy (prop args "priority")),
      (truthy (prop args "subject")) eqn:E, (truthy (prop args "tags")); done. }
  destruct (String.eqb_spec k "tags") as [->|H4].
  { destruct (truthy (prop args "status")), (truthy (prop args "priority")),
      (truthy (prop args "subject")), (truthy (prop args "tags")) eqn:E; done. }
  rewrite not_an_update_key by done.
  apply String.eqb_neq in H1, H2, H3, H4.
  destruct (truthy (prop args "status")), (truthy (prop args "priority")),
    (truthy (prop args "subject")), (truthy (prop args "tags"));
    simpl; by rewrite ?H1, ?H2, ?H3, ?H4.
Qed.

(** X5.  [update_ticket], in both gateways, sends one [PUT] for the ticket whose
    body holds an update made of the truthy ones among [status], [priority],
    [subject] and [tags]: a field that is missing, empty, [null], [false] or
    0 is left out, and no other argument is forwarded. *)
Theorem update_ticket_forwards_listed_fields fuel args w :
  truthy args = true ->
  let rq := {| rq_method := PUT;
               rq_url := Index.ticket_url (prop args "ticket_id");
               rq_data := VObj [("ticket", Index.ticket_updates args)];
               rq_config := VUndefined |} in
  (Index.CallToolRequest_handler remote JSON_stringify StringToNumber (Some this) fuel
     (call_request "update_ticket" args) w).1 = sent w [rq]
  /\ (forall client, Server.executeTool remote (Some client) (VStr "update_ticket") args w
                     = axios remote rq w)
  /\ (forall k,
        prop (prop (rq_data rq) "ticket") k =
        if bool_decide (k ∈ UPDATE_KEYS) && truthy (prop args k)
        then prop args k else VUndefined).
Proof.
  intros Hargs rq. split; [|split].
  - rewrite handler_with_arguments by done.
    rewrite try_catch_ret_world. unfold Index.call_tool.
    cbn [is_string String.eqb Ascii.eqb Bool.eqb].
    by rewrite bind_ret_world.
  - intros client. unfold Server.executeTool.
    cbn [is_string String.eqb Ascii.eqb Bool.eqb].
    assert (nullish args = false) as Hdefined by (by destruct args).
    by rewrite (bind_returned _ _ _ _ _ (get_defined _ _ _ Hdefined)).
  - intros k. apply ticket_updates_fields.
Qed.

(** X6.  A comment is public unless the arguments say otherwise.  The gateway of
    [index.ts] takes the default for a missing [is_public] only and passes
    any other value on, [null] included; the gateway of [server.ts] takes
    it for [null] as well. *)
Theorem add_comment_is_public_by_default fuel args w :
  truthy args = true ->
  let is_public := prop args "is_public" in
  (exists rq,
      (Index.CallToolRequest_handler remote JSON_stringify StringToNumber (Some this) fuel
         (call_request "add_comment" args) w).1 = sent w [rq]
      /\ rq_method rq = PUT
      /\ rq_url rq = Index.ticket_url (prop args "ticket_id")
      /\ public_flag rq = if is_undefined is_public then VBool true else is_public)
  /\ (forall client,
      exists rq,
        Server.executeTool remote (Some client) (VStr "add_comment") args w
        = axios remote rq w
        /\ rq_method rq = PUT
        /\ rq_url rq = Index.ticket_url (prop args "ticket_id")
        /\ public_flag rq = if nullish is_public then VBool true else is_public).
Proof.
  intros Hargs is_public. split.
  - eexists. split; [|split; [|split]].
    + rewrite handler_with_arguments by done.
      rewrite try_catch_ret_world. unfold Index.call_tool.
      cbn [is_string String.eqb Ascii.eqb Bool.eqb].
      rewrite bind_ret_world. unfold Index.addComment, axios_put, axios. reflexivity.
    + reflexivity.
    + reflexivity.
    + unfold public_flag, default, is_public. simpl.
      by destruct (prop args "is_public").
  - intros client. eexists. split; [|split; [|split]].
    + unfold Server.executeTool. cbn [is_string String.eqb Ascii.eqb Bool.eqb].
      assert (nullish args = false) as Hdefined by (by destruct args).
      rewrite (bind_returned _ _ _ _ _ (get_defined _ _ _ Hdefined)).
      unfold Server.addComment, axios_put. reflexivity.
    + reflexivity.
    + reflexivity.
    + unfold public_flag, default, coalesce, is_public. simpl.
      by destruct (prop args "is_public").
Qed.

End TicketWrites.

(** An update with a status, an empty subject and an assignee. *)
Lemma update_ticket_forwards_listed_fields_witness :
  let args := VObj [("ticket_id", VNum 7); ("status", VStr "solved");
                    ("subject", VStr ""); ("assignee_id", VNum 3)] in
  let rq := {| rq_method := PUT; rq_url := "/tickets/7.json";
               rq_data := VObj [("ticket", VObj [("status", VStr "solved")])];
               rq_config := VUndefined |} in
  (Index.CallToolRequest_handler Examples.helpdesk Examples.stringify Examples.to_number
     (Some Examples.acme) 0 (call_request "update_ticket" args) World0).1 = sent World0 [rq]
  /\ prop (prop (rq_data rq) "ticket") "assignee_id" = VUndefined.
Proof.
  intros args rq.
  destruct (update_ticket_forwards_listed_fields Examples.helpdesk Examples.stringify
              Examples.to_number Examples.acme 0 args World0 eq_refl)
    as (Hone & _ & Hfields).
  split; [exact Hone|]. exact (Hfields "assignee_id").
Defined.

(** A comment with [is_public: null]. *)
Lemma add_comment_is_public_by_default_witness :
  let args := VObj [("ticket_id", VNum 7); ("comment", VStr "On it.");
                    ("is_public", VNull)] in
  (exists rq,
      (Index.CallToolRequest_handler Examples.helpdesk Examples.stringify
         Examples.to_number (Some Examples.acme) 0
         (call_request "add_comment" args) World0).1 = sent World0 [rq]
      /\ public_flag rq = VNull)
  /\ (exists rq,
        Server.executeTool Examples.helpdesk (Some {| Server.subdomain := "acme" |})
          (VStr "add_comment") args World0
        = axios Examples.helpdesk rq World0
        /\ public_flag rq = VBool true).
Proof.
  intros args.
  destruct (add_comment_is_public_by_default Examples.helpdesk Examples.stringify
              Examples.to_number Examples.acme 0 args World0 eq_refl)
    as ((rq & Hone & _ & _ & Hflag) & Hserver).
  split; [by exists rq|].
  destruct (Hserver {| Server.subdomain := "acme" |}) as (rq' & Hrun & _ & _ & Hflag').
  by exists rq'.
Defined.

(** ** Tools that are one remote call *)

(** X7.  For each of the seven single-call tools of [index.ts] the arguments
    alone fix one request; the tool issues it and nothing else, and answers
    with the serialized response, or with the error-flagged message of the
    rejection. *)
Theorem single_call_tools_relay_one_request name args :
  name ∈ SINGLE_REQUEST_TOOLS ->
  truthy args = true ->
  exists rq,
    forall remote JSON_stringify StringToNumber this fuel w,
      Index.CallToolRequest_handler remote JSON_stringify StringToNumber (Some this) fuel
        (call_request name args) w =
      (sent w [rq],
       Returned match remote (requests w) rq with
                | inr data => tool_result (JSON_stringify data)
                | inl e => tool_error ("Error: " +:+ e_message e)
                end).
Proof.
  intros Hname Hargs. unfold SINGLE_REQUEST_TOOLS in Hname.
  repeat (apply elem_of_cons in Hname as [->|Hname]);
    [..|by apply elem_of_nil in Hname];
    eexists; intros remote JSON_stringify StringToNumber this fuel w;
    rewrite handler_with_arguments by done;
    unfold Index.call_tool; cbn [is_string String.eqb Ascii.eqb Bool.eqb];
    unfold Index.createTicket, Index.updateTicket, Index.addComment, Index.searchUsers,
      Index.getUser, Index.searchOrganizations, Index.getOrganization,
      axios_get, axios_post, axios_put, try_catch, bind, axios;
    (lazymatch goal with
     | |- context [remote (requests w) ?r] =>
         instantiate (1 := r); destruct (remote (requests w) r); reflexivity
     end).
Qed.

Lemma executeTool_one_request name args :
  name ∈ Server.TOOLS ->
  nullish args = false ->
  exists rq,
    forall remote client w,
      Server.executeTool remote (Some client) (VStr name) args w = axios remote rq w.
Proof.
  intros Hname Hargs. unfold Server.TOOLS in Hname.
  repeat (apply elem_of_cons in Hname as [->|Hname]);
    [..|by apply elem_of_nil in Hname];
    eexists; intros remote client w;
    unfold Server.executeTool; cbn [is_string String.eqb Ascii.eqb Bool.eqb];
    rewrite (bind_returned _ _ _ _ _ (get_defined _ _ _ Hargs));
    reflexivity.
Qed.

(** Without an argument object a registered tool throws before it calls
    the remote. *)
Lemma executeTool_without_arguments remote client name args w :
  name ∈ Server.TOOLS ->
  nullish args = true ->
  exists e, Server.executeTool remote (Some client) (VStr name) args w = (w, Thrown e).
Proof.
  intros Hname Hargs. unfold Server.TOOLS in Hname.
  repeat (apply elem_of_cons in Hname as [->|Hname]);
    [..|by apply elem_of_nil in Hname];
    unfold Server.executeTool; cbn [is_string String.eqb Ascii.eqb Bool.eqb];
    unfold bind, get; rewrite Hargs; by eexists.
Qed.

Lemma executeTool_unknown remote client name args w :
  name ∉ Server.TOOLS ->
  Server.executeTool remote (Some client) (VStr name) args w =
  (w, Thrown (Error ("Unknown tool: " +:+ name))).
Proof.
  intros Hname.
  assert (forall tool, tool ∈ Server.TOOLS -> String.eqb name tool = false) as Hne.
  { intros tool Htool. apply String.eqb_neq. by intros ->. }
  unfold Server.executeTool, is_string.
  rewrite !Hne by (apply (bool_decide_unpack _); reflexivity).
  done.
Qed.

(** X8.  Every tool of [server.ts] is one remote call that the name and the
    arguments fix: [executeTool] is that call, so its result is the response
    as it came and its failure is the rejection as it came. *)
Theorem server_tools_are_one_request name args :
  name ∈ Server.TOOLS ->
  nullish args = false ->
  exists rq,
    forall remote client w,
      Server.executeTool remote (Some client) (VStr name) args w = axios remote rq w.
Proof. apply executeTool_one_request. Qed.

(** The user behind an id, and a ticket with a subject only. *)
Lemma single_call_tools_relay_one_request_witness :
  exists rq,
    forall remote JSON_stringify StringToNumber this fuel w,
      Index.CallToolRequest_handler remote JSON_stringify StringToNumber (Some this) fuel
        (call_request "get_user" (VObj [("user_id", VNum 42)])) w =
      (sent w [rq],
       Returned match remote (requests w) rq with
                | inr data => tool_result (JSON_stringify data)
                | inl e => tool_error ("Error: " +:+ e_message e)
                end).
Proof.
  apply (single_call_tools_relay_one_request "get_user" (VObj [("user_id", VNum 42)])).
  - apply (bool_decide_unpack _). reflexivity.
  - reflexivity.
Defined.

Lemma server_tools_are_one_request_witness :
  exists rq,
    forall remote client w,
      Server.executeTool remote (Some client) (VStr "create_ticket")
        (VObj [("subject", VStr "Printer jam")]) w = axios remote rq w.
Proof.
  apply (server_tools_are_one_request "create_ticket" (VObj [("subject", VStr "Printer jam")])).
  - apply (bool_decide_unpack _). reflexivity.
  - reflexivity.
Defined.

(** ** The help-centre tools *)

Section HelpCentre.

Variable remote : Remote.
Variable JSON_stringify : Val -> Val.
Variable StringToNumber : string -> option Z.
Variable this : Index.ZendeskClient.

Import Index.

Lemma locale_in_force locale :
  default (or_else locale (VStr "ja")) (VStr "ja") = or_else locale (VStr "ja").
Proof. unfold or_else. destruct (truthy locale) eqn:E; [|done]. by destruct locale. Qed.

Lemma getArticle_rejected articleId locale e w :
  let loc := default locale (VStr "ja") in
  remote (requests w) (article_request articleId loc) = inl e ->
  getArticle remote articleId locale w =
  (logged w (article_request articleId loc)
     [VStr ("Failed to fetch article " +:+ ToString articleId +:+ ":");
      VStr (e_message e)],
   Thrown e).
Proof.
  intros loc Hr. unfold getArticle, axios_get. fold loc. fold (article_request articleId loc).
  rewrite (try_catch_thrown _ _ w (sent w [article_request articleId loc]) e); [done|].
  by rewrite (bind_thrown _ _ _ _ _ (axios_rejected _ _ _ _ Hr)).
Qed.

Lemma getArticlesBySection_rejected sectionId locale e w :
  let loc := default locale (VStr "ja") in
  remote (requests w) (section_request sectionId loc) = inl e ->
  getArticlesBySection remote sectionId locale w =
  (logged w (section_request sectionId loc)
     [VStr ("Failed to fetch articles in section " +:+ ToString sectionId +:+ ":");
      VStr (e_message e)],
   Thrown e).
Proof.
  intros loc Hr. unfold getArticlesBySection, axios_get. fold loc.
  fold (section_request sectionId loc).
  rewrite (try_catch_thrown _ _ w (sent w [section_request sectionId loc]) e); [done|].
  by rewrite (bind_thrown _ _ _ _ _ (axios_rejected _ _ _ _ Hr)).
Qed.

(** X9.  [getArticle] and [getArticlesBySection] issue one request, for the
    locale of the arguments or for [ja] when it is missing or empty.  When
    the remote rejects it they write one line with the message on the error
    console and throw the rejection as it is, and the tool call ends in an
    error-flagged result that carries the message. *)
Theorem article_reads_log_and_rethrow fuel args e w :
  truthy args = true ->
  let loc := or_else (prop args "locale") (VStr "ja") in
  let run := CallToolRequest_handler remote JSON_stringify StringToNumber (Some this) fuel in
  (let rq := article_request (prop args "article_id") loc in
   let w' := logged w rq
               [VStr ("Failed to fetch article "
                      +:+ ToString (prop args "article_id") +:+ ":");
                VStr (e_message e)] in
   remote (requests w) rq = inl e ->
   getArticle remote (prop args "article_id") loc w = (w', Thrown e)
   /\ run (call_request "get_article" args) w =
      (w', Returned (tool_error ("Error: " +:+ e_message e))))
  /\ (let rq := section_request (prop args "section_id") loc in
      let w' := logged w rq
                  [VStr ("Failed to fetch articles in section "
                         +:+ ToString (prop args "section_id") +:+ ":");
                   VStr (e_message e)] in
      remote (requests w) rq = inl e ->
      getArticlesBySection remote (prop args "section_id") loc w = (w', Thrown e)
      /\ run (call_request "get_articles_by_section" args) w =
         (w', Returned (tool_error ("Error: " +:+ e_message e)))).
Proof.
  intros Hargs loc run. split.
  - intros rq w' Hr.
    assert (getArticle remote (prop args "article_id") loc w = (w', Thrown e)) as Hthrown.
    { rewrite getArticle_rejected with (e := e); unfold loc; rewrite locale_in_force; done. }
    split; [exact Hthrown|]. unfold run.
    rewrite handler_with_arguments by done.
    rewrite (try_catch_thrown _ _ w w' e); [done|].
    unfold call_tool. cbn [is_string String.eqb Ascii.eqb Bool.eqb].
    by rewrite (bind_thrown _ _ _ _ _ Hthrown).
  - intros rq w' Hr.
    assert (getArticlesBySection remote (prop args "section_id") loc w = (w', Thrown e))
      as Hthrown.
    { rewrite getArticlesBySection_rejected with (e := e);
        unfold loc; rewrite locale_in_force; done. }
    split; [exact Hthrown|]. unfold run.
    rewrite handler_with_arguments by done.
    rewrite (try_catch_thrown _ _ w w' e); [done|].
    unfold call_tool. cbn [is_string String.eqb Ascii.eqb Bool.eqb].
    by rewrite (bind_thrown _ _ _ _ _ Hthrown).
Qed.




(** X12.  A hit without a usable [html_url], in the hit and in its detail: with no
    custom help-centre URL configured the record is returned with that
    [url]; with one configured the conversion throws, the hit is logged and
    dropped. *)
Theorem article_without_url locale article data w :
  nullish article = false ->
  remote (requests w) (detail_request locale article) = inr data ->
  nullish data = false ->
  nullish (prop data "article") = false ->
  is_true (prop (prop data "article") "draft") = false ->
  let articleData := prop data "article" in
  let url := or_else (prop article "html_url") (prop articleData "html_url") in
  is_a_string url = false ->
  (truthy (helpCenterUrl this) = false ->
   article_with_details remote this locale article w =
   (sent w [detail_request locale article],
    Returned (article_record article articleData url)))
  /\ (truthy (helpCenterUrl this) = true ->
      exists message,
        article_with_details remote this locale article w =
        (logged w (detail_request locale article)
           [VStr ("Failed to fetch article " +:+ ToString (prop article "id") +:+ ":");
            VStr message],
         Returned VNull)).
Proof.
  intros Harticle Hr Hdata Hdetail Hdraft articleData url Hurl.
  assert (article_with_details remote this locale article w =
          try_catch
            (publicUrl <- convertToCustomUrl this url ;;
             ret (article_record article articleData publicUrl))
            (fun detailError =>
               id <- get article "id" ;;
               console_error [VStr ("Failed to fetch article " +:+ ToString id +:+ ":");
                              VStr (e_message detailError)] ;;;
               ret VNull)
            (sent w [detail_request locale article])) as Hrun.
  { unfold article_with_details, try_catch.
    rewrite (bind_returned _ _ _ _ _ (get_defined _ _ _ Harticle)).
    unfold axios_get. fold (detail_request locale article).
    rewrite (bind_returned _ _ _ _ _ (axios_answered _ _ _ _ Hr)).
    rewrite (bind_returned _ _ _ _ _ (get_defined _ _ _ Hdata)).
    rewrite (bind_returned _ _ _ _ _ (get_defined _ _ _ Hdetail)).
    fold articleData. unfold articleData at 1. by rewrite Hdraft. }
  rewrite Hrun. clear Hrun. split.
  - intros Hnone. unfold convertToCustomUrl. by rewrite Hnone.
  - intros Hsome. unfold convertToCustomUrl. rewrite Hsome. cbn [negb].
    unfold try_catch, bind at 1.
    destruct url; try done; cbn [String_replace_global throw];
      rewrite details_catch by done; by eexists.
Qed.

End HelpCentre.

(** A helpdesk that is down: the article 3 cannot be read. *)
Lemma article_reads_log_and_rethrow_witness :
  let args := VObj [("article_id", VNum 3)] in
  Index.CallToolRequest_handler MoreExamples.never Examples.stringify Examples.to_number
    (Some Examples.acme) 0 (call_request "get_article" args) World0
  = (logged World0 (article_request (VNum 3) (VStr "ja"))
       [VStr ("Failed to fetch article " +:+ ToString (VNum 3) +:+ ":");
        VStr "Request failed with status code 500"],
     Returned (tool_error "Error: Request failed with status code 500")).
Proof.
  intros args.
  destruct (article_reads_log_and_rethrow MoreExamples.never Examples.stringify
              Examples.to_number Examples.acme 0 args Examples.server_error World0 eq_refl)
    as [Harticle _].
  exact (proj2 (Harticle eq_refl)).
Defined.



(** An article without a URL, on a client with a custom help-centre URL. *)
Lemma article_without_url_witness :
  exists message,
    Index.article_with_details (MoreExamples.always MoreExamples.bare_detail)
      Examples.acme_help (VStr "ja") MoreExamples.bare_hit World0
    = (logged World0 (Index.detail_request (VStr "ja") MoreExamples.bare_hit)
         [VStr ("Failed to fetch article " +:+ ToString (VNum 21) +:+ ":");
          VStr message],
       Returned VNull).
Proof.
  apply (proj2 (article_without_url (MoreExamples.always MoreExamples.bare_detail)
                  Examples.acme_help (VStr "ja") MoreExamples.bare_hit
                  MoreExamples.bare_detail World0
                  eq_refl eq_refl eq_refl eq_refl eq_refl eq_refl)).
  reflexivity.
Defined.

(** ** The [/tools/:toolName] endpoint of [server.ts] *)

Section ToolsEndpoint.

Import Server.

(** X13.  The endpoint answers every request and lets no exception out: without
    credentials, for a tool that is not registered and for a request without
    a body it answers 500 with the message and calls no remote; for a
    registered tool with a body it issues the one request of the tool and
    answers 200 with the response, or 500 with the message of the
    rejection. *)
Theorem tools_endpoint_answers toolName body :
  (forall remote w,
      tools_endpoint remote None toolName body w =
      (w, Returned (JsonReply 500 (failure_body "Zendesk credentials not configured"))))
  /\ (toolName ∉ TOOLS ->
      forall remote client w,
        tools_endpoint remote (Some client) toolName body w =
        (w, Returned (JsonReply 500 (failure_body ("Unknown tool: " +:+ toolName)))))
  /\ (toolName ∈ TOOLS -> nullish body = true ->
      forall remote client w,
      exists message,
        tools_endpoint remote (Some client) toolName body w =
        (w, Returned (JsonReply 500 (failure_body message))))
  /\ (toolName ∈ TOOLS -> nullish body = false ->
      exists rq,
        forall remote client w,
          tools_endpoint remote (Some client) toolName body w =
          (sent w [rq],
           Returned match remote (requests w) rq with
                    | inr data => JsonReply 200 (success_body data)
                    | inl e => JsonReply 500 (failure_body (e_message e))
                    end)).
Proof.
  split; [done|]. split; [|split].
  - intros Hname remote client w. unfold tools_endpoint.
    rewrite (try_catch_thrown _ _ w w (Error ("Unknown tool: " +:+ toolName))); [done|].
    by rewrite (bind_thrown _ _ _ _ _ (executeTool_unknown remote client _ body w Hname)).
  - intros Hname Hbody remote client w.
    destruct (executeTool_without_arguments remote client _ _ w Hname Hbody) as [e He].
    exists (e_message e). unfold tools_endpoint.
    rewrite (try_catch_thrown _ _ w w e); [done|].
    by rewrite (bind_thrown _ _ _ _ _ He).
  - intros Hname Hbody.
    destruct (executeTool_one_request _ _ Hname Hbody) as [rq Hrq].
    exists rq. intros remote client w.
    unfold tools_endpoint, try_catch, bind. rewrite Hrq. unfold axios.
    by destruct (remote (requests w) rq).
Qed.

(** X14.  The two surfaces of [server.ts] run a tool in the same way: whatever
    [executeTool] does, the MCP handler and the [/tools/:toolName] endpoint
    leave the same world, both report its result, and both report its
    failure with the same message. *)
Theorem server_surfaces_agree remote JSON_stringify client name args w :
  truthy args = true ->
  exists w',
    (exists data,
        executeTool remote (Some client) (VStr name) args w = (w', Returned data)
        /\ CallToolRequest_handler remote JSON_stringify (Some client)
             (call_request name args) w
           = (w', Returned (tool_result (JSON_stringify data)))
        /\ tools_endpoint remote (Some client) name args w
           = (w', Returned (JsonReply 200 (success_body data))))
    \/ (exists e,
          executeTool remote (Some client) (VStr name) args w = (w', Thrown e)
          /\ CallToolRequest_handler remote JSON_stringify (Some client)
               (call_request name args) w
             = (w', Returned (tool_error ("Error: " +:+ e_message e)))
          /\ tools_endpoint remote (Some client) name args w
             = (w', Returned (JsonReply 500 (failure_body (e_message e))))).
Proof.
  intros Hargs. rewrite server_handler_with_arguments by done.
  unfold tools_endpoint, try_catch, bind.
  pose proof (executeTool_terminates remote (Some client) (VStr name) args w) as Hends.
  destruct (executeTool remote (Some client) (VStr name) args w) as [w' [data|e|]];
    [| |done]; exists w'; [left; by exists data|right; by exists e].
Qed.

End ToolsEndpoint.

(** The user behind an id, over the plain HTTP surface. *)
Lemma tools_endpoint_answers_witness :
  exists rq,
    forall remote client w,
      Server.tools_endpoint remote (Some client) "get_user" (VObj [("user_id", VNum 42)]) w =
      (sent w [rq],
       Returned match remote (requests w) rq with
                | inr data => Server.JsonReply 200 (success_body data)
                | inl e => Server.JsonReply 500 (failure_body (e_message e))
                end).
Proof.
  apply (proj2 (proj2 (proj2
           (tools_endpoint_answers "get_user" (VObj [("user_id", VNum 42)]))))).
  - apply (bool_decide_unpack _). reflexivity.
  - reflexivity.
Defined.

(** The ticket 7 of the sample helpdesk, over both surfaces. *)
Lemma server_surfaces_agree_witness :
  let client := {| Server.subdomain := "acme" |} in
  let args := VObj [("ticket_id", VNum 7)] in
  exists w',
    (exists data,
        Server.executeTool Examples.helpdesk (Some client) (VStr "get_ticket") args World0
        = (w', Returned data)
        /\ Server.CallToolRequest_handler Examples.helpdesk Examples.stringify (Some client)
             (call_request "get_ticket" args) World0
           = (w', Returned (tool_result (Examples.stringify data)))
        /\ Server.tools_endpoint Examples.helpdesk (Some client) "get_ticket" args World0
           = (w', Returned (Server.JsonReply 200 (success_body data))))
    \/ (exists e,
          Server.executeTool Examples.helpdesk (Some client) (VStr "get_ticket") args World0
          = (w', Thrown e)
          /\ Server.CallToolRequest_handler Examples.helpdesk Examples.stringify (Some client)
               (call_request "get_ticket" args) World0
             = (w', Returned (tool_error ("Error: " +:+ e_message e)))
          /\ Server.tools_endpoint Examples.helpdesk (Some client) "get_ticket" args World0
             = (w', Returned (Server.JsonReply 500 (failure_body (e_message e))))).
Proof.
  intros client args.
  apply (server_surfaces_agree Examples.helpdesk Examples.stringify client
           "get_ticket" args World0).
  reflexivity.
Defined.

(** ** The session table of [/mcp] *)

Section Sessions.

Variable sdk : Server.Transport -> Server.HttpRequest -> Server.SdkRun.

Import Server.

(** The transport that the endpoint looks up for a request. *)
Lemma slot_missing st req :
  no_transport st req ->
  match mcp_session_id req with
  | Some sessionId =>
      if Str.is_empty sessionId then Missing
      else lookup_transport (transports st) sessionId
  | None => Missing
  end = Missing.
Proof.
  unfold no_transport. destruct (mcp_session_id req) as [s|]; [|done].
  intros [->|[Hown Hproto]]; [done|].
  unfold lookup_transport. rewrite Hown, bool_decide_eq_false_2 by done.
  by destruct (Str.is_empty s).
Qed.

Lemma slot_cases st req :
  no_transport st req
  \/ (exists sid transport,
         mcp_session_id req = Some sid /\ sid <> ""
         /\ transports st !! sid = Some transport)
  \/ (exists key, mcp_session_id req = Some key /\ key <> ""
                  /\ transports st !! key = None /\ key ∈ Object_prototype).
Proof.
  unfold no_transport. destruct (mcp_session_id req) as [sid|]; [|by left].
  destruct (decide (sid = "")) as [->|Hsid]; [left; by left|].
  destruct (transports st !! sid) as [transport|] eqn:Hown.
  { right; left. by exists sid, transport. }
  destruct (decide (sid ∈ Object_prototype)) as [Hproto|Hproto].
  - right; right. by exists sid.
  - left; right. done.
Qed.

Lemma isInitializeRequest_truthy body :
  truthy (isInitializeRequest body) = handshake_body body.
Proof.
  unfold isInitializeRequest, handshake_body.
  destruct (truthy body) eqn:Hbody; cbn [negb andb]; [|done].
  destruct (is_string (prop body "jsonrpc") "2.0"); cbn [negb andb]; [|done].
  by destruct (is_string (prop body "method") "initialize").
Qed.

Lemma live_session_routed st req sid transport :
  mcp_session_id req = Some sid ->
  sid <> "" ->
  transports st !! sid = Some transport ->
  mcp_endpoint sdk req st = handleRequest sdk transport req st.
Proof.
  intros Hreq Hsid Hlive. unfold mcp_endpoint, lookup_transport.
  rewrite Hreq, Hlive. by destruct sid.
Qed.

Lemma live_session_table st req sid transport :
  initializes_once sdk ->
  table_consistent st ->
  transports st !! sid = Some transport ->
  sid <> "" ->
  transports (handleRequest sdk transport req st).1 =
  (if run_closed (sdk transport req) then delete sid (transports st)
   else transports st).
Proof.
  intros Honce Hst Hlive Hsid.
  pose proof (Hst sid transport Hlive) as Hid.
  assert (run_initialized (sdk transport req) = None) as Hinit.
  { apply Honce. by rewrite Hid. }
  unfold handleRequest, fire_callbacks. rewrite Hinit, Hid.
  assert (Str.is_empty sid = false) as -> by (by destruct sid).
  destruct (run_closed (sdk transport req)), (run_error (sdk transport req)); done.
Qed.

(** The entries of the table after a request: those that were there, and
    the one of a session initialized on the transport of a handshake. *)
Lemma mcp_endpoint_entries req st :
  initializes_once sdk ->
  table_consistent st ->
  forall sid transport,
    transports (mcp_endpoint sdk req st).1 !! sid = Some transport ->
    transports st !! sid = Some transport
    \/ (no_transport st req
        /\ http_method req = "POST"
        /\ handshake_body (http_body req) = true
        /\ run_initialized (sdk {| sessionId := None |} req) = Some sid
        /\ transport = {| sessionId := Some sid |}).
Proof.
  intros Honce Hst sid transport.
  destruct (slot_cases st req)
    as [Hnone|[(sid0 & t0 & Hreq & Hsid0 & Hlive)|(key & Hreq & Hkey & Hown & Hproto)]].
  - unfold mcp_endpoint. rewrite (slot_missing st req Hnone), isInitializeRequest_truthy.
    destruct (String.eqb_spec (http_method req) "POST") as [Hpost|_]; [|by left].
    destruct (handshake_body (http_body req)) eqn:Hbody; [|by left].
    cbn [andb]. unfold handleRequest, fire_callbacks.
    destruct (run_initialized (sdk {| sessionId := None |} req)) as [sid'|] eqn:Hinit.
    + assert (forall console console',
                 transports
                   (if run_closed (sdk {| sessionId := None |} req)
                    then if Str.is_empty sid'
                         then {| transports := <[sid' := {| sessionId := Some sid' |}]> (transports st);
                                 server_console := console |}
                         else {| transports :=
                                   delete sid' (<[sid' := {| sessionId := Some sid' |}]> (transports st));
                                 server_console := console' |}
                    else {| transports := <[sid' := {| sessionId := Some sid' |}]> (transports st);
                            server_console := console |}) !! sid = Some transport ->
                 transports st !! sid = Some transport
                 \/ (sid' = sid /\ transport = {| sessionId := Some sid |})) as Hcases.
      { intros console console'.
        destruct (run_closed _); [destruct (Str.is_empty sid')|]; simpl;
          rewrite ?lookup_delete_Some, ?lookup_insert_Some.
        - intros [[-> <-]|[_ H]]; [by right|by left].
        - intros [Hne [[Heq _]|[_ H]]]; [done|by left].
        - intros [[-> <-]|[_ H]]; [by right|by left]. }
      cbn [sessionId].
      destruct (run_error _); cbn [endpoint_catch fst transports];
        intros H; apply Hcases in H as [H|[-> ->]]; eauto 10.
    + cbn [sessionId].
      destruct (run_closed _), (run_error _); by left.
  - rewrite (live_session_routed st req sid0 t0) by done.
    rewrite (live_session_table st req sid0 t0) by done.
    destruct (run_closed _); [|by left].
    rewrite lookup_delete_Some. intros [_ H]. by left.
  - unfold mcp_endpoint, lookup_transport.
    rewrite Hreq, Hown, bool_decide_eq_true_2 by done.
    assert (Str.is_empty key = false) as -> by (by destruct key).
    by left.
Qed.

(** X16.  Sessions are created by handshakes only: for an SDK that initializes a
    transport once, an entry of the table after a request was there before,
    or is the session that the SDK initialized on the new transport of a
    posted handshake. *)
Theorem sessions_are_created_by_handshakes_only req st sid transport :
  initializes_once sdk ->
  table_consistent st ->
  transports (mcp_endpoint sdk req st).1 !! sid = Some transport ->
  transports st !! sid = Some transport
  \/ (no_transport st req
      /\ http_method req = "POST"
      /\ handshake_body (http_body req) = true
      /\ run_initialized (sdk {| sessionId := None |} req) = Some sid
      /\ transport = {| sessionId := Some sid |}).
Proof. intros Honce Hst. by apply mcp_endpoint_entries. Qed.

(** X17.  A request that bears the id of a live session is handled by the
    transport of that session and leaves every other entry of the table as
    it is: the table is unchanged, or loses that one entry when the transport
    is closed. *)
Theorem live_session_request_keeps_other_sessions st req sid transport :
  initializes_once sdk ->
  table_consistent st ->
  mcp_session_id req = Some sid ->
  sid <> "" ->
  transports st !! sid = Some transport ->
  mcp_endpoint sdk req st = handleRequest sdk transport req st
  /\ transports (mcp_endpoint sdk req st).1 =
     (if run_closed (sdk transport req) then delete sid (transports st)
      else transports st).
Proof.
  intros Honce Hst Hreq Hsid Hlive.
  rewrite (live_session_routed st req sid transport) by done.
  split; [done|]. by apply live_session_table.
Qed.

(** X18.  Registration round trip: when the SDK initializes the session [sid] on
    the transport of a posted handshake, the transport is registered under
    [sid], no other entry changes, and a later request that bears [sid] is
    handled by that transport. *)
Theorem handshake_registers_the_session st req sid :
  no_transport st req ->
  http_method req = "POST" ->
  truthy (isInitializeRequest (http_body req)) = true ->
  run_initialized (sdk {| sessionId := None |} req) = Some sid ->
  run_closed (sdk {| sessionId := None |} req) = false ->
  sid <> "" ->
  let st' := (mcp_endpoint sdk req st).1 in
  transports st' = <[sid := {| sessionId := Some sid |}]> (transports st)
  /\ (forall req',
        mcp_session_id req' = Some sid ->
        mcp_endpoint sdk req' st' = handleRequest sdk {| sessionId := Some sid |} req' st').
Proof.
  intros Hnone Hpost Hbody Hinit Hopen Hsid st'.
  assert (transports st' = <[sid := {| sessionId := Some sid |}]> (transports st)) as Htable.
  { unfold st', mcp_endpoint. rewrite (slot_missing st req Hnone), Hpost, Hbody.
    cbn [String.eqb Ascii.eqb Bool.eqb andb].
    unfold handleRequest, fire_callbacks. rewrite Hinit, Hopen.
    by destruct (run_error _). }
  split; [exact Htable|].
  intros req' Hreq'. apply (live_session_routed st' req' sid); [done..|].
  by rewrite Htable, lookup_insert_eq.
Qed.

(** X19.  A handshake on which the SDK fails before it initializes a session
    leaves the table as it is; the failure goes to the error console and is
    answered with the server error -32603 and its message, unless the
    response had been started. *)
Theorem failed_handshake_leaves_no_session st req e :
  no_transport st req ->
  http_method req = "POST" ->
  truthy (isInitializeRequest (http_body req)) = true ->
  run_initialized (sdk {| sessionId := None |} req) = None ->
  run_error (sdk {| sessionId := None |} req) = Some e ->
  mcp_endpoint sdk req st =
  ({| transports := transports st;
      server_console := server_console st
        ++ [[VStr "MCP endpoint error:"; VStr (e_message e)]] |},
   if run_headersSent (sdk {| sessionId := None |} req) then TransportReply
   else JsonReply 500 (jsonrpc_error (-32603) (e_message e))).
Proof.
  intros Hnone Hpost Hbody Hinit Herror. unfold mcp_endpoint.
  rewrite (slot_missing st req Hnone), Hpost, Hbody.
  cbn [String.eqb Ascii.eqb Bool.eqb andb].
  unfold handleRequest, fire_callbacks, endpoint_catch. rewrite Hinit, Herror.
  cbn [sessionId].
  by destruct (run_closed _), (run_headersSent _).
Qed.

(** X20.  A new transport is made for a posted handshake only.  When no transport
    is found for a request, the request goes to a new transport exactly if
    its method is [POST] and its body is truthy with [jsonrpc] ["2.0"],
    [method] ["initialize"] and some [params]; any other request is answered
    with the client error -32000 and changes nothing. *)
Theorem new_transport_only_for_posted_handshake st req :
  no_transport st req ->
  mcp_endpoint sdk req st =
  if String.eqb (http_method req) "POST" && handshake_body (http_body req)
  then handleRequest sdk {| sessionId := None |} req st
  else (st, NO_SESSION_REPLY).
Proof.
  intros Hnone. unfold mcp_endpoint.
  by rewrite (slot_missing st req Hnone), isInitializeRequest_truthy.
Qed.

End Sessions.

Lemma opening_sdk_initializes_once : Server.initializes_once MoreExamples.opening_sdk.
Proof.
  intros transport req Hid. unfold MoreExamples.opening_sdk. simpl.
  by destruct (Server.sessionId transport).
Defined.

Lemma closing_sdk_initializes_once : Server.initializes_once MoreExamples.closing_sdk.
Proof. by intros transport req Hid. Defined.

Lemma one_session_consistent : Server.table_consistent MoreExamples.one_session.
Proof.
  intros sid transport. unfold MoreExamples.one_session. simpl.
  rewrite lookup_insert_Some.
  intros [[<- <-]|[_ H]]; [done|]. by rewrite lookup_empty in H.
Defined.

(** The session of the table after the handshake is the one the SDK
    initialized. *)
Lemma sessions_are_created_by_handshakes_only_witness :
  let st' := (Server.mcp_endpoint MoreExamples.opening_sdk MoreExamples.initialize_request
                MoreExamples.no_sessions).1 in
  Server.transports st' !! "3f6c" = Some {| Server.sessionId := Some "3f6c" |}
  /\ (Server.transports MoreExamples.no_sessions !! "3f6c"
        = Some {| Server.sessionId := Some "3f6c" |}
      \/ (no_transport MoreExamples.no_sessions MoreExamples.initialize_request
          /\ Server.http_method MoreExamples.initialize_request = "POST"
          /\ handshake_body (Server.http_body MoreExamples.initialize_request) = true
          /\ Server.run_initialized
               (MoreExamples.opening_sdk {| Server.sessionId := None |}
                  MoreExamples.initialize_request) = Some "3f6c"
          /\ {| Server.sessionId := Some "3f6c" |} = {| Server.sessionId := Some "3f6c" |})).
Proof.
  intros st'.
  assert (Server.transports st' !! "3f6c" = Some {| Server.sessionId := Some "3f6c" |})
    as Hentry by apply lookup_insert_eq.
  split; [exact Hentry|].
  apply (sessions_are_created_by_handshakes_only MoreExamples.opening_sdk
           MoreExamples.initialize_request MoreExamples.no_sessions "3f6c"
           {| Server.sessionId := Some "3f6c" |}
           opening_sdk_initializes_once).
  - intros sid transport H. unfold MoreExamples.no_sessions in H. simpl in H.
    by rewrite lookup_empty in H.
  - exact Hentry.
Defined.

(** A request that closes the one live session. *)
Lemma live_session_request_keeps_other_sessions_witness :
  let req := MoreExamples.list_request "3f6c" in
  let transport := {| Server.sessionId := Some "3f6c" |} in
  Server.mcp_endpoint MoreExamples.closing_sdk req MoreExamples.one_session
  = Server.handleRequest MoreExamples.closing_sdk transport req MoreExamples.one_session
  /\ Server.transports
       (Server.mcp_endpoint MoreExamples.closing_sdk req MoreExamples.one_session).1
     = (if Server.run_closed (MoreExamples.closing_sdk transport req)
        then delete "3f6c" (Server.transports MoreExamples.one_session)
        else Server.transports MoreExamples.one_session).
Proof.
  intros req transport.
  apply (live_session_request_keeps_other_sessions MoreExamples.closing_sdk
           MoreExamples.one_session req "3f6c" transport
           closing_sdk_initializes_once one_session_consistent).
  - reflexivity.
  - discriminate.
  - apply lookup_insert_eq.
Defined.

(** The handshake of a first client. *)
Lemma handshake_registers_the_session_witness :
  let st' := (Server.mcp_endpoint MoreExamples.opening_sdk MoreExamples.initialize_request
                MoreExamples.no_sessions).1 in
  Server.transports st'
  = <["3f6c" := {| Server.sessionId := Some "3f6c" |}]>
      (Server.transports MoreExamples.no_sessions)
  /\ (forall req',
        Server.mcp_session_id req' = Some "3f6c" ->
        Server.mcp_endpoint MoreExamples.opening_sdk req' st'
        = Server.handleRequest MoreExamples.opening_sdk
            {| Server.sessionId := Some "3f6c" |} req' st').
Proof.
  apply (handshake_registers_the_session MoreExamples.opening_sdk
           MoreExamples.no_sessions MoreExamples.initialize_request "3f6c").
  - exact I.
  - reflexivity.
  - reflexivity.
  - reflexivity.
  - reflexivity.
  - discriminate.
Defined.

(** A handshake on which [connect] fails. *)
Lemma failed_handshake_leaves_no_session_witness :
  Server.mcp_endpoint MoreExamples.failing_sdk MoreExamples.initialize_request
    MoreExamples.no_sessions
  = ({| Server.transports := ∅;
        Server.server_console := [[VStr "MCP endpoint error:"; VStr "connect failed"]] |},
     Server.JsonReply 500 (Server.jsonrpc_error (-32603) "connect failed")).
Proof.
  apply (failed_handshake_leaves_no_session MoreExamples.failing_sdk
           MoreExamples.no_sessions MoreExamples.initialize_request
           (Error "connect failed")).
  - exact I.
  - reflexivity.
  - reflexivity.
  - reflexivity.
  - reflexivity.
Defined.

(** A handshake that is sent with [GET] is rejected. *)
Lemma new_transport_only_for_posted_handshake_witness :
  Server.mcp_endpoint MoreExamples.opening_sdk MoreExamples.handshake_by_get
    MoreExamples.no_sessions
  = (MoreExamples.no_sessions, NO_SESSION_REPLY).
Proof.
  apply (new_transport_only_for_posted_handshake MoreExamples.opening_sdk
           MoreExamples.no_sessions MoreExamples.handshake_by_get).
  exact I.
Defined.

(** ** Start-up: the credentials *)

Lemma env_truthy (env : Env) name :
  truthy (env_value env name) = true <-> exists s, env name = Some s /\ s <> "".
Proof.
  unfold env_value. destruct (env name) as [s|]; simpl.
  - destruct s; simpl; split; try done.
    + by intros (s & [= <-] & H).
    + intros _. by eexists.
  - split; [done|]. by intros (s & H & _).
Qed.

Lemma index_zendeskClient_cases (env : Env) :
  (exists subdomain email apiToken,
      env "ZENDESK_SUBDOMAIN" = Some subdomain /\ subdomain <> ""
      /\ env "ZENDESK_EMAIL" = Some email /\ email <> ""
      /\ env "ZENDESK_API_TOKEN" = Some apiToken /\ apiToken <> ""
      /\ index_zendeskClient env =
         Some (Index.new_ZendeskClient subdomain email apiToken
                 (env_value env "ZENDESK_HELP_CENTER_URL"))
      /\ server_zendeskClient env = Some {| Server.subdomain := subdomain |})
  \/ ((exists name, name ∈ CREDENTIALS /\ (env name = None \/ env name = Some ""))
      /\ index_zendeskClient env = None
      /\ server_zendeskClient env = None).
Proof.
  unfold index_zendeskClient, server_zendeskClient, CREDENTIALS.
  destruct (env "ZENDESK_SUBDOMAIN") as [[|c s]|] eqn:Hs;
    [right; split; [exists "ZENDESK_SUBDOMAIN"; split; [set_solver|by right]|]
    | |right; split; [exists "ZENDESK_SUBDOMAIN"; split; [set_solver|by left]|done]].
  { by destruct (env "ZENDESK_EMAIL"), (env "ZENDESK_API_TOKEN"). }
  destruct (env "ZENDESK_EMAIL") as [[|c' e]|] eqn:He;
    [right; split; [exists "ZENDESK_EMAIL"; split; [set_solver|by right]|]
    | |right; split; [exists "ZENDESK_EMAIL"; split; [set_solver|by left]|done]].
  { by destruct (env "ZENDESK_API_TOKEN"). }
  destruct (env "ZENDESK_API_TOKEN") as [[|c'' t]|] eqn:Ht;
    [right; split; [exists "ZENDESK_API_TOKEN"; split; [set_solver|by right]|done]
    | |right; split; [exists "ZENDESK_API_TOKEN"; split; [set_solver|by left]|done]].
  left. eexists _, _, _. repeat split; done.
Qed.

(** X21.  The credentials are all or nothing.  When one of the three variables is
    not set or is empty, neither program makes a client: every tool call is
    answered with the credentials message and no remote is called; the
    message is error-flagged by [server.ts] only, and the plain HTTP surface
    answers 500.  An empty help-centre URL is no URL. *)
Theorem credentials_are_all_or_nothing (env : Env) name :
  name ∈ CREDENTIALS ->
  env name = None \/ env name = Some "" ->
  (forall remote JSON_stringify StringToNumber fuel request w,
      Index.CallToolRequest_handler remote JSON_stringify StringToNumber
        (index_zendeskClient env) fuel request w
      = (w, Returned (tool_result (VStr Index.CREDENTIALS_MESSAGE))))
  /\ (forall remote JSON_stringify request w,
        Server.CallToolRequest_handler remote JSON_stringify
          (server_zendeskClient env) request w
        = (w, Returned (tool_error Server.CREDENTIALS_MESSAGE)))
  /\ (forall remote toolName body w,
        Server.tools_endpoint remote (server_zendeskClient env) toolName body w
        = (w, Returned (Server.JsonReply 500
                          (failure_body "Zendesk credentials not configured")))).
Proof.
  intros Hname Hunset.
  assert (index_zendeskClient env = None /\ server_zendeskClient env = None) as [-> ->].
  { destruct (index_zendeskClient_cases env)
      as [(s & e & t & Hs & Hs' & He & He' & Ht & Ht' & _)|(_ & H)]; [|done].
    exfalso. unfold CREDENTIALS in Hname.
    repeat (apply elem_of_cons in Hname as [->|Hname]);
      [..|by apply elem_of_nil in Hname];
      destruct Hunset as [H|H]; congruence. }
  done.
Qed.

(** X22.  With the three variables set to non-empty strings both programs make a
    client for that subdomain, and the client of [index.ts] holds the
    help-centre URL, or [null] when that variable is not set or is empty. *)
Theorem credentials_make_the_clients (env : Env) subdomain email apiToken :
  env "ZENDESK_SUBDOMAIN" = Some subdomain -> subdomain <> "" ->
  env "ZENDESK_EMAIL" = Some email -> email <> "" ->
  env "ZENDESK_API_TOKEN" = Some apiToken -> apiToken <> "" ->
  exists client,
    index_zendeskClient env = Some client
    /\ server_zendeskClient env = Some {| Server.subdomain := subdomain |}
    /\ Index.subdomain client = subdomain
    /\ Index.helpCenterUrl client =
       match env "ZENDESK_HELP_CENTER_URL" with
       | Some url => if Str.is_empty url then VNull else VStr url
       | None => VNull
       end.
Proof.
  intros Hs Hs' He He' Ht Ht'.
  unfold index_zendeskClient, server_zendeskClient. rewrite Hs, He, Ht.
  destruct subdomain; [done|]. destruct email; [done|]. destruct apiToken; [done|].
  eexists. split; [reflexivity|]. split; [done|]. split; [done|].
  unfold env_value. simpl. destruct (env "ZENDESK_HELP_CENTER_URL") as [[|c url]|]; done.
Qed.

(** An empty token. *)
Lemma credentials_are_all_or_nothing_witness :
  Index.CallToolRequest_handler Examples.helpdesk Examples.stringify Examples.to_number
    (index_zendeskClient MoreExamples.empty_token) 3
    (call_request "get_ticket" (VObj [("ticket_id", VNum 7)])) World0
  = (World0, Returned (tool_result (VStr Index.CREDENTIALS_MESSAGE))).
Proof.
  apply (credentials_are_all_or_nothing MoreExamples.empty_token "ZENDESK_API_TOKEN").
  - apply (bool_decide_unpack _). reflexivity.
  - by right.
Defined.

(** A full environment with an empty help-centre URL. *)
Lemma credentials_make_the_clients_witness :
  exists client,
    index_zendeskClient MoreExamples.full_env = Some client
    /\ server_zendeskClient MoreExamples.full_env = Some {| Server.subdomain := "acme" |}
    /\ Index.subdomain client = "acme"
    /\ Index.helpCenterUrl client = VNull.
Proof.
  apply (credentials_make_the_clients MoreExamples.full_env
           "acme" "agent@acme.example" "secret");
    (reflexivity || discriminate).
Defined.

(** ** [getTicket]: the ticket first, its [ticket] field last *)

Section TicketOrder.

Variable remote : Remote.
Variable JSON_stringify : Val -> Val.
Variable StringToNumber : string -> option Z.
Variable this : Index.ZendeskClient.

Import Index.

(** X23.  [getTicket] requests the ticket before any comment and reads the
    response only after the last page.  When the ticket request is rejected
    no comment is requested, whatever the fuel; when it is answered by
    [null], every page of comments is still requested before the call
    throws. *)
Theorem getTicket_reads_the_ticket_last fuel ticketId w :
  (forall e,
      remote (requests w) (ticket_request ticketId) = inl e ->
      getTicket remote this fuel ticketId w =
      (sent w [ticket_request ticketId], Thrown e))
  /\ (forall ticket_data pages,
        remote (requests w) (ticket_request ticketId) = inr ticket_data ->
        nullish ticket_data = true ->
        served remote this (requests w ++ [ticket_request ticketId])
          (VStr (comments_url ticketId)) pages ->
        (length pages <= fuel)%nat ->
        exists e,
          getTicket remote this fuel ticketId w =
          (sent w (ticket_request ticketId
                   :: run_requests this (VStr (comments_url ticketId)) pages),
           Thrown e)).
Proof.
  split.
  - intros e Hr. unfold getTicket, axios_get. fold (ticket_request ticketId).
    by rewrite (bind_thrown _ _ _ _ _ (axios_rejected _ _ _ _ Hr)).
  - intros ticket_data pages Hr Hnull Hserved Hfuel.
    unfold getTicket, axios_get. fold (ticket_request ticketId).
    rewrite (bind_returned _ _ _ _ _ (axios_answered _ _ _ _ Hr)).
    rewrite (bind_returned _ _ _ _ _
               (comment_pages_served remote this pages fuel _ []
                  (sent w [ticket_request ticketId]) Hserved Hfuel)).
    rewrite sent_sent. unfold bind, get. rewrite Hnull. by eexists.
Qed.

End TicketOrder.

(** The ticket 7 answered by [null]: its three pages of comments are
    requested all the same. *)
Lemma getTicket_reads_the_ticket_last_witness :
  exists e,
    Index.getTicket MoreExamples.null_ticket Examples.acme 3 (VNum 7) World0
    = (sent World0 (Index.ticket_request (VNum 7)
                    :: Index.run_requests Examples.acme
                         (VStr (Index.comments_url (VNum 7))) Examples.pages7),
       Thrown e).
Proof.
  apply (proj2 (getTicket_reads_the_ticket_last MoreExamples.null_ticket Examples.acme
                  3 (VNum 7) World0) VNull Examples.pages7).
  - reflexivity.
  - reflexivity.
  - vm_compute. repeat split; reflexivity.
  - vm_compute. lia.
Defined.
